(** * Aggregation core of the social-media dashboard

    A shallow embedding of the data transformations of
    [src/components/dashboard/ReachSection.tsx] (the components
    [ReachSection] and [SentimentAnalysis]) and
    [src/components/dashboard/HashtagSection.tsx], with the part of the
    JavaScript runtime they rest on ([Date], [Set], [Array.prototype.sort],
    truthiness, IEEE doubles), followed by the properties the
    specification states about them.

    Every number of the code is a binary64 float, as in JavaScript:
    timestamps, sentiment scores, and the reach, impression and view
    counts, which the code adds as doubles.  [countNumber n] is the double
    of the count [n]; adding counts as doubles is exact as long as the sum
    is at most 2^53, and rounds beyond. *)

From Stdlib Require Import ZArith Lia Ascii String.
From Stdlib Require Import Floats.PrimFloat Floats.SpecFloat Floats.FloatOps
  Floats.FloatAxioms.
From Stdlib Require Import Uint63.
From stdpp Require Import gmap strings list sorting.

(* [set_solver] and [naive_solver] clear hypotheses that may be gone. *)
Set Warnings "-clear-no-such-hyp".

(* A decimal literal stands for the nearest double, as in JavaScript. *)
Set Warnings "-inexact-float".

(* ===================================================================== *)
(** * Part I: definitions *)
(* ===================================================================== *)

(** ** Exceptions

    A JavaScript call either returns or throws.  Every function below that
    contains a call which can throw is written in this monad. *)

Inductive JsError : Type := RangeError | TypeError.

Inductive result (A : Type) : Type :=
| Ok (a : A)
| Throw (e : JsError).
Arguments Ok {A} a.
Arguments Throw {A} e.

Global Instance result_ret : MRet result := fun A a => Ok a.

Global Instance result_bind : MBind result := fun A B k r =>
  match r with
  | Ok a => k a
  | Throw e => Throw e
  end.

Global Instance result_fmap : FMap result := fun A B f r =>
  match r with
  | Ok a => Ok (f a)
  | Throw e => Throw e
  end.

(** [l.forEach(f)] over a mutable accumulator [s]. *)
Fixpoint forEachM {A S : Type} (f : S -> A -> result S) (l : list A) (s : S)
  : result S :=
  match l with
  | [] => Ok s
  | a :: l' => s' ← f s a; forEachM f l' s'
  end.

(** [l.map((a, i) => f(i, a))] with a callback that can throw; [i] is the
    index of the head of [l]. *)
Fixpoint mapIndexM {A B : Type} (f : nat -> A -> result B) (i : nat)
    (l : list A) : result (list B) :=
  match l with
  | [] => Ok []
  | a :: l' => b ← f i a; bs ← mapIndexM f (S i) l'; Ok (b :: bs)
  end.

(** ** Numbers *)

(** [ToBoolean] on a number: [0], [-0] and [NaN] are falsy. *)
Definition truthyNumber (x : float) : bool :=
  negb (PrimFloat.is_nan x || PrimFloat.eqb x 0%float).

(** [ToIntegerOrInfinity] on a finite double: truncation towards zero. *)
Definition truncate (x : float) : Z :=
  match Prim2SF x with
  | S754_finite s m e =>
      let v := if (0 <=? e)%Z then (Z.pos m * 2 ^ e)%Z
               else (Z.pos m / 2 ^ (- e))%Z in
      if s then (- v)%Z else v
  | _ => 0%Z
  end.

(** [arr.length] as a number. *)
Definition lengthNumber {A : Type} (l : list A) : float :=
  PrimFloat.of_uint63 (Uint63.of_Z (Z.of_nat (length l))).

(** The double of a count [n] (a non-negative integer below 2^63), and
    the 53 bits of its mantissa. *)
Definition countNumber (n : Z) : float := PrimFloat.of_uint63 (Uint63.of_Z n).

Definition mantissa (n : Z) : Z := (n * 2 ^ 52 / 2 ^ Z.log2 n)%Z.

(** ** Strings *)

(** [s.split(sep)[0]] for a one-character separator: the text before the
    first [sep], or all of [s] when it has none. *)
Fixpoint splitHead (sep : ascii) (s : string) : string :=
  match s with
  | EmptyString => EmptyString
  | String c s' => if Ascii.eqb c sep then EmptyString
                   else String c (splitHead sep s')
  end.

(** Whether [p] is a prefix of [s], and [s] without its first [n]
    characters. *)
Fixpoint startsWith (p s : string) : bool :=
  match p, s with
  | EmptyString, _ => true
  | String a p', String b s' => Ascii.eqb a b && startsWith p' s'
  | String _ _, EmptyString => false
  end.

Fixpoint dropChars (n : nat) (s : string) : string :=
  match n, s with
  | O, _ => s
  | S n', String _ s' => dropChars n' s'
  | S _, EmptyString => EmptyString
  end.

(** [s.replace(pat, rep)] with a string pattern and a replacement without
    [$]: the first occurrence only. *)
Fixpoint replace (pat rep s : string) : string :=
  if startsWith pat s then rep +:+ dropChars (String.length pat) s
  else match s with
       | EmptyString => EmptyString
       | String c s' => String c (replace pat rep s')
       end.

Definition digitChar (d : Z) : ascii := ascii_of_N (48 + Z.to_N d).

Definition charDigit (c : ascii) : option Z :=
  let n := Z.of_N (N_of_ascii c) in
  if ((48 <=? n) && (n <=? 57))%Z then Some (n - 48)%Z else None.

(** The [w] low decimal digits of [n], most significant first. *)
Fixpoint padDigits (w : nat) (n : Z) (acc : string) : string :=
  match w with
  | O => acc
  | S w' => padDigits w' (n / 10)%Z (String (digitChar (n mod 10)%Z) acc)
  end.

Definition pad (w : nat) (n : Z) : string := padDigits w n EmptyString.

Definition digitsValue (cs : list ascii) : option Z :=
  foldl (fun acc c => a ← acc; d ← charDigit c; Some (10 * a + d)%Z)
        (Some 0%Z) cs.

(** ** Dates (ECMAScript 21.4) *)

Section calendar.
Local Open Scope Z_scope.

Definition msPerDay : Z := 86400000.
Definition maxTime : Z := 8640000000000000.

Definition Day (t : Z) : Z := t / msPerDay.
Definition TimeWithinDay (t : Z) : Z := t mod msPerDay.

Definition DaysInYear (y : Z) : Z :=
  if negb (y mod 4 =? 0) then 365
  else if negb (y mod 100 =? 0) then 366
  else if negb (y mod 400 =? 0) then 365
  else 366.

Definition DayFromYear (y : Z) : Z :=
  365 * (y - 1970) + (y - 1969) / 4 - (y - 1901) / 100 + (y - 1601) / 400.

(** The largest [y] with [DayFromYear y <= d]: an estimate from the mean
    year length, off by at most one. *)
Definition YearFromDay (d : Z) : Z :=
  let y := 1970 + (400 * d) / 146097 in
  if d <? DayFromYear y then y - 1
  else if DayFromYear (y + 1) <=? d then y + 1
  else y.

Definition YearFromTime (t : Z) : Z := YearFromDay (Day t).

Definition InLeapYear (y : Z) : Z := if DaysInYear y =? 366 then 1 else 0.

Definition DayWithinYear (t : Z) : Z := Day t - DayFromYear (YearFromTime t).

(** Day within the year on which month [m] (0 = January) starts. *)
Definition MonthStart (m leap : Z) : Z :=
  match m with
  | 0 => 0
  | 1 => 31
  | 2 => 59 + leap
  | 3 => 90 + leap
  | 4 => 120 + leap
  | 5 => 151 + leap
  | 6 => 181 + leap
  | 7 => 212 + leap
  | 8 => 243 + leap
  | 9 => 273 + leap
  | 10 => 304 + leap
  | 11 => 334 + leap
  | _ => 365 + leap
  end.

Definition MonthFromDay (dwy leap : Z) : Z :=
  if dwy <? 31 then 0
  else if dwy <? 59 + leap then 1
  else if dwy <? 90 + leap then 2
  else if dwy <? 120 + leap then 3
  else if dwy <? 151 + leap then 4
  else if dwy <? 181 + leap then 5
  else if dwy <? 212 + leap then 6
  else if dwy <? 243 + leap then 7
  else if dwy <? 273 + leap then 8
  else if dwy <? 304 + leap then 9
  else if dwy <? 334 + leap then 10
  else 11.

Definition MonthFromTime (t : Z) : Z :=
  MonthFromDay (DayWithinYear t) (InLeapYear (YearFromTime t)).

Definition DateFromTime (t : Z) : Z :=
  DayWithinYear t
  - MonthStart (MonthFromTime t) (InLeapYear (YearFromTime t)) + 1.

Definition HourFromTime (t : Z) : Z := (t / 3600000) mod 24.
Definition MinFromTime (t : Z) : Z := (t / 60000) mod 60.
Definition SecFromTime (t : Z) : Z := (t / 1000) mod 60.
Definition msFromTime (t : Z) : Z := t mod 1000.

(** [MakeDay(year, month, date)] for a month in 0..11. *)
Definition MakeDay (y m dt : Z) : Z :=
  DayFromYear y + MonthStart m (InLeapYear y) + dt - 1.

Definition DaysInMonth (y m : Z) : Z :=
  MonthStart (m + 1) (InLeapYear y) - MonthStart m (InLeapYear y).

End calendar.

(** A [Date] object is its time value: [None] is [NaN], the Invalid Date. *)
Definition JsDate : Type := option Z.

(** [TimeClip] on an integer and on a double.  The standard compares the
    magnitude of the double with 8.64e15 before truncating it; a double
    beyond 2^52 is an integer, so the comparison made after truncation
    gives the same answer. *)
Definition TimeClipZ (t : Z) : JsDate :=
  if (Z.abs t <=? maxTime)%Z then Some t else None.

Definition TimeClip (x : float) : JsDate :=
  if PrimFloat.is_nan x || PrimFloat.is_infinity x then None
  else TimeClipZ (truncate x).

(** The year of the ISO format: four digits for 0..9999, otherwise a sign
    and six digits. *)
Definition isoYear (y : Z) : string :=
  if ((0 <=? y) && (y <=? 9999))%Z then pad 4 y
  else String (if (y <? 0)%Z then "-"%char else "+"%char) (pad 6 (Z.abs y)).

(** The date part [YYYY-MM-DD] of the ISO format, for a time value. *)
Definition isoDate (t : Z) : string :=
  isoYear (YearFromTime t) +:+ "-" +:+ pad 2 (MonthFromTime t + 1)
  +:+ "-" +:+ pad 2 (DateFromTime t).

Definition isoTime (t : Z) : string :=
  pad 2 (HourFromTime t) +:+ ":" +:+ pad 2 (MinFromTime t) +:+ ":"
  +:+ pad 2 (SecFromTime t) +:+ "." +:+ pad 3 (msFromTime t).

(** [Date.prototype.toISOString]: a [RangeError] on the Invalid Date. *)
Definition toISOString (d : JsDate) : result string :=
  match d with
  | None => Throw RangeError
  | Some t => Ok (isoDate t +:+ "T" +:+ isoTime t +:+ "Z")
  end.

(** [isNaN(date.getTime())]. *)
Definition isInvalidDate (d : JsDate) : bool :=
  match d with None => true | Some _ => false end.

(** The date-only forms of the ECMAScript date-time string format,
    [YYYY-MM-DD] and [+YYYYYY-MM-DD] / [-YYYYYY-MM-DD], read as UTC
    midnight.  [None] when [s] is not of that form or a field is out of
    range ([-000000] is no year). *)
Definition parseMonthDay (y : Z) (cs : list ascii) : option Z :=
  match cs with
  | [h1; m1; m2; h2; d1; d2] =>
      if Ascii.eqb h1 "-" && Ascii.eqb h2 "-" then
        m ← digitsValue [m1; m2];
        d ← digitsValue [d1; d2];
        if ((1 <=? m) && (m <=? 12) && (1 <=? d) && (d <=? DaysInMonth y (m - 1)))%Z
        then Some (MakeDay y (m - 1) d * msPerDay)%Z
        else None
      else None
  | _ => None
  end.

Definition parseDateOnly (s : string) : option Z :=
  match String.list_ascii_of_string s with
  | c :: y1 :: y2 :: y3 :: rest =>
      if Ascii.eqb c "+" || Ascii.eqb c "-" then
        match rest with
        | y4 :: y5 :: y6 :: rest' =>
            y ← digitsValue [y1; y2; y3; y4; y5; y6];
            if Ascii.eqb c "-" then
              if (y =? 0)%Z then None else parseMonthDay (- y)%Z rest'
            else parseMonthDay y rest'
        | _ => None
        end
      else
        y ← digitsValue [c; y1; y2; y3];
        parseMonthDay y rest
  | _ => None
  end.

(** The shape [YYYY-MM-DD]: four digits, two digits and two digits,
    joined by hyphens. *)
Definition isDigit (c : ascii) : bool :=
  match charDigit c with Some _ => true | None => false end.

Definition isYMD (s : string) : bool :=
  match String.list_ascii_of_string s with
  | [y1; y2; y3; y4; h1; m1; m2; h2; d1; d2] =>
      forallb isDigit [y1; y2; y3; y4; m1; m2; d1; d2]
      && Ascii.eqb h1 "-" && Ascii.eqb h2 "-"
  | _ => false
  end.

(** The shape of a key with an expanded year: a sign, six digits, two
    digits and two digits, joined by hyphens. *)
Definition isExpandedYMD (s : string) : bool :=
  match String.list_ascii_of_string s with
  | [sg; y1; y2; y3; y4; y5; y6; h1; m1; m2; h2; d1; d2] =>
      (Ascii.eqb sg "+" || Ascii.eqb sg "-")
      && forallb isDigit [y1; y2; y3; y4; y5; y6; m1; m2; d1; d2]
      && Ascii.eqb h1 "-" && Ascii.eqb h2 "-"
  | _ => false
  end.

(** The key of the UTC day number [d]. *)
Definition dayKey (d : Z) : string := isoDate (d * msPerDay).

(** What the host decides: the parse of a string that is not a date-only
    ISO form (the other ISO forms depend on the local time zone, and the
    standard leaves every other string to the implementation), the time
    zone, and the locale data.  [getTimezoneOffset h t] is what
    [getTimezoneOffset()] returns, in minutes, on a date of time value
    [t]; [toLocaleDateString h d] is
    [d.toLocaleDateString('en-US', { month: 'short', day: 'numeric' })]. *)
Record Host : Type := {
  hostParse : string -> option Z;
  getTimezoneOffset : Z -> Z;
  toLocaleDateString : JsDate -> string
}.

(** [Date.parse]. *)
Definition Date_parse (h : Host) (s : string) : option Z :=
  match parseDateOnly s with
  | Some t => Some t
  | None => hostParse h s
  end.

(** [new Date(s)] for a string and [new Date(x)] for a number. *)
Definition Date_ofString (h : Host) (s : string) : JsDate :=
  t ← Date_parse h s; TimeClipZ t.

Definition Date_ofNumber (x : float) : JsDate := TimeClip x.

(** ** Data model

    [../../types] is not among the sources: the shapes below are read off
    the fields the components use. *)

Inductive SocialPlatform : Type := Instagram | TikTok.

Definition platformName (p : SocialPlatform) : string :=
  match p with Instagram => "Instagram" | TikTok => "TikTok" end.

(** Modelled from the spec: the type of [sentimentLabel], declared in the
    missing [types] module; the data model gives it as the enumeration
    positive / neutral / negative. *)
Inductive SentimentLabel : Type := LabelPositive | LabelNeutral | LabelNegative.

Global Instance SentimentLabel_eq_dec : EqDecision SentimentLabel.
Proof. solve_decision. Defined.

(** What [formatDateForGrouping] accepts: [string | number | Date]. *)
Inductive DateInput : Type :=
| DNum (x : float)
| DStr (s : string)
| DDate (d : JsDate).

(** A property of an object that the code both reads and tests with [in]:
    missing, present without a value ([undefined] or [null]), or set. *)
Inductive field (A : Type) : Type :=
| Absent
| Undefined
| Value (a : A).
Arguments Absent {A}.
Arguments Undefined {A}.
Arguments Value {A} a.

(** A post object.  [InstagramPost] and [TikTokPost] are the same objects
    seen through a cast, so one record carries the fields of both; a field
    an object lacks is [None].  The components read all fields but the
    last two; [text] and [hashtags] are the data model's (section 3), for
    the hashtag extraction. *)
Record Post : Type := {
  timestamp : option DateInput;
  createTime : option DateInput;
  sentimentScore : field float;
  sentimentLabel : field SentimentLabel;
  reach : option float;
  impressions : option float;
  views : option float;
  text : option string;
  hashtags : option (list string)
}.

(** [typeof v === 'number'] and ['key' in post]. *)
Definition isNumber {A : Type} (f : field A) : bool :=
  match f with Value _ => true | _ => false end.

Definition hasProperty {A : Type} (f : field A) : bool :=
  match f with Absent => false | _ => true end.

(** [ToBoolean] on a timestamp. *)
Definition truthyDate (d : option DateInput) : bool :=
  match d with
  | None => false
  | Some (DNum x) => truthyNumber x
  | Some (DStr s) => negb (String.eqb s "")
  | Some (DDate _) => true
  end.

(** [a || b] on an optional number: [undefined], [0], [-0] and [NaN] are
    falsy. *)
Definition orElse (a : option float) (b : float) : float :=
  match a with
  | Some v => if truthyNumber v then v else b
  | None => b
  end.

(** A [Set] in insertion order, as [Array.from] lists it. *)
Definition setAdd (k : string) (s : list string) : list string :=
  if decide (k ∈ s) then s else s ++ [k].

(** [Array.prototype.sort(comparefn)].  A comparator result of [NaN]
    ([None]) counts as 0.  The standard fixes the sorted order only for a
    consistent comparator; on the date keys sorted below the comparator is
    a strict total order, so that every sorting algorithm returns the list
    [merge_sort] does. *)
Definition sortBefore {A : Type} (comparefn : A -> A -> option Z) (a b : A) : Prop :=
  match comparefn a b with
  | Some v => (v <= 0)%Z
  | None => True
  end.

Global Instance sortBefore_dec {A : Type} (comparefn : A -> A -> option Z) :
  RelDecision (sortBefore comparefn).
Proof. intros a b. unfold sortBefore. destruct (comparefn a b); apply _. Defined.

Definition arraySort {A : Type} (comparefn : A -> A -> option Z) (l : list A)
  : list A :=
  merge_sort (sortBefore comparefn) l.

(** The chart structure handed to the chart library: [{ labels, datasets }]. *)
Record ChartData (L D : Type) : Type := {
  labels : list L;
  datasets : list D
}.
Arguments labels {L D} c.
Arguments datasets {L D} c.

(** What a chart slot renders. *)
Inductive ChartView (D : Type) : Type :=
| Chart (chart : D)
| EmptyChartFallback (message : string).
Arguments Chart {D} chart.
Arguments EmptyChartFallback {D} message.

Definition isFallback {D : Type} (v : ChartView D) : bool :=
  match v with EmptyChartFallback _ => true | Chart _ => false end.

(** ** [SentimentAnalysis]: date keys *)

(** The [date] that [formatDateForGrouping] builds from its argument. *)
Definition groupingDate (h : Host) (dateInput : DateInput) : JsDate :=
  match dateInput with
  | DNum x => if PrimFloat.ltb x 1e12%float
              then Date_ofNumber (x * 1000)%float
              else Date_ofNumber x
  | DStr s => Date_ofString h s
  | DDate d => t ← d; TimeClipZ t
  end.

Definition formatDateForGrouping (h : Host) (dateInput : DateInput)
  : result string :=
  let date := groupingDate h dateInput in
  if isInvalidDate date then Ok ""
  else s ← toISOString date; Ok (splitHead "T" s).

Definition formatDateForLabel (h : Host) (dateStr : string) : string :=
  let date := Date_ofString h dateStr in
  let shifted := t ← date; TimeClipZ (t + getTimezoneOffset h t * 60000) in
  toLocaleDateString h shifted.

(** The comparator of [sortedDates]. *)
Definition compareDates (h : Host) (a b : string) : option Z :=
  x ← Date_ofString h a; y ← Date_ofString h b; Some (x - y)%Z.

Definition vibrantColors : list string := [
  "rgba(219, 68, 55, 0.8)";
  "rgba(244, 180, 0, 0.8)";
  "rgba(15, 157, 88, 0.8)";
  "rgba(171, 71, 188, 0.8)";
  "rgba(255, 112, 67, 0.8)";
  "rgba(3, 169, 244, 0.8)";
  "rgba(0, 188, 212, 0.8)";
  "rgba(139, 195, 74, 0.8)";
  "rgba(255, 193, 7, 0.8)";
  "rgba(121, 85, 72, 0.8)";
  "rgba(96, 125, 139, 0.8)"
].

Definition NORDSTROM_BLUE : string := "#004170".
Definition NORDSTROM_BLUE_FILL : string := "rgba(0, 65, 112, 0.1)".

(** [palette[i % palette.length]], read for a method call: a [TypeError]
    if the slot were [undefined]. *)
Definition paletteColor (palette : list string) (i : nat) : result string :=
  match palette !! (i mod length palette) with
  | Some c => Ok c
  | None => Throw TypeError
  end.

(** [scores.reduce((a, b) => a + b, 0) / scores.length]. *)
Definition average (scores : list float) : float :=
  (foldl PrimFloat.add 0%float scores / lengthNumber scores)%float.

(** The three counters of the distribution loop. *)
Record Counts : Type := {
  positiveCount : nat;
  neutralCount : nat;
  negativeCount : nat
}.

Definition countPost (c : Counts) (post : Post) : Counts :=
  match sentimentScore post with
  | Value score =>
      if PrimFloat.ltb 0%float score then
        {| positiveCount := S (positiveCount c); neutralCount := neutralCount c;
           negativeCount := negativeCount c |}
      else if PrimFloat.ltb score 0%float then
        {| positiveCount := positiveCount c; neutralCount := neutralCount c;
           negativeCount := S (negativeCount c) |}
      else
        {| positiveCount := positiveCount c; neutralCount := S (neutralCount c);
           negativeCount := negativeCount c |}
  | _ =>
      match sentimentLabel post with
      | Value LabelPositive =>
        {| positiveCount := S (positiveCount c); neutralCount := neutralCount c;
           negativeCount := negativeCount c |}
      | Value LabelNegative =>
        {| positiveCount := positiveCount c; neutralCount := neutralCount c;
           negativeCount := S (negativeCount c) |}
      | Value LabelNeutral =>
        {| positiveCount := positiveCount c; neutralCount := S (neutralCount c);
           negativeCount := negativeCount c |}
      | _ => c
      end
  end.

Definition countPosts (brandPosts : list Post) : Counts :=
  foldl countPost
    {| positiveCount := 0; neutralCount := 0; negativeCount := 0 |} brandPosts.

(** ** [ReachSection]: the metric of one post *)

Definition postReach (platform : SocialPlatform) (post : Post) : float :=
  match platform with
  | Instagram => orElse (reach post) (orElse (impressions post) 0%float)
  | TikTok => orElse (views post) 0%float
  end.

(** The bar dataset of the reach chart (its colour arrays and border width
    are styling and left out). *)
Record BarDataset : Type := {
  barLabel : string;
  barData : list float
}.

(** The palette of [ReachSection]: twelve colours, the first of which the
    palette of [SentimentAnalysis] leaves out. *)
Module ReachSection.

Definition vibrantColors : list string := [
  "rgba(66, 133, 244, 0.8)";
  "rgba(219, 68, 55, 0.8)";
  "rgba(244, 180, 0, 0.8)";
  "rgba(15, 157, 88, 0.8)";
  "rgba(171, 71, 188, 0.8)";
  "rgba(255, 112, 67, 0.8)";
  "rgba(3, 169, 244, 0.8)";
  "rgba(0, 188, 212, 0.8)";
  "rgba(139, 195, 74, 0.8)";
  "rgba(255, 193, 7, 0.8)";
  "rgba(121, 85, 72, 0.8)";
  "rgba(96, 125, 139, 0.8)"
].

End ReachSection.

(** ** A sample host

    A host in the UTC time zone with the en-US short month names, for the
    examples.  It recognises no string beyond the date-only ISO forms; the
    examples use no other string but one that no engine reads as a date. *)

Definition monthShort (m : Z) : string :=
  match m with
  | 0 => "Jan" | 1 => "Feb" | 2 => "Mar" | 3 => "Apr" | 4 => "May"
  | 5 => "Jun" | 6 => "Jul" | 7 => "Aug" | 8 => "Sep" | 9 => "Oct"
  | 10 => "Nov" | _ => "Dec"
  end%Z.

Definition dayNumeric (d : Z) : string :=
  if (d <? 10)%Z then pad 1 d else pad 2 d.

Definition utcHost : Host := {|
  hostParse := fun _ => None;
  getTimezoneOffset := fun _ => 0%Z;
  toLocaleDateString := fun d =>
    match d with
    | None => "Invalid Date"
    | Some t => monthShort (MonthFromTime t) +:+ " " +:+ dayNumeric (DateFromTime t)
    end
|}.

(** A host in a time zone at a fixed [offset]: what [getTimezoneOffset()]
    returns there, the minutes from local time to UTC (300 for UTC-5).
    Its [toLocaleDateString] writes the month and the day of the local
    time, which is the time value less the offset. *)
Definition zoneHost (offset : Z) : Host := {|
  hostParse := fun _ => None;
  getTimezoneOffset := fun _ => offset;
  toLocaleDateString := fun d =>
    match d with
    | None => "Invalid Date"
    | Some t =>
        let localTime := (t - offset * 60000)%Z in
        monthShort (MonthFromTime localTime) +:+ " "
        +:+ dayNumeric (DateFromTime localTime)
    end
|}.

(** ** Sample data *)

Definition samplePost (ts : option DateInput) (score : field float)
    (reachCount : option Z) : Post :=
  {| timestamp := ts; createTime := None; sentimentScore := score;
     sentimentLabel := Absent; reach := countNumber <$> reachCount;
     impressions := None;
     views := None; text := None; hashtags := None |}.

Definition taggedPost (tags : list string) : Post :=
  {| timestamp := None; createTime := None; sentimentScore := Absent;
     sentimentLabel := Absent; reach := None; impressions := None;
     views := None; text := None; hashtags := Some tags |}.

(** 1 January 2024, in seconds; 2 January 2024, in milliseconds. *)
Definition jan1 : DateInput := DNum 1704067200.
Definition jan2 : DateInput := DNum 1704153600000.

(** Two brands; Nordstrom has two scored posts on 1 January. *)
Definition sampleBrands : list string := ["Macys"; "Nordstrom"].

Definition samplePosts : gmap string (list Post) :=
  <["Nordstrom" := [samplePost (Some jan1) (Value 0.5%float) (Some 10%Z);
                    samplePost (Some jan1) (Value (-0.5)%float) (Some 10%Z)]]>
  (<["Macys" := [samplePost (Some jan2) (Value 0.25%float) (Some 7%Z)]]> ∅).

(** A post with a valid timestamp and no score; one whose timestamp no
    engine reads as a date; one stamped with second 0. *)
Definition unscoredPost : Post := samplePost (Some jan1) Absent (Some 10%Z).
Definition malformedPost : Post :=
  samplePost (Some (DStr "not a date")) (Value 0.5%float) (Some 10%Z).
Definition epochPost : Post :=
  samplePost (Some (DNum 0)) (Value 0.5%float) (Some 10%Z).

Definition unscoredPosts : gmap string (list Post) :=
  <["Nordstrom" := [unscoredPost]]> ∅.


(** Macys with three posts whose reach counts are 2^53, 1 and 1. *)
Definition largePosts : gmap string (list Post) :=
  <["Macys" := [samplePost None Absent (Some 9007199254740992%Z);
                samplePost None Absent (Some 1%Z);
                samplePost None Absent (Some 1%Z)]]> ∅.

(** Macys with three posts whose reach count is 2^53 - 1 each. *)
Definition equalPosts : gmap string (list Post) :=
  <["Macys" := replicate 3 (samplePost None Absent (Some 9007199254740991%Z))]> ∅.

(** ** Proof automation *)

(** Linear arithmetic after eliminating division and remainder. *)
Ltac zdiv := Z.div_mod_to_equations; lia.

(** Brings a string built from [pad] and [+:+] into constructor form. *)
Ltac norm_string :=
  unfold pad; cbn [padDigits];
  repeat change (String ?c ?s +:+ ?r) with (String c (s +:+ r));
  repeat change (EmptyString +:+ ?r) with r;
  cbn [list_ascii_of_string].

(** ** The components

    [Brand] is the union of brand names declared in the missing [types]
    module, taken here as any countable type; the one name
    the code spells out is ['Nordstrom'].  Brands index plain objects
    ([posts[brand]], [dailyBrandSentiments[dateKey][brand]]): read as
    strings, they are not names of members of [Object.prototype].  The
    [posts] prop is a [Record<Brand, Post[] | undefined>]. *)

Section Dashboard.
Context {Brand : Type} `{Countable Brand}.
Variable Nordstrom : Brand.
Variable host : Host.

(** [posts[brand] || []]. *)
Definition brandPostsOf (posts : gmap Brand (list Post)) (brand : Brand)
  : list Post :=
  default [] (posts !! brand).

(** *** [ReachSection] *)

(** [hasData] of [ReachSection]:
    [selectedBrands.some(brand => (posts[brand]?.length || 0) > 0)]. *)
Definition reachHasData (selectedBrands : list Brand)
    (posts : gmap Brand (list Post)) : bool :=
  existsb (fun brand => 0 <? length (brandPostsOf posts brand)) selectedBrands.

(** The inner loop of [totalReachByBrand]: [totalReach] after
    [brandPosts.forEach]. *)
Definition brandReach (platform : SocialPlatform)
    (posts : gmap Brand (list Post)) (brand : Brand) : float :=
  foldl (fun totalReach post => (totalReach + postReach platform post)%float)
        0%float (brandPostsOf posts brand).

(** [totalReachByBrand]; [reachValues] is filled by [push] in the outer
    loop. *)
Definition totalReachByBrand (platform : SocialPlatform)
    (selectedBrands : list Brand) (posts : gmap Brand (list Post))
  : ChartData Brand BarDataset :=
  let reachValues :=
    foldl (fun reachValues brand => reachValues ++ [brandReach platform posts brand])
          [] selectedBrands in
  {| labels := selectedBrands;
     datasets := [ {| barLabel := "Total " +:+ platformName platform +:+ " Reach";
                      barData := reachValues |} ] |}.

(** The two colour arrays of that dataset:
    [selectedBrands.map((_, i) => vibrantColors[i % vibrantColors.length])],
    where an empty slot would be [undefined], and the same with
    [.replace('0.8', '1')] called on each entry. *)
Definition barBackgroundColor (selectedBrands : list Brand)
  : list (option string) :=
  imap (fun i _ => ReachSection.vibrantColors
                     !! (i mod length ReachSection.vibrantColors))
       selectedBrands.

Definition barBorderColor (selectedBrands : list Brand) : result (list string) :=
  mapIndexM (fun i _ => color ← paletteColor ReachSection.vibrantColors i;
                        Ok (replace "0.8" "1" color))
            0 selectedBrands.

(** What [ReachSection] draws: [!hasData ? fallback : <Bar/>]. *)
Definition renderReach (platform : SocialPlatform)
    (selectedBrands : list Brand) (posts : gmap Brand (list Post))
  : ChartView (ChartData Brand BarDataset) :=
  if negb (reachHasData selectedBrands posts)
  then EmptyChartFallback "No reach data available"
  else Chart (totalReachByBrand platform selectedBrands posts).

(** *** [SentimentAnalysis] *)

(** [hasData] of [SentimentAnalysis]: the posts of the selected brands are
    counted, and the count compared with 0. *)
Definition hasData (selectedBrands : list Brand)
    (posts : gmap Brand (list Post)) : bool :=
  let totalPosts :=
    foldl (fun totalPosts brand => totalPosts + length (brandPostsOf posts brand))
          0 selectedBrands in
  0 <? totalPosts.

(** [checkAndFixTikTokData]: on TikTok, there are posts and none carries a
    [sentimentScore] or [sentimentLabel] property. *)
Definition checkAndFixTikTokData (platform : SocialPlatform)
    (selectedBrands : list Brand) (posts : gmap Brand (list Post)) : bool :=
  match platform with
  | TikTok =>
      let '(hasPosts, hasSentiment) :=
        foldl (fun '(hasPosts, hasSentiment) brand =>
                 let brandPosts := brandPostsOf posts brand in
                 if 0 <? length brandPosts then
                   (true,
                    if existsb (fun post => hasProperty (sentimentScore post)
                                            || hasProperty (sentimentLabel post))
                               brandPosts
                    then true else hasSentiment)
                 else (hasPosts, hasSentiment))
              (false, false) selectedBrands in
      hasPosts && negb hasSentiment
  | Instagram => false
  end.

(** The two accumulators of the grouping loop. *)
Record Grouping : Type := {
  dailyBrandSentiments : gmap string (gmap Brand (list float));
  allDates : list string
}.

Definition emptyGrouping : Grouping :=
  {| dailyBrandSentiments := ∅; allDates := [] |}.

(** [dailyBrandSentiments[dateKey][brand].push(score)], creating the two
    levels when missing. *)
Definition pushScore (dateKey : string) (brand : Brand) (score : float)
    (daily : gmap string (gmap Brand (list float)))
  : gmap string (gmap Brand (list float)) :=
  let byBrand := default ∅ (daily !! dateKey) in
  let scores := default [] (byBrand !! brand) in
  <[dateKey := <[brand := scores ++ [score]]> byBrand]> daily.

(** [platform === 'Instagram' ? post.timestamp : post.createTime]. *)
Definition postTimestamp (platform : SocialPlatform) (post : Post)
  : option DateInput :=
  match platform with
  | Instagram => timestamp post
  | TikTok => createTime post
  end.

(** The body of [brandPosts.forEach(post => ...)]. *)
Definition groupPost (platform : SocialPlatform) (brand : Brand)
    (g : Grouping) (post : Post) : result Grouping :=
  match postTimestamp platform post, sentimentScore post with
  | Some ts, Value score =>
      if truthyDate (Some ts) then
        dateKey ← formatDateForGrouping host ts;
        if String.eqb dateKey "" then Ok g
        else Ok {| dailyBrandSentiments :=
                     pushScore dateKey brand score (dailyBrandSentiments g);
                   allDates := setAdd dateKey (allDates g) |}
      else Ok g
  | _, _ => Ok g
  end.

(** The body of the first [selectedBrands.forEach], and the whole loop
    from the empty accumulators. *)
Definition groupBrand (platform : SocialPlatform)
    (posts : gmap Brand (list Post)) (g : Grouping) (brand : Brand)
  : result Grouping :=
  forEachM (groupPost platform brand) (brandPostsOf posts brand) g.

Definition groupPosts (platform : SocialPlatform)
    (selectedBrands : list Brand) (posts : gmap Brand (list Post))
  : result Grouping :=
  forEachM (groupBrand platform posts) selectedBrands emptyGrouping.

(** [sortedDates]: [Array.from(allDates).sort(...)]. *)
Definition sortedDatesOf (g : Grouping) : list string :=
  arraySort (compareDates host) (allDates g).

(** [scores && scores.length > 0 ? mean : null]. *)
Definition meanOrNull (scores : list float) : option float :=
  if 0 <? length scores then Some (average scores) else None.

(** One entry of a brand's vector. *)
Definition dailyMean (g : Grouping) (brand : Brand) (date : string)
  : option float :=
  match dailyBrandSentiments g !! date ≫= (fun byBrand => byBrand !! brand) with
  | Some scores => meanOrNull scores
  | None => None
  end.

(** A line dataset (the constants [fill], [tension] and the point radii
    are styling and left out). *)
Record LineDataset : Type := {
  label : Brand;
  data : list (option float);
  borderColor : string;
  backgroundColor : string
}.

(** The dataset pushed first when ['Nordstrom'] is selected. *)
Definition nordstromDataset (g : Grouping) : LineDataset :=
  {| label := Nordstrom;
     data := map (dailyMean g Nordstrom) (sortedDatesOf g);
     borderColor := NORDSTROM_BLUE;
     backgroundColor := NORDSTROM_BLUE_FILL |}.

(** The body of the second [selectedBrands.forEach], over [chartDatasets]
    and [colorIdx]. *)
Definition pushBrandDataset (g : Grouping)
    (st : list LineDataset * nat) (brand : Brand)
  : result (list LineDataset * nat) :=
  let '(chartDatasets, colorIdx) := st in
  if decide (brand = Nordstrom) then Ok st
  else
    let brandData := map (dailyMean g brand) (sortedDatesOf g) in
    color ← paletteColor vibrantColors colorIdx;
    Ok (chartDatasets ++
          [ {| label := brand;
               data := brandData;
               borderColor := replace "0.8" "1" color;
               backgroundColor := replace "0.8" "0.1" color |} ],
        S colorIdx).

(** The memo [comparativeAvgSentimentOverTimeData]. *)
Definition comparativeAvgSentimentOverTimeData (platform : SocialPlatform)
    (selectedBrands : list Brand) (posts : gmap Brand (list Post))
  : result (ChartData string LineDataset) :=
  if negb (hasData selectedBrands posts)
  then Ok {| labels := []; datasets := [] |}
  else
    g ← groupPosts platform selectedBrands posts;
    let sortedDates := sortedDatesOf g in
    let chartLabels := map (formatDateForLabel host) sortedDates in
    let chartDatasets :=
      if decide (Nordstrom ∈ selectedBrands) then [nordstromDataset g] else [] in
    st ← forEachM (pushBrandDataset g) selectedBrands (chartDatasets, 0);
    Ok {| labels := chartLabels; datasets := st.1 |}.

(** One doughnut: [datasets[0].data] is [distribution]. *)
Record BrandDistribution : Type := {
  brandName : Brand;
  distribution : list nat
}.

(** The memo [sentimentDistributionData]: one entry per selected brand,
    kept when one of its three counts is above 0. *)
Definition sentimentDistributionData (selectedBrands : list Brand)
    (posts : gmap Brand (list Post)) : list BrandDistribution :=
  if negb (hasData selectedBrands posts) then []
  else
    filter (fun d => Is_true (existsb (fun n => 0 <? n) (distribution d)))
      (map (fun brand =>
              let c := countPosts (brandPostsOf posts brand) in
              {| brandName := brand;
                 distribution := [positiveCount c; neutralCount c; negativeCount c] |})
           selectedBrands).

(** What the component returns. *)
Inductive SentimentView : Type :=
| NoSentimentData (message : string)
| TikTokTextNote
| SentimentCharts
    (timeSeries : ChartView (ChartData string LineDataset))
    (distributions : ChartView (list BrandDistribution)).

(** The component's [return]s; the two memos are computed before them. *)
Definition renderSentiment (platform : SocialPlatform)
    (selectedBrands : list Brand) (posts : gmap Brand (list Post))
  : result SentimentView :=
  overTime ← comparativeAvgSentimentOverTimeData platform selectedBrands posts;
  let distributionData := sentimentDistributionData selectedBrands posts in
  Ok (if negb (hasData selectedBrands posts)
         && negb (checkAndFixTikTokData platform selectedBrands posts)
      then NoSentimentData ("No " +:+ platformName platform
                            +:+ " data available for sentiment analysis")
      else if checkAndFixTikTokData platform selectedBrands posts
      then TikTokTextNote
      else SentimentCharts
             (if 0 <? length (labels overTime) then Chart overTime
              else EmptyChartFallback
                     "No time-series sentiment data available for selected brands.")
             (if 0 <? length distributionData then Chart distributionData
              else EmptyChartFallback "No sentiment distribution data available.")).

(** *** [HashtagSection] *)

(** The per-brand entry of [socialData.instagram] / [socialData.tiktok]. *)
Record BrandData : Type := {
  posts : option (list Post)
}.

Record SocialData : Type := {
  instagram : gmap Brand BrandData;
  tiktok : gmap Brand BrandData
}.

(** [data[brand]?.posts || []]. *)
Definition postsIn (platformData : gmap Brand BrandData) (brand : Brand)
  : list Post :=
  default [] (platformData !! brand ≫= posts).

(** [hasData] of [HashtagSection]: a selected brand has a post on either
    platform. *)
Definition hashtagHasData (contextSocialData : option SocialData)
    (selectedBrands : list Brand) : bool :=
  match contextSocialData with
  | None => false
  | Some socialData =>
      existsb (fun brand =>
                 let brandInstaData := postsIn (instagram socialData) brand in
                 let brandTiktokData := postsIn (tiktok socialData) brand in
                 (0 <? length brandInstaData) || (0 <? length brandTiktokData))
              selectedBrands
  end.

(** A bar dataset of the hashtag chart: a brand and its count per label. *)
Record HashtagDataset : Type := {
  hashtagBrand : Brand;
  hashtagCounts : list nat
}.

(** Modelled from the spec: the case folding behind "case-insensitive"
    in section 4.3, for the missing [generateUnifiedHashtagChart]. *)
Definition toLowerChar (c : ascii) : ascii :=
  let n := N_of_ascii c in
  if ((65 <=? n) && (n <=? 90))%N then ascii_of_N (n + 32) else c.

(** Modelled from the spec: a hashtag in lower case (section 4.3,
    "case-insensitive"), for the missing [generateUnifiedHashtagChart]. *)
Fixpoint toLowerCase (s : string) : string :=
  match s with
  | EmptyString => EmptyString
  | String c s' => String (toLowerChar c) (toLowerCase s')
  end.

(** Modelled from the spec: the hashtag extraction of
    [generateUnifiedHashtagChart] ([utils/chartUtils], not among the
    sources).  Section 4.3: "extracts hashtags (case-insensitive,
    #-prefixed tokens already present on the post or parsed from free
    text)". *)
Definition postHashtags (post : Post) : list string :=
  let tokens :=
    match hashtags post with
    | Some tags => tags
    | None => from_option String.words [] (text post)
    end in
  map toLowerCase (List.filter (startsWith "#") tokens).

(** Modelled from the spec: the "occurrence count" of a hashtag in a list
    of hashtags (section 4.3), for the missing
    [generateUnifiedHashtagChart]. *)
Definition tally (tag : string) (tags : list string) : nat :=
  length (List.filter (String.eqb tag) tags).

(** Modelled from the spec: the ranking of the missing
    [generateUnifiedHashtagChart], "ties broken by first-encountered
    order, stable" (section 4.3).  Descending by count; an entry goes
    after the earlier ones of the same count. *)
Fixpoint insertRanked (count : string -> nat) (tag : string)
    (ranked : list string) : list string :=
  match ranked with
  | [] => [tag]
  | t :: ranked' =>
      if count t <? count tag then tag :: t :: ranked'
      else t :: insertRanked count tag ranked'
  end.

(** Modelled from the spec: the distinct hashtags, given in
    first-encountered order, ranked by count (section 4.3), for the
    missing [generateUnifiedHashtagChart]. *)
Definition rankTags (count : string -> nat) (tags : list string) : list string :=
  foldl (fun ranked tag => insertRanked count tag ranked) [] tags.

(** Modelled from the spec: the aggregation of the missing
    [generateUnifiedHashtagChart] ([utils/chartUtils]), after section 4.3
    ([topHashtags]): occurrence counts pooled over the selected brands
    decide the top [k] hashtags (ties by first-encountered order); every
    brand's vector holds its own count for each of them; with no hashtag
    at all the result is the empty label/series pair.  A negative [k] is
    excluded by the type of [k]. *)
Definition topHashtags (instagramData tiktokData : gmap Brand BrandData)
    (selectedBrands : list Brand) (platform : SocialPlatform) (k : nat)
  : ChartData string HashtagDataset :=
  let platformData :=
    match platform with Instagram => instagramData | TikTok => tiktokData end in
  let brandTags := fun brand => flat_map postHashtags (postsIn platformData brand) in
  let pooled := flat_map brandTags selectedBrands in
  let top :=
    take k (rankTags (fun tag => tally tag pooled)
                     (foldl (fun seen tag => setAdd tag seen) [] pooled)) in
  if 0 <? length pooled then
    {| labels := top;
       datasets := map (fun brand =>
                          {| hashtagBrand := brand;
                             hashtagCounts := map (fun tag => tally tag (brandTags brand)) top |})
                       selectedBrands |}
  else {| labels := []; datasets := [] |}.

(** Modelled from the spec: [generateUnifiedHashtagChart] of
    [utils/chartUtils], not among the sources, as the component calls it:
    [topHashtags] with no [k], so the default 5 of section 4.3. *)
Definition generateUnifiedHashtagChart
    (instagramData tiktokData : gmap Brand BrandData)
    (selectedBrands : list Brand) (platform : SocialPlatform)
  : ChartData string HashtagDataset :=
  topHashtags instagramData tiktokData selectedBrands platform 5.

(** The memo [unifiedChartData]. *)
Definition unifiedChartData (contextSocialData : option SocialData)
    (selectedBrands : list Brand) (platform : SocialPlatform)
  : ChartData string HashtagDataset :=
  match contextSocialData with
  | Some socialData =>
      if negb (hashtagHasData contextSocialData selectedBrands)
      then {| labels := []; datasets := [] |}
      else generateUnifiedHashtagChart (instagram socialData) (tiktok socialData)
             selectedBrands platform
  | None => {| labels := []; datasets := [] |}
  end.

(** What [HashtagSection] draws:
    [!hasData || !labels || labels.length === 0 ? fallback : <Bar/>]. *)
Definition renderHashtags (contextSocialData : option SocialData)
    (selectedBrands : list Brand) (platform : SocialPlatform)
  : ChartView (ChartData string HashtagDataset) :=
  let chart := unifiedChartData contextSocialData selectedBrands platform in
  if negb (hashtagHasData contextSocialData selectedBrands)
     || (length (labels chart) =? 0)
  then EmptyChartFallback ("No " +:+ platformName platform
                           +:+ " hashtag data available for the selected brands.")
  else Chart chart.

(** The same two steps of [HashtagSection] over any chart generator: the
    component only passes [generateUnifiedHashtagChart] its arguments and
    reads [labels] off its result. *)
Section hashtag_component.
Variable generateChart :
  gmap Brand BrandData -> gmap Brand BrandData -> list Brand -> SocialPlatform ->
  ChartData string HashtagDataset.

Definition unifiedChartDataWith (contextSocialData : option SocialData)
    (selectedBrands : list Brand) (platform : SocialPlatform)
  : ChartData string HashtagDataset :=
  match contextSocialData with
  | Some socialData =>
      if negb (hashtagHasData contextSocialData selectedBrands)
      then {| labels := []; datasets := [] |}
      else generateChart (instagram socialData) (tiktok socialData)
             selectedBrands platform
  | None => {| labels := []; datasets := [] |}
  end.

Definition renderHashtagsWith (contextSocialData : option SocialData)
    (selectedBrands : list Brand) (platform : SocialPlatform)
  : ChartView (ChartData string HashtagDataset) :=
  let chart := unifiedChartDataWith contextSocialData selectedBrands platform in
  if negb (hashtagHasData contextSocialData selectedBrands)
     || (length (labels chart) =? 0)
  then EmptyChartFallback ("No " +:+ platformName platform
                           +:+ " hashtag data available for the selected brands.")
  else Chart chart.

End hashtag_component.

(** ** Notions the properties are stated with *)

(** The UTC day under which the grouping loop files a post: the post has a
    truthy timestamp that gives a valid date, and a numeric score. *)
Definition postDay (platform : SocialPlatform) (post : Post) : option Z :=
  match postTimestamp platform post, sentimentScore post with
  | Some ts, Value _ =>
      if truthyDate (Some ts) then Day <$> groupingDate host ts else None
  | _, _ => None
  end.

Definition postScore (post : Post) : option float :=
  match sentimentScore post with Value score => Some score | _ => None end.

(** The scores of the posts of a list filed under day [d], in post order. *)
Definition dayScores (platform : SocialPlatform) (brandPosts : list Post)
    (d : Z) : list float :=
  omap (fun post => if decide (postDay platform post = Some d)
                    then postScore post else None) brandPosts.


(** The days of all posts the loop files, brand by brand. *)
Definition groupedDays (platform : SocialPlatform)
    (selectedBrands : list Brand) (posts : gmap Brand (list Post)) : list Z :=
  flat_map (fun brand => omap (postDay platform) (brandPostsOf posts brand))
           selectedBrands.

(** What the loop does to the grouping for a post filed under day [d]. *)
Definition fileScore (d : Z) (brand : Brand) (score : float) (g : Grouping)
  : Grouping :=
  {| dailyBrandSentiments :=
       pushScore (dayKey d) brand score (dailyBrandSentiments g);
     allDates := setAdd (dayKey d) (allDates g) |}.

Definition filePost (platform : SocialPlatform) (brand : Brand)
    (g : Grouping) (post : Post) : Grouping :=
  match postDay platform post, postScore post with
  | Some d, Some score => fileScore d brand score g
  | _, _ => g
  end.

(** The grouping the two nested loops end with. *)
Definition grouping (platform : SocialPlatform)
    (selectedBrands : list Brand) (posts : gmap Brand (list Post)) : Grouping :=
  foldl (fun g brand => foldl (filePost platform brand) g (brandPostsOf posts brand))
        emptyGrouping selectedBrands.

(** [dailyBrandSentiments[date]?.[brand]], an absent entry read as no
    score. *)
Definition scoresAt (g : Grouping) (date : string) (brand : Brand) : list float :=
  default [] (dailyBrandSentiments g !! date ≫= (fun byBrand => byBrand !! brand)).

(** The day a key stands for. *)
Definition keyDay (k : string) : Z := from_option Day 0%Z (parseDateOnly k).

(** A key of a day in the range of valid time values. *)
Definition isDayKey (k : string) : Prop :=
  exists d, (Z.abs d <= 100000000)%Z /\ k = dayKey d.

(** The filed days without repetition, ascending. *)
Definition sortedDays (platform : SocialPlatform)
    (selectedBrands : list Brand) (posts : gmap Brand (list Post)) : list Z :=
  merge_sort Z.le (remove_dups (groupedDays platform selectedBrands posts)).

(** The datasets the second loop builds, written without the loop. *)
Definition paletteAt (i : nat) : string :=
  default "" (vibrantColors !! (i mod length vibrantColors)).

Definition brandDataset (g : Grouping) (colorIdx : nat) (brand : Brand)
  : LineDataset :=
  {| label := brand;
     data := map (dailyMean g brand) (sortedDatesOf g);
     borderColor := replace "0.8" "1" (paletteAt colorIdx);
     backgroundColor := replace "0.8" "0.1" (paletteAt colorIdx) |}.

Definition otherBrands (selectedBrands : list Brand) : list Brand :=
  List.filter (fun brand => negb (bool_decide (brand = Nordstrom))) selectedBrands.

Definition lineDatasets (g : Grouping) (selectedBrands : list Brand)
  : list LineDataset :=
  (if decide (Nordstrom ∈ selectedBrands) then [nordstromDataset g] else [])
  ++ imap (brandDataset g) (otherBrands selectedBrands).

(** The UTC day of a post's timestamp whenever it gives a valid date,
    whatever else the post holds; and the days of all posts. *)
Definition timestampDay (platform : SocialPlatform) (post : Post) : option Z :=
  ts ← postTimestamp platform post; Day <$> groupingDate host ts.

Definition validDays (platform : SocialPlatform)
    (selectedBrands : list Brand) (posts : gmap Brand (list Post)) : list Z :=
  flat_map (fun brand => omap (timestampDay platform) (brandPostsOf posts brand))
           selectedBrands.

(** The sorted union of the days of all posts with a valid date: what
    the specification's sentence on the label axis describes. *)
Definition unionOfValidDays (platform : SocialPlatform)
    (selectedBrands : list Brand) (posts : gmap Brand (list Post)) : list Z :=
  merge_sort Z.le (remove_dups (validDays platform selectedBrands posts)).

(** The sum of a list of counts. *)
Definition sumZ (l : list Z) : Z := foldr Z.add 0%Z l.

(** The class of a post in the distribution, if it has one. *)
Definition sentimentClass (post : Post) : option SentimentLabel :=
  match sentimentScore post with
  | Value score =>
      Some (if PrimFloat.ltb 0%float score then LabelPositive
            else if PrimFloat.ltb score 0%float then LabelNegative
            else LabelNeutral)
  | _ => match sentimentLabel post with
         | Value l => Some l
         | _ => None
         end
  end.

Definition hasClass (l : SentimentLabel) (post : Post) : bool :=
  bool_decide (sentimentClass post = Some l).

(** A numeric score or a label. *)
Definition hasSentimentSignal (post : Post) : bool :=
  isNumber (sentimentScore post) || isNumber (sentimentLabel post).

(** Whether the component draws the line chart of the time series. *)
Definition showsLineChart (v : SentimentView) : bool :=
  match v with
  | SentimentCharts (Chart _) _ => true
  | _ => false
  end.

(** The hashtags of a brand's posts on a platform, and whether any
    selected brand has one. *)
Definition platformDataOf (socialData : SocialData) (platform : SocialPlatform)
  : gmap Brand BrandData :=
  match platform with
  | Instagram => instagram socialData
  | TikTok => tiktok socialData
  end.

Definition brandHashtags (socialData : SocialData) (platform : SocialPlatform)
    (brand : Brand) : list string :=
  flat_map postHashtags (postsIn (platformDataOf socialData platform) brand).

(** The two accumulators of the grouping loop in step: the dates of
    [allDates] are the keys of [dailyBrandSentiments]; no day is without a
    brand and no brand of a day without a score; and every brand filed
    satisfies [P]. *)
Definition inStep (P : Brand -> Prop) (g : Grouping) : Prop :=
  (forall k, k ∈ allDates g <-> is_Some (dailyBrandSentiments g !! k))
  /\ (forall k byBrand, dailyBrandSentiments g !! k = Some byBrand ->
        byBrand <> ∅
        /\ forall brand scores, byBrand !! brand = Some scores ->
             scores <> [] /\ P brand).

(* ===================================================================== *)
(** * Part II: properties *)
(* ===================================================================== *)


(** ** The runtime: digits, the calendar and ISO date keys *)

Section runtime_facts.
Local Open Scope Z_scope.

Lemma digit_cases d : 0 <= d <= 9 ->
  d = 0 \/ d = 1 \/ d = 2 \/ d = 3 \/ d = 4 \/ d = 5 \/ d = 6 \/ d = 7
  \/ d = 8 \/ d = 9.
Proof. lia. Qed.

Lemma charDigit_digitChar d : 0 <= d <= 9 -> charDigit (digitChar d) = Some d.
Proof.
  intros Hd. pose proof (digit_cases d Hd) as C.
  repeat (destruct C as [C|C]; [subst d; reflexivity|]). subst d; reflexivity.
Qed.

Lemma digitChar_not d (c : ascii) :
  0 <= d <= 9 -> charDigit c = None -> Ascii.eqb (digitChar d) c = false.
Proof.
  intros Hd Hc. destruct (Ascii.eqb_spec (digitChar d) c) as [<-|]; [|done].
  rewrite charDigit_digitChar in Hc by done. discriminate.
Qed.

Lemma isDigit_digitChar d : 0 <= d <= 9 -> isDigit (digitChar d) = true.
Proof. intros Hd. unfold isDigit. by rewrite charDigit_digitChar. Qed.

Lemma append_cons c s r : String c s +:+ r = String c (s +:+ r).
Proof. reflexivity. Qed.

Lemma append_nil r : "" +:+ r = r.
Proof. reflexivity. Qed.

Lemma digitsValue_2 a b : 0 <= a <= 9 -> 0 <= b <= 9 ->
  digitsValue [digitChar a; digitChar b] = Some (10 * a + b).
Proof.
  intros Ha Hb. unfold digitsValue. cbn [foldl].
  rewrite !charDigit_digitChar by done. cbn; f_equal; lia.
Qed.

Lemma digitsValue_4 a b c d :
  0 <= a <= 9 -> 0 <= b <= 9 -> 0 <= c <= 9 -> 0 <= d <= 9 ->
  digitsValue [digitChar a; digitChar b; digitChar c; digitChar d]
  = Some (1000 * a + 100 * b + 10 * c + d).
Proof.
  intros Ha Hb Hc Hd. unfold digitsValue. cbn [foldl].
  rewrite !charDigit_digitChar by done. cbn; f_equal; lia.
Qed.

Lemma digitsValue_6 a b c d e f :
  0 <= a <= 9 -> 0 <= b <= 9 -> 0 <= c <= 9 -> 0 <= d <= 9 ->
  0 <= e <= 9 -> 0 <= f <= 9 ->
  digitsValue [digitChar a; digitChar b; digitChar c; digitChar d;
               digitChar e; digitChar f]
  = Some (100000 * a + 10000 * b + 1000 * c + 100 * d + 10 * e + f).
Proof.
  intros Ha Hb Hc Hd He Hf. unfold digitsValue. cbn [foldl].
  rewrite !charDigit_digitChar by done. cbn; f_equal; lia.
Qed.

(** [YearFromDay] meets the standard's definition of [YearFromTime]: the
    year whose first day is the last one not after [d]. *)
Lemma YearFromDay_spec d :
  DayFromYear (YearFromDay d) <= d < DayFromYear (YearFromDay d + 1).
Proof.
  unfold YearFromDay. cbv zeta.
  set (y := 1970 + 400 * d / 146097).
  assert (Hy : 146097 * (y - 1970) <= 400 * d < 146097 * (y - 1970) + 146097)
    by (subst y; zdiv).
  clearbody y.
  destruct (Z.ltb_spec d (DayFromYear y)) as [H1|H1].
  - unfold DayFromYear in *. replace (y - 1 + 1) with y by lia. zdiv.
  - destruct (Z.leb_spec (DayFromYear (y + 1)) d) as [H2|H2].
    + unfold DayFromYear in *. zdiv.
    + lia.
Qed.

Lemma DayFromYear_succ y : DayFromYear (y + 1) = DayFromYear y + DaysInYear y.
Proof.
  unfold DayFromYear, DaysInYear.
  destruct (Z.eqb_spec (y mod 4) 0), (Z.eqb_spec (y mod 100) 0),
    (Z.eqb_spec (y mod 400) 0); simpl; zdiv.
Qed.

Lemma InLeapYear_cases y :
  (InLeapYear y = 0 /\ DaysInYear y = 365)
  \/ (InLeapYear y = 1 /\ DaysInYear y = 366).
Proof.
  unfold InLeapYear, DaysInYear.
  destruct (Z.eqb_spec (y mod 4) 0), (Z.eqb_spec (y mod 100) 0),
    (Z.eqb_spec (y mod 400) 0); simpl; auto.
Qed.

Lemma DayWithinYear_range t :
  0 <= DayWithinYear t < 365 + InLeapYear (YearFromTime t).
Proof.
  unfold DayWithinYear, YearFromTime.
  pose proof (YearFromDay_spec (Day t)) as Hs.
  rewrite DayFromYear_succ in Hs.
  destruct (InLeapYear_cases (YearFromDay (Day t))) as [[-> E]|[-> E]]; lia.
Qed.

(** The calendar fields of a time value are in range and give back its day. *)
Lemma calendar_fields t :
  0 <= MonthFromTime t <= 11
  /\ 1 <= DateFromTime t <= DaysInMonth (YearFromTime t) (MonthFromTime t)
  /\ DateFromTime t <= 31
  /\ MakeDay (YearFromTime t) (MonthFromTime t) (DateFromTime t) = Day t.
Proof.
  unfold DateFromTime, MonthFromTime, MakeDay, DaysInMonth.
  pose proof (DayWithinYear_range t) as Hr.
  unfold DayWithinYear in *.
  set (y := YearFromTime t) in *. set (dwy := Day t - DayFromYear y) in *.
  replace (Day t) with (DayFromYear y + dwy) by (subst dwy; lia).
  clearbody dwy y.
  destruct (InLeapYear_cases y) as [[E _]|[E _]]; rewrite E in *;
    unfold MonthFromDay;
    repeat (match goal with
            | |- context [?a <? ?b] => destruct (Z.ltb_spec a b)
            end; [simpl; lia|]); simpl; lia.
Qed.

Lemma year_range t :
  Z.abs t <= maxTime -> -271821 <= YearFromTime t <= 275760.
Proof.
  intros Ht. unfold YearFromTime.
  pose proof (YearFromDay_spec (Day t)) as Hs.
  assert (-100000000 <= Day t <= 100000000)
    by (unfold Day, msPerDay, maxTime in *; zdiv).
  unfold DayFromYear in Hs. zdiv.
Qed.

Lemma Day_midnight d : Day (d * msPerDay) = d.
Proof. unfold Day, msPerDay. zdiv. Qed.

(** The date part depends on the day only. *)
Lemma isoDate_dayKey t : isoDate t = dayKey (Day t).
Proof.
  unfold dayKey, isoDate, DateFromTime, MonthFromTime, DayWithinYear, YearFromTime.
  by rewrite Day_midnight.
Qed.

Lemma parseMonthDay_pad y m d :
  1 <= m <= 12 -> 1 <= d <= DaysInMonth y (m - 1) -> d <= 31 ->
  parseMonthDay y (list_ascii_of_string ("-" +:+ pad 2 m +:+ "-" +:+ pad 2 d))
  = Some (MakeDay y (m - 1) d * msPerDay).
Proof.
  intros Hm Hd Hd'. norm_string.
  unfold parseMonthDay. cbn [Ascii.eqb Bool.eqb andb].
  rewrite !digitsValue_2 by zdiv. cbn [mbind option_bind].
  replace (10 * (m / 10 mod 10) + m mod 10) with m by zdiv.
  replace (10 * (d / 10 mod 10) + d mod 10) with d by zdiv.
  destruct (Z.leb_spec 1 m), (Z.leb_spec m 12), (Z.leb_spec 1 d),
    (Z.leb_spec d (DaysInMonth y (m - 1))); try lia. done.
Qed.

(** Reading back the date part of the ISO format gives the day's midnight. *)
Lemma parseDateOnly_isoDate t :
  Z.abs t <= maxTime -> parseDateOnly (isoDate t) = Some (Day t * msPerDay).
Proof.
  intros Ht. pose proof (year_range t Ht) as Hy.
  destruct (calendar_fields t) as (Hm & Hd & Hd' & <-).
  pose proof (parseMonthDay_pad (YearFromTime t) (MonthFromTime t + 1)
                (DateFromTime t)) as Hp.
  replace (MonthFromTime t + 1 - 1) with (MonthFromTime t) in Hp by lia.
  specialize (Hp ltac:(lia) Hd Hd').
  unfold isoDate, parseDateOnly.
  set (tl := "-" +:+ pad 2 (MonthFromTime t + 1) +:+ "-"
             +:+ pad 2 (DateFromTime t)) in *.
  set (y := YearFromTime t) in *. clearbody y tl.
  unfold isoYear.
  destruct (Z.leb_spec 0 y); cbn [andb].
  - destruct (Z.leb_spec y 9999).
    + norm_string.
      rewrite !(digitChar_not _ "+"), !(digitChar_not _ "-") by (done || zdiv).
      cbn [orb]. rewrite digitsValue_4 by zdiv. cbn [mbind option_bind].
      replace (1000 * _ + _ + _ + _) with y by zdiv. done.
    + destruct (Z.ltb_spec y 0); [lia|].
      norm_string. cbn [Ascii.eqb Bool.eqb andb orb].
      rewrite digitsValue_6 by zdiv. cbn [mbind option_bind].
      replace (100000 * _ + _ + _ + _ + _ + _) with (Z.abs y) by zdiv.
      replace (Z.abs y) with y by lia. done.
  - destruct (Z.ltb_spec y 0); [|lia].
    norm_string. cbn [Ascii.eqb Bool.eqb andb orb].
    rewrite digitsValue_6 by zdiv. cbn [mbind option_bind].
    replace (100000 * _ + _ + _ + _ + _ + _) with (Z.abs y) by zdiv.
    destruct (Z.eqb_spec (Z.abs y) 0); [lia|].
    replace (- Z.abs y) with y by lia. done.
Qed.

Lemma valid_day_midnight d :
  Z.abs d <= 100000000 -> Z.abs (d * msPerDay) <= maxTime.
Proof. unfold msPerDay, maxTime. lia. Qed.

Lemma valid_time_day t : Z.abs t <= maxTime -> Z.abs (Day t) <= 100000000.
Proof. unfold Day, msPerDay, maxTime. zdiv. Qed.

Lemma parseDateOnly_dayKey d :
  Z.abs d <= 100000000 -> parseDateOnly (dayKey d) = Some (d * msPerDay).
Proof.
  intros Hd. unfold dayKey.
  rewrite parseDateOnly_isoDate by by apply valid_day_midnight.
  by rewrite Day_midnight.
Qed.

(** Distinct days have distinct keys. *)
Lemma dayKey_inj d1 d2 :
  Z.abs d1 <= 100000000 -> Z.abs d2 <= 100000000 ->
  dayKey d1 = dayKey d2 -> d1 = d2.
Proof.
  intros H1 H2 E. apply (f_equal parseDateOnly) in E.
  rewrite !parseDateOnly_dayKey in E by done.
  injection E. unfold msPerDay. lia.
Qed.

(** The shape of a key: [YYYY-MM-DD] exactly for the years 0 to 9999. *)
Lemma isYMD_isoDate t :
  isYMD (isoDate t)
  = (0 <=? YearFromTime t) && (YearFromTime t <=? 9999).
Proof.
  destruct (calendar_fields t) as (Hm & Hd & Hd' & _).
  unfold isoDate, isYMD, isoYear.
  set (y := YearFromTime t) in *. clearbody y.
  destruct (Z.leb_spec 0 y), (Z.leb_spec y 9999); cbn [andb];
    norm_string; cbn [forallb Ascii.eqb Bool.eqb andb];
    rewrite ?isDigit_digitChar by zdiv; try done.
  all: destruct (y <? 0); reflexivity.
Qed.

Lemma isExpandedYMD_isoDate t :
  isExpandedYMD (isoDate t)
  = negb ((0 <=? YearFromTime t) && (YearFromTime t <=? 9999)).
Proof.
  destruct (calendar_fields t) as (Hm & Hd & Hd' & _).
  unfold isoDate, isExpandedYMD, isoYear.
  set (y := YearFromTime t) in *. clearbody y.
  destruct (Z.leb_spec 0 y), (Z.leb_spec y 9999); cbn [andb negb];
    norm_string; try done.
  all: destruct (y <? 0); cbn [forallb Ascii.eqb Bool.eqb andb orb];
    by rewrite ?isDigit_digitChar by zdiv.
Qed.

Lemma isoDate_nonempty t : String.eqb (isoDate t) "" = false.
Proof.
  unfold isoDate, isoYear.
  destruct ((0 <=? YearFromTime t) && (YearFromTime t <=? 9999)); norm_string;
    reflexivity.
Qed.

Lemma splitHead_app sep a b :
  (forall c, In c (list_ascii_of_string a) -> Ascii.eqb c sep = false) ->
  splitHead sep (a +:+ String sep b) = a.
Proof.
  induction a as [|c a IH]; intros Hc.
  - rewrite append_nil. cbn. by rewrite Ascii.eqb_refl.
  - rewrite append_cons. cbn [splitHead]. rewrite (Hc c) by (by left).
    f_equal. apply IH. intros c' Hc'. apply Hc. by right.
Qed.

Lemma isoDate_no_T t c :
  In c (list_ascii_of_string (isoDate t)) -> Ascii.eqb c "T" = false.
Proof.
  destruct (calendar_fields t) as (Hm & Hd & Hd' & _).
  unfold isoDate, isoYear.
  set (y := YearFromTime t) in *. clearbody y.
  destruct ((0 <=? y) && (y <=? 9999)); [|destruct (y <? 0)]; norm_string;
    cbn [In]; intros Hin;
    repeat (destruct Hin as [<-|Hin];
            [first [reflexivity | apply digitChar_not; [zdiv|reflexivity]]|]);
    destruct Hin.
Qed.

Lemma TimeClipZ_range t t' : TimeClipZ t = Some t' -> Z.abs t' <= maxTime.
Proof.
  unfold TimeClipZ. destruct (Z.leb_spec (Z.abs t) maxTime); naive_solver.
Qed.

Lemma TimeClip_range x t : TimeClip x = Some t -> Z.abs t <= maxTime.
Proof.
  unfold TimeClip. destruct (_ || _); [done|]. apply TimeClipZ_range.
Qed.

End runtime_facts.

(** ** Counts as doubles *)

Section double_counts.
Local Open Scope Z_scope.

Lemma digits2_log2 p : Z.pos (digits2_pos p) = Z.log2 (Z.pos p) + 1.
Proof.
  induction p as [p IH|p IH|]; cbn [digits2_pos]; [| |reflexivity].
  - rewrite Pos2Z.inj_succ, IH.
    change (Z.pos p~1) with (2 * Z.pos p + 1). rewrite Z.log2_succ_double; lia.
  - rewrite Pos2Z.inj_succ, IH.
    change (Z.pos p~0) with (2 * Z.pos p). rewrite Z.log2_double; lia.
Qed.

Lemma iter_pos_iter {A : Type} (f : A -> A) p x : SpecFloat.iter_pos f p x = Pos.iter f x p.
Proof.
  revert x. induction p as [p IH|p IH|]; intros x; cbn [SpecFloat.iter_pos Pos.iter].
  - rewrite !IH, !Pos.iter_swap. reflexivity.
  - rewrite !IH. reflexivity.
  - reflexivity.
Qed.

Lemma iter_xO m d : Z.pos (Pos.iter xO m d) = Z.pos m * 2 ^ Z.pos d.
Proof.
  induction d as [|d IH] using Pos.peano_ind.
  - cbn [Pos.iter]. lia.
  - rewrite Pos.iter_succ, Pos2Z.inj_succ, Z.pow_succ_r by lia.
    change (Z.pos (Pos.iter xO m d)~0) with (2 * Z.pos (Pos.iter xO m d)). lia.
Qed.

(** Shifting out zero bits loses nothing. *)
Lemma shr_exact q s :
  SpecFloat.iter_pos shr_1 s {| shr_m := Z.pos (Pos.iter xO q s); shr_r := false; shr_s := false |}
  = {| shr_m := Z.pos q; shr_r := false; shr_s := false |}.
Proof.
  rewrite iter_pos_iter. induction s as [|s IH] using Pos.peano_ind.
  - reflexivity.
  - rewrite Pos.iter_succ_r, Pos.iter_succ. cbn [shr_1 orb]. apply IH.
Qed.

(** A mantissa of 53 bits is kept as it is. *)
Lemma round_canonical mz E :
  Z.log2 (Z.pos mz) = 52 -> -1074 <= E <= 971 ->
  binary_round_aux 53 1024 false (Z.pos mz) E loc_Exact = S754_finite false mz E.
Proof.
  intros Hl HE. unfold binary_round_aux, shr_fexp, Zdigits2, fexp, SpecFloat.emin.
  rewrite digits2_log2, Hl.
  replace (Z.max (52 + 1 + E - 53) (3 - 1024 - 53) - E) with 0 by lia.
  cbn [shr shr_record_of_loc shr_m loc_of_shr_record round_nearest_even shr_r shr_s].
  rewrite digits2_log2, Hl.
  replace (Z.max (52 + 1 + E - 53) (3 - 1024 - 53) - E) with 0 by lia.
  cbn [shr shr_m]. destruct (Z.leb_spec E (1024 - 53)); [reflexivity|lia].
Qed.

Lemma log2_count n : 1 <= n <= 2 ^ 53 ->
  0 <= Z.log2 n <= 53 /\ 2 ^ Z.log2 n <= n < 2 ^ (Z.log2 n + 1)
  /\ (Z.log2 n = 53 -> n = 2 ^ 53).
Proof.
  intros Hn. pose proof (Z.log2_nonneg n) as H0.
  destruct (Z.log2_spec n ltac:(lia)) as [H1 H2].
  assert (Hle : Z.log2 n <= 53).
  { replace 53 with (Z.log2 (2 ^ 53)) by (rewrite Z.log2_pow2; lia).
    apply Z.log2_le_mono. lia. }
  rewrite Z.add_1_r. split_and!; try lia.
  intros E. rewrite E in H1. lia.
Qed.

Lemma mantissa_small n :
  1 <= n -> Z.log2 n <= 52 -> mantissa n = n * 2 ^ (52 - Z.log2 n).
Proof.
  intros Hn Hl. unfold mantissa. pose proof (Z.log2_nonneg n).
  replace (2 ^ 52) with (2 ^ (52 - Z.log2 n) * 2 ^ Z.log2 n)
    by (rewrite <-Z.pow_add_r by lia; f_equal; lia).
  rewrite Z.mul_assoc, Z.div_mul; [done|]. apply Z.pow_nonzero; lia.
Qed.

Lemma mantissa_top : mantissa (2 ^ 53) = 2 ^ 52.
Proof. reflexivity. Qed.

Lemma mantissa_log2 n : 1 <= n <= 2 ^ 53 -> Z.log2 (mantissa n) = 52 /\ 0 < mantissa n.
Proof.
  intros Hn. destruct (log2_count n Hn) as (Hl & _ & Htop).
  destruct (Z.eq_dec (Z.log2 n) 53) as [E|E].
  - rewrite (Htop E). done.
  - rewrite mantissa_small by lia.
    rewrite Z.log2_mul_pow2 by lia. split; [lia|].
    apply Z.mul_pos_pos; [lia|]. apply Z.pow_pos_nonneg; lia.
Qed.

(** Rounding a count that is written with a scaled mantissa gives the
    count's own 53-bit form: nothing is lost. *)
Lemma binary_round_count (M : positive) k n :
  0 <= k -> 1 <= n <= 2 ^ 53 -> Z.pos M = n * 2 ^ k ->
  binary_round 53 1024 false M (- k)
  = S754_finite false (Z.to_pos (mantissa n)) (Z.log2 n - 52).
Proof.
  intros Hk Hn HM. destruct (log2_count n Hn) as (Hl & _ & Htop).
  destruct (mantissa_log2 n Hn) as [Hml Hmp].
  assert (HL : Z.log2 (Z.pos M) = k + Z.log2 n)
    by (rewrite HM; apply Z.log2_mul_pow2; lia).
  assert (Hscale : mantissa n * 2 ^ (Z.log2 n + k) = Z.pos M * 2 ^ 52).
  { rewrite HM. destruct (Z.eq_dec (Z.log2 n) 53) as [E|E].
    - rewrite E, (Htop E), mantissa_top, Z.pow_add_r by lia. ring.
    - rewrite mantissa_small by lia.
      rewrite <-!Z.mul_assoc, <-!Z.pow_add_r by lia. do 2 f_equal. lia. }
  unfold binary_round, fexp, SpecFloat.emin. rewrite digits2_log2, HL.
  replace (Z.max (k + Z.log2 n + 1 + - k - 53) (3 - 1024 - 53))
    with (Z.log2 n - 52) by lia.
  unfold shl_align.
  destruct (Z.log2 n - 52 - - k) as [|s|d] eqn:Es.
  - replace (- k) with (Z.log2 n - 52) by lia.
    rewrite round_canonical by lia. f_equal.
    apply Pos2Z.inj. rewrite Z2Pos.id by done.
    replace (Z.log2 n + k) with 52 in Hscale by lia.
    apply (Z.mul_reg_r _ _ (2 ^ 52)); [by apply Z.pow_nonzero|]. done.
  - assert (Hq : Z.pos M = Z.pos (Pos.iter xO (Z.to_pos (mantissa n)) s)).
    { rewrite iter_xO, Z2Pos.id by done.
      replace (Z.log2 n + k) with (52 + Z.pos s) in Hscale by lia.
      rewrite Z.pow_add_r in Hscale by lia.
      apply (Z.mul_reg_r _ _ (2 ^ 52)); [by apply Z.pow_nonzero|].
      rewrite <-Hscale. ring. }
    unfold binary_round_aux, shr_fexp, Zdigits2, fexp, SpecFloat.emin.
    rewrite digits2_log2, HL.
    replace (Z.max (k + Z.log2 n + 1 + - k - 53) (3 - 1024 - 53) - - k)
      with (Z.pos s) by lia.
    cbn [shr shr_record_of_loc]. rewrite Hq, shr_exact.
    cbn [shr_m loc_of_shr_record round_nearest_even shr_r shr_s].
    rewrite digits2_log2, Z2Pos.id, Hml by done.
    replace (Z.max (52 + 1 + (- k + Z.pos s) - 53) (3 - 1024 - 53) - (- k + Z.pos s))
      with 0 by lia.
    cbn [shr shr_m].
    destruct (mantissa n) eqn:Em; try lia.
    destruct (Z.leb_spec (- k + Z.pos s) (1024 - 53)); [|lia].
    f_equal. lia.
  - assert (Hq : Z.pos (Pos.iter xO M d) = mantissa n).
    { rewrite iter_xO.
      apply (Z.mul_reg_r _ _ (2 ^ (Z.log2 n + k))); [apply Z.pow_nonzero; lia|].
      rewrite Hscale, <-Z.mul_assoc, <-Z.pow_add_r by lia.
      do 2 f_equal. lia. }
    rewrite round_canonical by (rewrite ?Hq; lia). f_equal.
    apply Pos2Z.inj. by rewrite Z2Pos.id.
Qed.

(** The double of a count, bit by bit. *)
Lemma Prim2SF_countNumber n :
  0 <= n <= 2 ^ 53 ->
  Prim2SF (countNumber n)
  = if n =? 0 then S754_zero false
    else S754_finite false (Z.to_pos (mantissa n)) (Z.log2 n - 52).
Proof.
  intros Hn. unfold countNumber.
  assert (H53 : 2 ^ 53 = 9007199254740992) by reflexivity.
  assert (HwB : wB = 9223372036854775808) by reflexivity.
  rewrite of_uint63_spec, of_Z_spec, Z.mod_small by lia.
  destruct n as [|M|M]; [reflexivity| |lia]. cbn [Z.eqb binary_normalize].
  apply (binary_round_count M 0); lia.
Qed.

Lemma Prim2SF_inj x y : Prim2SF x = Prim2SF y -> x = y.
Proof. intros E. by rewrite <-(SF2Prim_Prim2SF x), E, SF2Prim_Prim2SF. Qed.

Lemma shl_align_fst m e e' :
  e' <= e -> Z.pos (fst (shl_align m e e')) = Z.pos m * 2 ^ (e - e').
Proof.
  intros He. unfold shl_align. destruct (e' - e) as [|p|d] eqn:E; cbn [fst].
  - replace (e - e') with 0 by lia. lia.
  - lia.
  - rewrite iter_xO. do 2 f_equal. lia.
Qed.

(** Adding two counts as doubles is exact as long as the sum is at most
    2^53. *)
Lemma countNumber_add a b :
  0 <= a -> 0 <= b -> a + b <= 2 ^ 53 ->
  (countNumber a + countNumber b)%float = countNumber (a + b).
Proof.
  intros Ha Hb Hab. apply Prim2SF_inj.
  rewrite FloatAxioms.add_spec, !Prim2SF_countNumber by lia.
  destruct (Z.eqb_spec a 0) as [->|Ha0].
  - rewrite Z.add_0_l. by destruct (b =? 0).
  - destruct (Z.eqb_spec b 0) as [->|Hb0].
    + rewrite Z.add_0_r. destruct (Z.eqb_spec a 0); [lia|done].
    + destruct (Z.eqb_spec (a + b) 0); [lia|].
      destruct (log2_count a ltac:(lia)) as (Hla & _ & Hta).
      destruct (log2_count b ltac:(lia)) as (Hlb & _ & Htb).
      assert (Hla' : Z.log2 a <= 52)
        by (destruct (Z.eq_dec (Z.log2 a) 53) as [E|E]; [specialize (Hta E)|]; lia).
      assert (Hlb' : Z.log2 b <= 52)
        by (destruct (Z.eq_dec (Z.log2 b) 53) as [E|E]; [specialize (Htb E)|]; lia).
      destruct (mantissa_log2 a ltac:(lia)) as [_ Hma].
      destruct (mantissa_log2 b ltac:(lia)) as [_ Hmb].
      unfold SF64add, SFadd, prec, emax. cbv zeta. cbn [cond_Zopp].
      set (ez := Z.min (Z.log2 a - 52) (Z.log2 b - 52)).
      rewrite !shl_align_fst, !Z2Pos.id by (subst ez; lia).
      rewrite !mantissa_small by lia.
      rewrite <-!Z.mul_assoc, <-!Z.pow_add_r by (subst ez; lia).
      replace (52 - Z.log2 a + (Z.log2 a - 52 - ez)) with (- ez) by lia.
      replace (52 - Z.log2 b + (Z.log2 b - 52 - ez)) with (- ez) by lia.
      rewrite <-Z.mul_add_distr_r.
      assert (Hpos : 0 < (a + b) * 2 ^ (- ez))
        by (apply Z.mul_pos_pos; [lia|apply Z.pow_pos_nonneg; subst ez; lia]).
      destruct ((a + b) * 2 ^ (- ez)) as [|M|M] eqn:EM; try lia.
      cbn [binary_normalize].
      pose proof (binary_round_count M (- ez) (a + b)) as Hr.
      rewrite Z.opp_involutive in Hr. apply Hr; subst ez; lia.
Qed.

(** The double of a count holds that count. *)
Lemma truncate_countNumber n : 0 <= n <= 2 ^ 53 -> truncate (countNumber n) = n.
Proof.
  intros Hn. unfold truncate. rewrite Prim2SF_countNumber by done.
  destruct (Z.eqb_spec n 0) as [->|Hn0]; [done|].
  destruct (log2_count n ltac:(lia)) as (Hl & _ & Htop).
  destruct (mantissa_log2 n ltac:(lia)) as [_ Hmp].
  rewrite Z2Pos.id by done.
  destruct (Z.eq_dec (Z.log2 n) 53) as [E|E].
  - rewrite E, (Htop E), mantissa_top. reflexivity.
  - rewrite mantissa_small by lia.
    destruct (Z.leb_spec 0 (Z.log2 n - 52)).
    + replace (Z.log2 n - 52) with 0 by lia.
      replace (52 - Z.log2 n) with 0 by lia. lia.
    + replace (- (Z.log2 n - 52)) with (52 - Z.log2 n) by lia.
      apply Z.div_mul, Z.pow_nonzero; lia.
Qed.

(** A count above 0 is a truthy number. *)
Lemma truthyNumber_countNumber n :
  1 <= n <= 2 ^ 53 -> truthyNumber (countNumber n) = true.
Proof.
  intros Hn. unfold truthyNumber, PrimFloat.is_nan.
  rewrite !FloatAxioms.eqb_spec, Prim2SF_countNumber by lia.
  destruct (Z.eqb_spec n 0); [lia|].
  unfold SFeqb, SFcompare. by rewrite Z.compare_refl, Pos.compare_refl.
Qed.

Lemma sumZ_nonneg counts : Forall (fun n => 0 <= n) counts -> 0 <= foldr Z.add 0 counts.
Proof. induction 1; cbn [foldr]; lia. Qed.

(** The left-to-right double sum of counts is their sum, as long as that
    is at most 2^53. *)
Lemma foldl_add_counts counts acc :
  0 <= acc -> Forall (fun n => 0 <= n) counts ->
  acc + foldr Z.add 0 counts <= 2 ^ 53 ->
  foldl PrimFloat.add (countNumber acc) (map countNumber counts)
  = countNumber (acc + foldr Z.add 0 counts).
Proof.
  intros Hacc Hall. revert acc Hacc.
  induction Hall as [|c counts Hc Hall IH]; intros acc Hacc Hsum;
    cbn [map foldl foldr] in *.
  - by rewrite Z.add_0_r.
  - pose proof (sumZ_nonneg counts Hall).
    rewrite countNumber_add by lia. rewrite IH by lia. f_equal. lia.
Qed.

End double_counts.

(** A date that [formatDateForGrouping] builds is a clipped time value. *)
Lemma groupingDate_range ts t :
  groupingDate host ts = Some t -> (Z.abs t <= maxTime)%Z.
Proof.
  destruct ts as [x|s|d]; cbn.
  - destruct (PrimFloat.ltb x 1e12); apply TimeClip_range.
  - unfold Date_ofString. destruct (Date_parse host s); cbn; [|done].
    apply TimeClipZ_range.
  - destruct d; cbn; [|done]. apply TimeClipZ_range.
Qed.

(** [formatDateForGrouping] never throws: its result is the empty string
    for the Invalid Date and the ISO date part otherwise. *)
Lemma formatDateForGrouping_eq ts :
  formatDateForGrouping host ts
  = Ok (from_option isoDate "" (groupingDate host ts)).
Proof.
  unfold formatDateForGrouping. cbv zeta.
  destruct (groupingDate host ts) as [t|]; cbn; [|done].
  f_equal. apply splitHead_app, isoDate_no_T.
Qed.


(** ** The grouping loop *)

Lemma postDay_range platform post d :
  postDay platform post = Some d -> (Z.abs d <= 100000000)%Z.
Proof.
  unfold postDay. destruct (postTimestamp platform post) as [ts|]; [|done].
  destruct (sentimentScore post); try done.
  destruct (truthyDate (Some ts)); [|done].
  destruct (groupingDate host ts) as [t|] eqn:E; [|done].
  intros [= <-]. by eapply valid_time_day, groupingDate_range.
Qed.

(** One turn of the inner loop: it never throws, and files the post under
    its day or leaves the grouping alone. *)
Lemma groupPost_eq platform brand g post :
  groupPost platform brand g post = Ok (filePost platform brand g post).
Proof.
  unfold groupPost, filePost, postDay, postScore.
  destruct (postTimestamp platform post) as [ts|]; [|done].
  destruct (sentimentScore post) as [| |score]; try done.
  destruct (truthyDate (Some ts)); [|done].
  rewrite formatDateForGrouping_eq. cbn.
  destruct (groupingDate host ts) as [t|]; cbn; [|done].
  by rewrite isoDate_nonempty, isoDate_dayKey.
Qed.

Lemma forEachM_eq {A S : Type} (f : S -> A -> result S) (f' : S -> A -> S) l s :
  (forall s a, f s a = Ok (f' s a)) -> forEachM f l s = Ok (foldl f' s l).
Proof.
  intros Hf. revert s. induction l as [|a l IH]; intros s; cbn; [done|].
  rewrite Hf. cbn. apply IH.
Qed.

Lemma groupPosts_eq platform selectedBrands posts :
  groupPosts platform selectedBrands posts
  = Ok (grouping platform selectedBrands posts).
Proof.
  unfold groupPosts, grouping. apply forEachM_eq. intros g brand.
  unfold groupBrand. apply forEachM_eq. intros g' post. apply groupPost_eq.
Qed.

Lemma elem_of_flat_map {A B : Type} (f : A -> list B) (l : list A) (y : B) :
  y ∈ flat_map f l <-> exists x, x ∈ l /\ y ∈ f x.
Proof.
  rewrite list_elem_of_In, in_flat_map.
  by setoid_rewrite list_elem_of_In.
Qed.

Lemma elem_of_setAdd k k' s : k ∈ setAdd k' s <-> k ∈ s \/ k = k'.
Proof. unfold setAdd. case_decide; set_solver. Qed.

Lemma NoDup_setAdd k s : NoDup s -> NoDup (setAdd k s).
Proof.
  unfold setAdd. case_decide; [done|]. intros Hs.
  apply NoDup_app. split_and!; [done| |apply NoDup_singleton]. set_solver.
Qed.

Lemma scoresAt_fileScore d brand score g k b :
  scoresAt (fileScore d brand score g) k b
  = scoresAt g k b ++ (if decide (dayKey d = k /\ brand = b) then [score] else []).
Proof.
  unfold scoresAt, fileScore, pushScore. cbn.
  destruct (decide (dayKey d = k)) as [<-|Hk].
  - rewrite lookup_insert_eq. cbn.
    destruct (decide (brand = b)) as [<-|Hb].
    + rewrite lookup_insert_eq. cbn. rewrite decide_True by done.
      destruct (dailyBrandSentiments g !! dayKey d); cbn; [done|].
      by rewrite lookup_empty.
    + rewrite lookup_insert_ne by done. rewrite decide_False by naive_solver.
      rewrite app_nil_r.
      destruct (dailyBrandSentiments g !! dayKey d); cbn; [done|].
      by rewrite lookup_empty.
  - rewrite lookup_insert_ne by done. rewrite decide_False by naive_solver.
    by rewrite app_nil_r.
Qed.

(** The inner loop over one brand's posts. *)
Lemma scoresAt_brand platform brand l g d b :
  (Z.abs d <= 100000000)%Z ->
  scoresAt (foldl (filePost platform brand) g l) (dayKey d) b
  = scoresAt g (dayKey d) b
    ++ (if decide (brand = b) then dayScores platform l d else []).
Proof.
  intros Hd. revert g. induction l as [|post l IH]; intros g; cbn.
  - destruct (decide (brand = b)); by rewrite app_nil_r.
  - rewrite IH. unfold filePost, dayScores. cbn [omap].
    destruct (postDay platform post) as [d'|] eqn:Ed.
    + pose proof (postDay_range _ _ _ Ed) as Hd'.
      destruct (postScore post) as [score|] eqn:Es.
      * rewrite scoresAt_fileScore, <-app_assoc. f_equal.
        assert (Hk : dayKey d' = dayKey d <-> d' = d)
          by (split; [by apply dayKey_inj|by intros ->]).
        repeat case_decide; simplify_eq; try done; naive_solver.
      * repeat case_decide; done.
    + repeat case_decide; done.
Qed.

Lemma allDates_brand platform brand l g k :
  k ∈ allDates (foldl (filePost platform brand) g l)
  <-> k ∈ allDates g \/ exists d, d ∈ omap (postDay platform) l /\ k = dayKey d.
Proof.
  revert g. induction l as [|post l IH]; intros g; cbn.
  - set_solver.
  - rewrite IH. unfold filePost, postScore, postDay at 1 3.
    destruct (postTimestamp platform post) as [ts|]; [|set_solver].
    destruct (sentimentScore post) as [| |score]; try set_solver.
    destruct (truthyDate (Some ts)); [|set_solver].
    destruct (groupingDate host ts) as [t|]; cbn; [|set_solver].
    rewrite elem_of_setAdd. set_solver.
Qed.

Lemma NoDup_allDates_brand platform brand l g :
  NoDup (allDates g) -> NoDup (allDates (foldl (filePost platform brand) g l)).
Proof.
  revert g. induction l as [|post l IH]; intros g Hg; cbn; [done|].
  apply IH. unfold filePost.
  destruct (postDay platform post); [|done].
  destruct (postScore post); [|done]. cbn. by apply NoDup_setAdd.
Qed.

Section grouping_facts.
Variable platform : SocialPlatform.
Variable posts : gmap Brand (list Post).

Lemma grouping_snoc selectedBrands brand :
  grouping platform (selectedBrands ++ [brand]) posts
  = foldl (filePost platform brand) (grouping platform selectedBrands posts)
          (brandPostsOf posts brand).
Proof. unfold grouping. by rewrite foldl_app. Qed.

Lemma groupedDays_range selectedBrands d :
  d ∈ groupedDays platform selectedBrands posts -> (Z.abs d <= 100000000)%Z.
Proof.
  unfold groupedDays. rewrite elem_of_flat_map.
  intros (brand & _ & Hd). apply list_elem_of_omap in Hd.
  destruct Hd as (post & _ & Hd). by eapply postDay_range.
Qed.

(** The scores filed under a day and a brand: the brand's scores of that
    day, once for each time the brand is selected. *)
Lemma scoresAt_grouping selectedBrands d b :
  (Z.abs d <= 100000000)%Z ->
  scoresAt (grouping platform selectedBrands posts) (dayKey d) b
  = flat_map (fun brand => if decide (brand = b)
                           then dayScores platform (brandPostsOf posts brand) d
                           else []) selectedBrands.
Proof.
  intros Hd. induction selectedBrands as [|brand sb IH] using rev_ind; [done|].
  rewrite grouping_snoc, scoresAt_brand, IH, flat_map_app by done.
  cbn. by rewrite app_nil_r.
Qed.

Lemma allDates_grouping selectedBrands k :
  k ∈ allDates (grouping platform selectedBrands posts)
  <-> exists d, d ∈ groupedDays platform selectedBrands posts /\ k = dayKey d.
Proof.
  induction selectedBrands as [|brand sb IH] using rev_ind.
  - cbn. set_solver.
  - rewrite grouping_snoc, allDates_brand, IH.
    unfold groupedDays. rewrite flat_map_app. cbn. rewrite app_nil_r.
    set_solver.
Qed.

Lemma NoDup_allDates_grouping selectedBrands :
  NoDup (allDates (grouping platform selectedBrands posts)).
Proof.
  induction selectedBrands as [|brand sb IH] using rev_ind.
  - cbn. constructor.
  - rewrite grouping_snoc. by apply NoDup_allDates_brand.
Qed.

End grouping_facts.


(** ** Sorting the date keys *)

Lemma Date_ofString_dayKey d :
  (Z.abs d <= 100000000)%Z -> Date_ofString host (dayKey d) = Some (d * msPerDay)%Z.
Proof.
  intros Hd. unfold Date_ofString, Date_parse.
  rewrite parseDateOnly_dayKey by done. cbn. unfold TimeClipZ.
  pose proof (valid_day_midnight d Hd).
  by destruct (Z.leb_spec (Z.abs (d * msPerDay)) maxTime); [|lia].
Qed.

Lemma keyDay_dayKey d : (Z.abs d <= 100000000)%Z -> keyDay (dayKey d) = d.
Proof.
  intros Hd. unfold keyDay. rewrite parseDateOnly_dayKey by done. cbn.
  apply Day_midnight.
Qed.

(** On day keys the comparator orders by day. *)
Lemma sortBefore_dayKey d1 d2 :
  (Z.abs d1 <= 100000000)%Z -> (Z.abs d2 <= 100000000)%Z ->
  sortBefore (compareDates host) (dayKey d1) (dayKey d2) <-> (d1 <= d2)%Z.
Proof.
  intros H1 H2. unfold sortBefore, compareDates.
  rewrite !Date_ofString_dayKey by done. cbn. unfold msPerDay. lia.
Qed.

Global Instance sortBefore_compareDates_total :
  Total (sortBefore (compareDates host)).
Proof.
  intros a b. unfold sortBefore, compareDates.
  destruct (Date_ofString host a), (Date_ofString host b); cbn; auto. lia.
Qed.

Lemma isDayKey_keyDay k : isDayKey k -> dayKey (keyDay k) = k.
Proof. intros (d & Hd & ->). by rewrite keyDay_dayKey. Qed.

Lemma keyDay_inj k1 k2 : isDayKey k1 -> isDayKey k2 -> keyDay k1 = keyDay k2 -> k1 = k2.
Proof.
  intros (d1 & H1 & ->) (d2 & H2 & ->). rewrite !keyDay_dayKey by done.
  by intros ->.
Qed.

Lemma sortBefore_keyDay k1 k2 :
  isDayKey k1 -> isDayKey k2 ->
  sortBefore (compareDates host) k1 k2 -> (keyDay k1 <= keyDay k2)%Z.
Proof.
  intros (d1 & H1 & ->) (d2 & H2 & ->). rewrite !keyDay_dayKey by done.
  by apply sortBefore_dayKey.
Qed.

Lemma Sorted_keyDay l :
  Forall isDayKey l -> Sorted (sortBefore (compareDates host)) l ->
  Sorted Z.le (map keyDay l).
Proof.
  intros Hl Hs. induction Hs as [|k l Hs IH Hhd]; cbn; [constructor|].
  apply Forall_cons in Hl as [Hk Hl]. constructor; [by apply IH|].
  destruct Hhd as [|k' l' Hr]; cbn; constructor.
  apply Forall_cons in Hl as [Hk' _]. by apply sortBefore_keyDay.
Qed.

Lemma NoDup_keyDay l : Forall isDayKey l -> NoDup l -> NoDup (map keyDay l).
Proof.
  intros Hl Hn. induction Hn as [|k l Hk Hn IH]; cbn; [constructor|].
  apply Forall_cons in Hl as [Hd Hl]. constructor; [|by apply IH].
  intros Hin. apply list_elem_of_fmap in Hin as (k' & E & Hk').
  apply Hk. rewrite Forall_forall in Hl.
  by rewrite (keyDay_inj k k' Hd (Hl _ Hk') E).
Qed.

Lemma map_dayKey_keyDay l : Forall isDayKey l -> map dayKey (map keyDay l) = l.
Proof.
  induction 1 as [|k l Hk Hl IH]; cbn; [done|].
  by rewrite isDayKey_keyDay, IH.
Qed.

Section sorting_facts.
Variable platform : SocialPlatform.
Variable selectedBrands : list Brand.
Variable posts : gmap Brand (list Post).

Lemma elem_of_sortedDays d :
  d ∈ sortedDays platform selectedBrands posts
  <-> d ∈ groupedDays platform selectedBrands posts.
Proof.
  unfold sortedDays. by rewrite merge_sort_Permutation, elem_of_remove_dups.
Qed.

Lemma NoDup_sortedDays : NoDup (sortedDays platform selectedBrands posts).
Proof.
  unfold sortedDays. rewrite merge_sort_Permutation. apply NoDup_remove_dups.
Qed.

Lemma sortedDays_range d :
  d ∈ sortedDays platform selectedBrands posts -> (Z.abs d <= 100000000)%Z.
Proof. rewrite elem_of_sortedDays. apply groupedDays_range. Qed.

(** The sorted days are strictly ascending. *)
Lemma sortedDays_ascending :
  StronglySorted Z.lt (sortedDays platform selectedBrands posts).
Proof.
  pose proof NoDup_sortedDays as Hn.
  assert (Hs : StronglySorted Z.le (sortedDays platform selectedBrands posts))
    by apply (StronglySorted_merge_sort _).
  induction Hs as [|d l Hs IH Hd]; [constructor|].
  apply NoDup_cons in Hn as [Hnot Hn]. constructor; [by apply IH|].
  rewrite Forall_forall in Hd |- *. intros d' Hd'.
  specialize (Hd d' Hd'). assert (d <> d') by (by intros ->). lia.
Qed.

Lemma allDates_isDayKey :
  Forall isDayKey (allDates (grouping platform selectedBrands posts)).
Proof.
  apply Forall_forall. intros k Hk. apply allDates_grouping in Hk as (d & Hd & ->).
  exists d. split; [|done]. by eapply groupedDays_range.
Qed.

(** The sorted date keys are the keys of the filed days, ascending. *)
Lemma sortedDatesOf_grouping :
  sortedDatesOf (grouping platform selectedBrands posts)
  = map dayKey (sortedDays platform selectedBrands posts).
Proof.
  set (g := grouping platform selectedBrands posts).
  assert (Hperm : sortedDatesOf g ≡ₚ allDates g)
    by apply merge_sort_Permutation.
  assert (Hkeys : Forall isDayKey (sortedDatesOf g))
    by (rewrite Hperm; apply allDates_isDayKey).
  rewrite <-(map_dayKey_keyDay (sortedDatesOf g)) by done. f_equal.
  apply (Sorted_unique Z.le).
  - apply Sorted_keyDay; [done|]. apply (Sorted_merge_sort _).
  - apply (Sorted_merge_sort _).
  - apply NoDup_Permutation.
    + apply NoDup_keyDay; [done|]. rewrite Hperm. apply NoDup_allDates_grouping.
    + apply NoDup_sortedDays.
    + intros d. rewrite elem_of_sortedDays. split.
      * intros Hin. apply (list_elem_of_fmap keyDay) in Hin as (k & -> & Hk).
        rewrite Hperm in Hk. apply allDates_grouping in Hk as (d' & Hd' & ->).
        rewrite keyDay_dayKey by (by eapply groupedDays_range). done.
      * intros Hd. apply (list_elem_of_fmap keyDay). exists (dayKey d). split.
        -- rewrite keyDay_dayKey by (by eapply groupedDays_range). done.
        -- rewrite Hperm. apply allDates_grouping. by exists d.
Qed.

End sorting_facts.


(** ** The chart of the time series *)

Lemma paletteColor_eq i : paletteColor vibrantColors i = Ok (paletteAt i).
Proof.
  unfold paletteColor, paletteAt.
  destruct (vibrantColors !! (i mod length vibrantColors)) as [c|] eqn:E; [done|].
  apply lookup_ge_None in E.
  pose proof (Nat.mod_upper_bound i (length vibrantColors)) as Hlt.
  cbn in *. lia.
Qed.

(** The second loop never throws; it appends one dataset for each brand
    other than Nordstrom, in order, with consecutive palette positions. *)
Lemma pushBrandDatasets_eq g selectedBrands chartDatasets colorIdx :
  forEachM (pushBrandDataset g) selectedBrands (chartDatasets, colorIdx)
  = Ok (chartDatasets
        ++ imap (fun i => brandDataset g (colorIdx + i)) (otherBrands selectedBrands),
        colorIdx + length (otherBrands selectedBrands)).
Proof.
  revert chartDatasets colorIdx.
  induction selectedBrands as [|brand sb IH]; intros ds c; cbn.
  - by rewrite app_nil_r, Nat.add_0_r.
  - unfold otherBrands. cbn [List.filter]. case_decide as Hb.
    + rewrite bool_decide_eq_true_2 by done. cbn. apply IH.
    + rewrite bool_decide_eq_false_2 by done. cbn.
      rewrite paletteColor_eq. cbn. rewrite IH. f_equal. f_equal.
      * rewrite <-app_assoc. cbn. rewrite Nat.add_0_r. do 2 f_equal.
        apply imap_ext. intros i b _. cbn. f_equal. lia.
      * unfold otherBrands. lia.
Qed.

Lemma hasData_false selectedBrands posts brand :
  hasData selectedBrands posts = false -> brand ∈ selectedBrands ->
  brandPostsOf posts brand = [].
Proof.
  unfold hasData. cbv zeta.
  assert (Hmono : forall sb n,
            n <= foldl (fun totalPosts b => totalPosts + length (brandPostsOf posts b))
                       n sb).
  { induction sb as [|b sb IH]; intros n; cbn; [lia|].
    etransitivity; [|apply IH]. lia. }
  generalize 0 at 2. induction selectedBrands as [|b sb IH]; intros n Hn Hin.
  - by apply elem_of_nil in Hin.
  - cbn [foldl] in Hn. apply elem_of_cons in Hin as [->|Hin]; [|by eapply IH].
    apply Nat.ltb_ge in Hn. specialize (Hmono sb (n + length (brandPostsOf posts b))).
    apply length_zero_iff_nil. lia.
Qed.

Lemma hasData_false_groupedDays platform selectedBrands posts :
  hasData selectedBrands posts = false ->
  groupedDays platform selectedBrands posts = [].
Proof.
  intros Hn. unfold groupedDays.
  assert (Hall : Forall (fun b => brandPostsOf posts b = []) selectedBrands)
    by (apply Forall_forall; intros b Hb; by eapply hasData_false).
  clear Hn. induction Hall as [|b sb Hb Hall IH]; cbn; [done|]. by rewrite Hb, IH.
Qed.

(** The memo never throws, and this is its value. *)
Lemma comparativeAvgSentimentOverTimeData_eq platform selectedBrands posts :
  comparativeAvgSentimentOverTimeData platform selectedBrands posts
  = Ok (if hasData selectedBrands posts
        then let g := grouping platform selectedBrands posts in
             {| labels := map (formatDateForLabel host) (sortedDatesOf g);
                datasets := lineDatasets g selectedBrands |}
        else {| labels := []; datasets := [] |}).
Proof.
  unfold comparativeAvgSentimentOverTimeData.
  destruct (hasData selectedBrands posts); cbn; [|done].
  rewrite groupPosts_eq. cbn. rewrite pushBrandDatasets_eq. cbn.
  unfold lineDatasets. done.
Qed.

(** The label axis, with or without data. *)
Lemma comparative_labels platform selectedBrands posts :
  labels <$> comparativeAvgSentimentOverTimeData platform
               selectedBrands posts
  = Ok (map (fun d => formatDateForLabel host (dayKey d))
            (sortedDays platform selectedBrands posts)).
Proof.
  rewrite comparativeAvgSentimentOverTimeData_eq.
  destruct (hasData selectedBrands posts) eqn:Hd; cbn.
  - rewrite sortedDatesOf_grouping. by rewrite map_map.
  - unfold sortedDays. by rewrite hasData_false_groupedDays.
Qed.

Lemma dailyMean_scoresAt g brand date :
  dailyMean g brand date = meanOrNull (scoresAt g date brand).
Proof.
  unfold dailyMean, scoresAt.
  by destruct (dailyBrandSentiments g !! date ≫= _).
Qed.

Lemma elem_of_otherBrands brand selectedBrands :
  brand ∈ otherBrands selectedBrands <-> brand ∈ selectedBrands /\ brand <> Nordstrom.
Proof.
  unfold otherBrands. rewrite list_elem_of_In, filter_In, <-list_elem_of_In.
  rewrite negb_true_iff, bool_decide_eq_false. done.
Qed.

(** Every dataset is a selected brand's, and its vector is the brand's
    daily means along the sorted keys. *)
Lemma lineDatasets_data g selectedBrands ds :
  ds ∈ lineDatasets g selectedBrands ->
  label ds ∈ selectedBrands
  /\ data ds = map (dailyMean g (label ds)) (sortedDatesOf g).
Proof.
  unfold lineDatasets. rewrite elem_of_app. intros [Hin|Hin].
  - case_decide as HN; [|by apply elem_of_nil in Hin].
    apply list_elem_of_singleton in Hin as ->. done.
  - apply elem_of_lookup_imap in Hin as (i & b & -> & Hb).
    apply list_elem_of_lookup_2, elem_of_otherBrands in Hb as [Hb _]. done.
Qed.


(** ** Reach *)

Lemma foldl_reach platform l acc :
  foldl (fun totalReach post => (totalReach + postReach platform post)%float) acc l
  = foldl PrimFloat.add acc (map (postReach platform) l).
Proof.
  revert acc. induction l as [|post l IH]; intros acc; cbn [foldl map]; [done|].
  apply IH.
Qed.

Lemma brandReach_sum platform posts brand :
  brandReach platform posts brand
  = foldl PrimFloat.add 0%float (map (postReach platform) (brandPostsOf posts brand)).
Proof. unfold brandReach. apply foldl_reach. Qed.

Lemma reachValues_map platform posts selectedBrands acc :
  foldl (fun reachValues brand => reachValues ++ [brandReach platform posts brand])
        acc selectedBrands
  = acc ++ map (brandReach platform posts) selectedBrands.
Proof.
  revert acc. induction selectedBrands as [|b sb IH]; intros acc; cbn.
  - by rewrite app_nil_r.
  - by rewrite IH, <-app_assoc.
Qed.

Lemma sumZ_constant (r : Z) l :
  Forall (fun v => v = r) l -> sumZ l = (Z.of_nat (length l) * r)%Z.
Proof.
  unfold sumZ. induction 1 as [|v l -> _ IH]; cbn [foldr length]; [lia|].
  rewrite IH. lia.
Qed.

(** When the metrics of a brand's posts are counts whose sum is at most
    2^53, the brand's total is the double of that sum. *)
Lemma brandReach_counts platform posts brand counts :
  map (postReach platform) (brandPostsOf posts brand) = map countNumber counts ->
  Forall (fun n => (0 <= n)%Z) counts -> (sumZ counts <= 2 ^ 53)%Z ->
  brandReach platform posts brand = countNumber (sumZ counts).
Proof.
  intros Hm Hall Hsum. rewrite brandReach_sum, Hm.
  change 0%float with (countNumber 0).
  by rewrite foldl_add_counts.
Qed.

Lemma map_constant {A B : Type} (f : A -> B) (b : B) l :
  Forall (fun a => f a = b) l -> map f l = replicate (length l) b.
Proof. induction 1 as [|a l E _ IH]; cbn; [done|]. by rewrite E, IH. Qed.

(** C4 (amended). The reach chart has one value per selected brand: the
    left-to-right double sum over the brand's posts of the platform's
    metric, which is [reach], else [impressions], else 0 on Instagram and
    [views], else 0 on TikTok (a missing, zero or NaN field falls
    through).  A brand without posts, listed or not, gets 0.  When the
    metrics are counts whose sum is at most 2^53 the value is exactly the
    double of their sum, so that N posts whose metric is the count [r]
    give [N * r] whenever that is at most 2^53. *)
Theorem C4_total_reach platform selectedBrands posts :
  labels (totalReachByBrand platform selectedBrands posts) = selectedBrands
  /\ map barData (datasets (totalReachByBrand platform selectedBrands posts))
     = [map (fun brand => foldl PrimFloat.add 0%float
                            (map (postReach platform) (brandPostsOf posts brand)))
            selectedBrands]
  /\ (forall brand,
        brandReach platform posts brand
        = foldl PrimFloat.add 0%float
            (map (postReach platform) (brandPostsOf posts brand)))
  /\ (forall post,
        postReach Instagram post
        = orElse (reach post) (orElse (impressions post) 0)
        /\ postReach TikTok post = orElse (views post) 0)
  /\ (forall v d, orElse None d = d
                  /\ (truthyNumber v = false -> orElse (Some v) d = d)
                  /\ (truthyNumber v = true -> orElse (Some v) d = v))
  /\ truthyNumber 0 = false
  /\ truthyNumber (-0) = false
  /\ truthyNumber nan = false
  /\ (forall n, (1 <= n <= 2 ^ 53)%Z -> truthyNumber (countNumber n) = true)
  /\ (forall n, (0 <= n <= 2 ^ 53)%Z -> truncate (countNumber n) = n)
  /\ (forall brand, posts !! brand = None \/ posts !! brand = Some [] ->
        brandReach platform posts brand = 0%float)
  /\ (forall brand counts,
        map (postReach platform) (brandPostsOf posts brand) = map countNumber counts ->
        Forall (fun n => (0 <= n)%Z) counts -> (sumZ counts <= 2 ^ 53)%Z ->
        brandReach platform posts brand = countNumber (sumZ counts))
  /\ (forall brand r,
        (0 <= r)%Z ->
        (Z.of_nat (length (brandPostsOf posts brand)) * r <= 2 ^ 53)%Z ->
        Forall (fun post => postReach platform post = countNumber r)
               (brandPostsOf posts brand) ->
        brandReach platform posts brand
        = countNumber (Z.of_nat (length (brandPostsOf posts brand)) * r)).
Proof.
  split_and!.
  - done.
  - cbn. rewrite reachValues_map. cbn. f_equal. apply map_ext.
    intros brand. apply brandReach_sum.
  - intros brand. apply brandReach_sum.
  - done.
  - intros v d. split_and!; [done| |]; intros Hv; cbn; by rewrite Hv.
  - reflexivity.
  - reflexivity.
  - reflexivity.
  - apply truthyNumber_countNumber.
  - apply truncate_countNumber.
  - intros brand [E|E]; unfold brandReach, brandPostsOf; by rewrite E.
  - apply brandReach_counts.
  - intros brand r Hr Hbound Hall.
    set (l := brandPostsOf posts brand) in *.
    assert (Hsum : sumZ (replicate (length l) r) = (Z.of_nat (length l) * r)%Z).
    { rewrite (sumZ_constant r), length_replicate; [done|].
      apply Forall_forall. by intros v [-> _]%elem_of_replicate. }
    rewrite <-Hsum. apply brandReach_counts.
    + fold l. rewrite (map_constant _ (countNumber r)) by done.
      by rewrite fmap_replicate.
    + apply Forall_forall. by intros v [-> _]%elem_of_replicate.
    + by rewrite Hsum.
Qed.

(** ** The sentiment distribution *)

Lemma Prim2SF_zero : Prim2SF 0%float = S754_zero false.
Proof. reflexivity. Qed.

Lemma ltb_zero_asym x : PrimFloat.ltb x 0 = true -> PrimFloat.ltb 0 x = false.
Proof.
  rewrite !FloatAxioms.ltb_spec, Prim2SF_zero.
  by destruct (Prim2SF x) as [[]|[]| |[] ? ?].
Qed.

Lemma eqb_zero_not_ltb x :
  PrimFloat.eqb x 0 = true -> PrimFloat.ltb 0 x = false /\ PrimFloat.ltb x 0 = false.
Proof.
  rewrite FloatAxioms.eqb_spec, !FloatAxioms.ltb_spec, Prim2SF_zero.
  by destruct (Prim2SF x) as [[]|[]| |[] ? ?].
Qed.

(** One turn of the counting loop adds one to the counter of the post's
    class, and nothing when the post has none. *)
Lemma countPost_class c post :
  countPost c post
  = match sentimentClass post with
    | Some LabelPositive =>
        {| positiveCount := S (positiveCount c); neutralCount := neutralCount c;
           negativeCount := negativeCount c |}
    | Some LabelNeutral =>
        {| positiveCount := positiveCount c; neutralCount := S (neutralCount c);
           negativeCount := negativeCount c |}
    | Some LabelNegative =>
        {| positiveCount := positiveCount c; neutralCount := neutralCount c;
           negativeCount := S (negativeCount c) |}
    | None => c
    end.
Proof.
  unfold countPost, sentimentClass.
  destruct (sentimentScore post) as [| |score].
  - by destruct (sentimentLabel post) as [| |[]].
  - by destruct (sentimentLabel post) as [| |[]].
  - by destruct (PrimFloat.ltb 0 score), (PrimFloat.ltb score 0).
Qed.

Lemma foldl_countPost brandPosts c :
  let c' := foldl countPost c brandPosts in
  positiveCount c' = positiveCount c + length (List.filter (hasClass LabelPositive) brandPosts)
  /\ neutralCount c' = neutralCount c + length (List.filter (hasClass LabelNeutral) brandPosts)
  /\ negativeCount c' = negativeCount c + length (List.filter (hasClass LabelNegative) brandPosts).
Proof.
  cbv zeta. revert c. induction brandPosts as [|post l IH]; intros c.
  - cbn. lia.
  - cbn [foldl List.filter]. destruct (IH (countPost c post)) as (-> & -> & ->).
    rewrite countPost_class. unfold hasClass.
    destruct (sentimentClass post) as [[]|]; repeat case_bool_decide;
      try done; cbn; lia.
Qed.

Lemma hasSentimentSignal_class post :
  hasSentimentSignal post = bool_decide (is_Some (sentimentClass post)).
Proof.
  unfold hasSentimentSignal, sentimentClass.
  by destruct (sentimentScore post), (sentimentLabel post).
Qed.

Lemma signal_count l :
  length (List.filter hasSentimentSignal l)
  = length (List.filter (hasClass LabelPositive) l)
    + length (List.filter (hasClass LabelNeutral) l)
    + length (List.filter (hasClass LabelNegative) l).
Proof.
  induction l as [|post l IH]; [done|]. cbn [List.filter].
  rewrite hasSentimentSignal_class. unfold hasClass in *.
  destruct (sentimentClass post) as [[]|]; repeat case_bool_decide;
    try done; cbn; try lia.
  all: exfalso; eauto using is_Some_None.
Qed.

(** The distribution lists a brand when one of its three counts is above
    0, which is when one of its posts has a score or a label. *)
Lemma existsb_filter_length {A : Type} (f : A -> bool) l :
  existsb f l = (0 <? length (List.filter f l)).
Proof.
  induction l as [|a l IH]; [done|]. cbn [existsb List.filter].
  destruct (f a); [done|]. by rewrite IH.
Qed.

Lemma counts_signal brandPosts :
  existsb (fun n => 0 <? n)
          [positiveCount (countPosts brandPosts);
           neutralCount (countPosts brandPosts);
           negativeCount (countPosts brandPosts)]
  = existsb hasSentimentSignal brandPosts.
Proof.
  rewrite (existsb_filter_length hasSentimentSignal), signal_count.
  unfold countPosts.
  destruct (foldl_countPost brandPosts
              {| positiveCount := 0; neutralCount := 0; negativeCount := 0 |})
    as (-> & -> & ->).
  cbn [positiveCount neutralCount negativeCount existsb Nat.add].
  destruct (length (List.filter (hasClass LabelPositive) brandPosts)),
    (length (List.filter (hasClass LabelNeutral) brandPosts)),
    (length (List.filter (hasClass LabelNegative) brandPosts)); reflexivity.
Qed.

Lemma distribution_brands selectedBrands posts :
  map brandName (sentimentDistributionData selectedBrands posts)
  = List.filter (fun brand => existsb hasSentimentSignal (brandPostsOf posts brand))
                selectedBrands.
Proof.
  unfold sentimentDistributionData.
  destruct (hasData selectedBrands posts) eqn:Hd; cbn [negb].
  - induction selectedBrands as [|b sb IH] in |- *; [done|].
    cbn [map List.filter]. rewrite filter_cons. cbn [distribution].
    rewrite counts_signal.
    destruct (existsb hasSentimentSignal (brandPostsOf posts b)).
    + rewrite decide_True by done. cbn [map brandName]. by rewrite IH.
    + rewrite decide_False by (by intros []). by rewrite IH.
  - assert (Hall : Forall (fun b => brandPostsOf posts b = []) selectedBrands)
      by (apply Forall_forall; intros b Hb; by eapply hasData_false).
    clear Hd. induction Hall as [|b sb Hb Hall IH]; [done|].
    cbn [List.filter]. by rewrite Hb.
Qed.


(** The distribution, entry by entry. *)
Lemma distribution_eq selectedBrands posts :
  sentimentDistributionData selectedBrands posts
  = map (fun brand =>
           {| brandName := brand;
              distribution :=
                [length (List.filter (hasClass LabelPositive)
                           (brandPostsOf posts brand));
                 length (List.filter (hasClass LabelNeutral)
                           (brandPostsOf posts brand));
                 length (List.filter (hasClass LabelNegative)
                           (brandPostsOf posts brand))] |})
        (List.filter
           (fun brand => existsb hasSentimentSignal (brandPostsOf posts brand))
           selectedBrands).
Proof.
  unfold sentimentDistributionData.
  destruct (hasData selectedBrands posts) eqn:Hd; cbn [negb].
  - induction selectedBrands as [|b sb IH] in |- *; [done|].
    cbn [map List.filter]. rewrite filter_cons. cbn [distribution].
    rewrite counts_signal.
    destruct (existsb hasSentimentSignal (brandPostsOf posts b)).
    + rewrite decide_True by done. cbn [map]. rewrite IH. f_equal.
      unfold countPosts.
      by destruct (foldl_countPost (brandPostsOf posts b)
                     {| positiveCount := 0; neutralCount := 0;
                        negativeCount := 0 |})
        as (-> & -> & ->).
    + rewrite decide_False by (by intros []). by rewrite IH.
  - assert (Hall : Forall (fun b => brandPostsOf posts b = []) selectedBrands)
      by (apply Forall_forall; intros b Hb; by eapply hasData_false).
    clear Hd. induction Hall as [|b sb Hb Hall IH]; [done|].
    cbn [List.filter]. by rewrite Hb.
Qed.

(** C2. The distribution puts a post with a numeric score under positive
    when the score is above 0, negative when below 0 and neutral when it
    equals 0; a post without a numeric score but with a label goes under
    its label; a post with neither is counted nowhere.  So each counter
    is the number of the brand's posts of its class, and the three sum to
    the number of posts that have a numeric score or a label.  The memo
    is exactly the list of these three numbers for each selected brand
    that has a post with a numeric score or a label, in selection order:
    every such brand has its entry, and every entry is such a brand's. *)
Theorem C2_sentiment_distribution selectedBrands posts :
  (forall post score, sentimentScore post = Value score ->
     (PrimFloat.ltb 0 score = true -> sentimentClass post = Some LabelPositive)
     /\ (PrimFloat.ltb score 0 = true -> sentimentClass post = Some LabelNegative)
     /\ (PrimFloat.eqb score 0 = true -> sentimentClass post = Some LabelNeutral))
  /\ (forall post l, isNumber (sentimentScore post) = false ->
        sentimentLabel post = Value l -> sentimentClass post = Some l)
  /\ (forall post, hasSentimentSignal post = false -> sentimentClass post = None)
  /\ (forall brandPosts,
        positiveCount (countPosts brandPosts)
        = length (List.filter (hasClass LabelPositive) brandPosts)
        /\ neutralCount (countPosts brandPosts)
           = length (List.filter (hasClass LabelNeutral) brandPosts)
        /\ negativeCount (countPosts brandPosts)
           = length (List.filter (hasClass LabelNegative) brandPosts)
        /\ positiveCount (countPosts brandPosts)
           + neutralCount (countPosts brandPosts)
           + negativeCount (countPosts brandPosts)
           = length (List.filter hasSentimentSignal brandPosts))
  /\ (forall d, d ∈ sentimentDistributionData selectedBrands posts ->
        brandName d ∈ selectedBrands
        /\ distribution d
           = [positiveCount (countPosts (brandPostsOf posts (brandName d)));
              neutralCount (countPosts (brandPostsOf posts (brandName d)));
              negativeCount (countPosts (brandPostsOf posts (brandName d)))]
        /\ sum_list (distribution d)
           = length (List.filter hasSentimentSignal (brandPostsOf posts (brandName d))))
  /\ sentimentDistributionData selectedBrands posts
     = map (fun brand =>
              {| brandName := brand;
                 distribution :=
                   [length (List.filter (hasClass LabelPositive)
                              (brandPostsOf posts brand));
                    length (List.filter (hasClass LabelNeutral)
                              (brandPostsOf posts brand));
                    length (List.filter (hasClass LabelNegative)
                              (brandPostsOf posts brand))] |})
           (List.filter
              (fun brand => existsb hasSentimentSignal (brandPostsOf posts brand))
              selectedBrands)
  /\ (forall brand post,
        brand ∈ selectedBrands -> post ∈ brandPostsOf posts brand ->
        hasSentimentSignal post = true ->
        exists d,
          d ∈ sentimentDistributionData selectedBrands posts
          /\ brandName d = brand
          /\ distribution d
             = [length (List.filter (hasClass LabelPositive)
                          (brandPostsOf posts brand));
                length (List.filter (hasClass LabelNeutral)
                          (brandPostsOf posts brand));
                length (List.filter (hasClass LabelNegative)
                          (brandPostsOf posts brand))]
          /\ sum_list (distribution d)
             = length (List.filter hasSentimentSignal (brandPostsOf posts brand))
          /\ 0 < sum_list (distribution d))
  /\ (forall brand,
        brand ∈ selectedBrands ->
        (forall post, post ∈ brandPostsOf posts brand ->
           hasSentimentSignal post = false) ->
        forall d, d ∈ sentimentDistributionData selectedBrands posts ->
                  brandName d <> brand).
Proof.
  assert (Hcount : forall brandPosts,
        positiveCount (countPosts brandPosts)
        = length (List.filter (hasClass LabelPositive) brandPosts)
        /\ neutralCount (countPosts brandPosts)
           = length (List.filter (hasClass LabelNeutral) brandPosts)
        /\ negativeCount (countPosts brandPosts)
           = length (List.filter (hasClass LabelNegative) brandPosts)
        /\ positiveCount (countPosts brandPosts)
           + neutralCount (countPosts brandPosts)
           + negativeCount (countPosts brandPosts)
           = length (List.filter hasSentimentSignal brandPosts)).
  { intros l. unfold countPosts.
    destruct (foldl_countPost l
                {| positiveCount := 0; neutralCount := 0; negativeCount := 0 |})
      as (-> & -> & ->). cbn. rewrite signal_count. lia. }
  split_and!.
  - intros post score Hs. unfold sentimentClass. rewrite Hs. split_and!.
    + by intros ->.
    + intros Hlt. by rewrite (ltb_zero_asym _ Hlt), Hlt.
    + intros Heq. by destruct (eqb_zero_not_ltb _ Heq) as [-> ->].
  - intros post l Hn Hl. unfold sentimentClass. rewrite Hl.
    by destruct (sentimentScore post).
  - intros post. rewrite hasSentimentSignal_class.
    intros Hn%bool_decide_eq_false. by destruct (sentimentClass post); [destruct Hn|].
  - done.
  - intros d. unfold sentimentDistributionData.
    destruct (hasData selectedBrands posts); cbn; [|by intros ?%elem_of_nil].
    rewrite list_elem_of_filter, list_elem_of_fmap.
    intros (_ & brand & -> & Hb). cbn. split_and!; [done..|].
    destruct (Hcount (brandPostsOf posts brand)) as (_ & _ & _ & <-). lia.
  - apply distribution_eq.
  - intros brand post Hb Hp Hs. rewrite distribution_eq.
    set (entry := fun brand : Brand =>
           {| brandName := brand;
              distribution :=
                [length (List.filter (hasClass LabelPositive)
                           (brandPostsOf posts brand));
                 length (List.filter (hasClass LabelNeutral)
                           (brandPostsOf posts brand));
                 length (List.filter (hasClass LabelNegative)
                           (brandPostsOf posts brand))] |}).
    exists (entry brand).
    split; [|split; [reflexivity|split; [reflexivity|]]].
    + apply (list_elem_of_fmap_2 entry), list_elem_of_In, filter_In.
      split; [by apply list_elem_of_In|]. apply existsb_exists.
      exists post. split; [by apply list_elem_of_In|done].
    + assert (Hin : In post (List.filter hasSentimentSignal
                               (brandPostsOf posts brand)))
        by (apply filter_In; split; [by apply list_elem_of_In|done]).
      assert (Hpos : 0 < length (List.filter hasSentimentSignal
                                   (brandPostsOf posts brand)))
        by (destruct (List.filter hasSentimentSignal (brandPostsOf posts brand));
            [destruct Hin|cbn; lia]).
      rewrite signal_count in Hpos |- *. cbn. split; lia.
  - intros brand Hb Hno d. rewrite distribution_eq.
    intros (b & -> & Hin%list_elem_of_In)%list_elem_of_fmap. cbn [brandName].
    intros ->. apply filter_In in Hin as [_ Hex].
    apply existsb_exists in Hex as (post & Hp%list_elem_of_In & Hs).
    by rewrite (Hno post Hp) in Hs.
Qed.


(** ** Date keys of numeric timestamps *)

(** C6 (amended). A numeric timestamp below 1e12 is taken as seconds and
    multiplied by 1000, any other as milliseconds.  When the clipped time
    value is valid, the key is the ISO date of its UTC day: it reads back
    as that day's midnight, and it has the shape YYYY-MM-DD exactly when
    the year is 0 to 9999; every other year, from -271821 to 275760, is
    written with a sign and six digits.  When the time value is invalid
    the result is the empty string. *)
Theorem C6_numeric_timestamp (x : float) :
  groupingDate host (DNum x)
  = TimeClip (if PrimFloat.ltb x 1e12 then (x * 1000)%float else x)
  /\ formatDateForGrouping host (DNum x)
     = Ok (from_option isoDate ""
             (TimeClip (if PrimFloat.ltb x 1e12 then (x * 1000)%float else x)))
  /\ (forall t,
        TimeClip (if PrimFloat.ltb x 1e12 then (x * 1000)%float else x) = Some t ->
        isoDate t = dayKey (Day t)
        /\ parseDateOnly (isoDate t) = Some (Day t * msPerDay)%Z
        /\ (-271821 <= YearFromTime t <= 275760)%Z
        /\ isYMD (isoDate t)
           = ((0 <=? YearFromTime t)%Z && (YearFromTime t <=? 9999)%Z)
        /\ isExpandedYMD (isoDate t)
           = negb ((0 <=? YearFromTime t)%Z && (YearFromTime t <=? 9999)%Z)).
Proof.
  split_and!.
  - cbn. by destruct (PrimFloat.ltb x 1e12).
  - rewrite formatDateForGrouping_eq. cbn. by destruct (PrimFloat.ltb x 1e12).
  - intros t Ht. apply TimeClip_range in Ht. split_and!.
    + apply isoDate_dayKey.
    + by apply parseDateOnly_isoDate.
    + by apply year_range.
    + by apply year_range.
    + apply isYMD_isoDate.
    + apply isExpandedYMD_isoDate.
Qed.

(** ** The label axis and the vectors *)

Lemma meanOrNull_None scores : meanOrNull scores = None <-> scores = [].
Proof. unfold meanOrNull. by destruct scores. Qed.


Lemma flat_map_select_nil {A : Type} (f : Brand -> list A) (b : Brand) sb :
  b ∈ sb ->
  flat_map (fun brand => if decide (brand = b) then f brand else []) sb = []
  <-> f b = [].
Proof.
  induction sb as [|b' sb IH]; intros Hin; [by apply elem_of_nil in Hin|].
  cbn. rewrite app_nil. destruct (decide (b' = b)) as [->|Hne].
  - split; [by intros [? _]|]. intros Hf. split; [done|].
    clear IH Hin. induction sb as [|c sb IH]; [done|]. cbn.
    destruct (decide (c = b)) as [->|]; by rewrite ?Hf, IH.
  - apply elem_of_cons in Hin as [->|Hin]; [done|]. rewrite IH by done.
    naive_solver.
Qed.

Lemma label_imap g l (f : nat -> nat) :
  map label (imap (fun i => brandDataset g (f i)) l) = l.
Proof.
  revert f. induction l as [|b l IH]; intros f; cbn; [done|].
  f_equal. apply (IH (f ∘ S)).
Qed.

Section chart_facts.
Variable platform : SocialPlatform.
Variable selectedBrands : list Brand.
Variable posts : gmap Brand (list Post).

Lemma dataset_vector ds :
  ds ∈ lineDatasets (grouping platform selectedBrands posts) selectedBrands ->
  label ds ∈ selectedBrands
  /\ data ds
     = map (fun d => meanOrNull
                       (scoresAt (grouping platform selectedBrands posts)
                                 (dayKey d) (label ds)))
           (sortedDays platform selectedBrands posts).
Proof.
  intros Hds. apply lineDatasets_data in Hds as [Hl ->]. split; [done|].
  rewrite sortedDatesOf_grouping, map_map. apply map_ext.
  intros d. apply dailyMean_scoresAt.
Qed.

Lemma elem_of_groupedDays d :
  d ∈ groupedDays platform selectedBrands posts
  <-> exists brand post, brand ∈ selectedBrands
        /\ post ∈ brandPostsOf posts brand /\ postDay platform post = Some d.
Proof.
  unfold groupedDays. rewrite elem_of_flat_map.
  setoid_rewrite list_elem_of_omap. naive_solver.
Qed.

(** C1 (amended). The memo returns; its label axis is the display label of
    each key of [sortedDays], position by position; [sortedDays] is
    strictly ascending and holds exactly the UTC days of the posts of the
    selected brands that have a truthy timestamp giving a valid date and
    a numeric score; each of its keys reads back as its day; and a post
    whose timestamp gives no valid date leaves the grouping as it was. *)
Theorem C1_label_axis :
  exists out,
    comparativeAvgSentimentOverTimeData platform selectedBrands posts = Ok out
    /\ labels out
       = map (fun d => formatDateForLabel host (dayKey d))
             (sortedDays platform selectedBrands posts)
    /\ StronglySorted Z.lt (sortedDays platform selectedBrands posts)
    /\ (forall d, d ∈ sortedDays platform selectedBrands posts
          <-> exists brand post, brand ∈ selectedBrands
                /\ post ∈ brandPostsOf posts brand
                /\ postDay platform post = Some d)
    /\ (forall post d, postDay platform post = Some d
          <-> exists ts score t,
                postTimestamp platform post = Some ts
                /\ truthyDate (Some ts) = true
                /\ sentimentScore post = Value score
                /\ groupingDate host ts = Some t /\ d = Day t)
    /\ (forall d, d ∈ sortedDays platform selectedBrands posts ->
          parseDateOnly (dayKey d) = Some (d * msPerDay)%Z)
    /\ (forall brand g post, timestampDay platform post = None ->
          groupPost platform brand g post = Ok g).
Proof.
  pose proof (comparative_labels platform selectedBrands posts) as Hl.
  rewrite comparativeAvgSentimentOverTimeData_eq in Hl |- *.
  eexists. split; [done|]. split_and!.
  - by injection Hl.
  - apply sortedDays_ascending.
  - intros d. by rewrite elem_of_sortedDays, elem_of_groupedDays.
  - intros post d. unfold postDay.
    destruct (postTimestamp platform post) as [ts|];
      [|split; [done|intros (? & ? & ? & ? & _); done]].
    destruct (sentimentScore post) as [| |score];
      [split; [done|intros (? & ? & ? & _ & _ & ? & _); done]..|].
    destruct (truthyDate (Some ts)) eqn:Et;
      [|split; [done|intros (? & ? & ? & ? & ? & _); congruence]].
    destruct (groupingDate host ts) as [t|] eqn:Eg; cbn; split.
    + intros [= <-]. by exists ts, score, t.
    + intros (? & ? & ? & [= <-] & _ & _ & ? & ->). congruence.
    + done.
    + intros (? & ? & ? & [= <-] & _ & _ & ? & _). congruence.
  - intros d Hd. apply parseDateOnly_dayKey. by eapply sortedDays_range.
  - intros brand g post Hn. rewrite groupPost_eq. f_equal.
    unfold filePost, postDay. unfold timestampDay in Hn.
    destruct (postTimestamp platform post) as [ts|]; [|done]. cbn in Hn.
    destruct (sentimentScore post); try done.
    destruct (truthyDate (Some ts)); [|done].
    by destruct (groupingDate host ts).
Qed.



(** C7 (amended). With Nordstrom selected the memo returns.  When no
    selected brand has a post its output has no series.  When one has,
    the series are Nordstrom's, in its own blue, then those of the other
    selected brands in selection order, the i-th of them coloured from
    palette entry [i mod 11]. *)
Theorem C7_series_order :
  Nordstrom ∈ selectedBrands ->
  exists out,
    comparativeAvgSentimentOverTimeData platform selectedBrands posts = Ok out
    /\ (hasData selectedBrands posts = false -> datasets out = [])
    /\ (hasData selectedBrands posts = true ->
        map label (datasets out) = Nordstrom :: otherBrands selectedBrands
        /\ (forall brand, brand ∈ otherBrands selectedBrands
              <-> brand ∈ selectedBrands /\ brand <> Nordstrom)
        /\ (exists ds, datasets out !! 0 = Some ds
              /\ label ds = Nordstrom
              /\ borderColor ds = NORDSTROM_BLUE
              /\ backgroundColor ds = NORDSTROM_BLUE_FILL)
        /\ (forall i brand, otherBrands selectedBrands !! i = Some brand ->
              exists ds color,
                datasets out !! S i = Some ds
                /\ label ds = brand
                /\ vibrantColors !! (i mod length vibrantColors) = Some color
                /\ borderColor ds = replace "0.8" "1" color
                /\ backgroundColor ds = replace "0.8" "0.1" color)).
Proof.
  intros HN. rewrite comparativeAvgSentimentOverTimeData_eq.
  eexists. split; [done|]. split; intros Hd; rewrite Hd; [done|].
  cbn [labels datasets]. unfold lineDatasets.
  rewrite decide_True by done.
  change ([?x] ++ ?l) with (x :: l). split_and!.
  - cbn [map]. f_equal. apply (label_imap _ _ id).
  - intros brand. apply elem_of_otherBrands.
  - by eexists.
  - intros i brand Hi.
    exists (brandDataset (grouping platform selectedBrands posts) i brand).
    pose proof (paletteColor_eq i) as Hc. unfold paletteColor in Hc.
    destruct (vibrantColors !! (i mod length vibrantColors)) as [color|] eqn:E;
      [|done].
    exists color. injection Hc as Hc. split_and!; try done.
    + by rewrite lookup_cons, list_lookup_imap, Hi.
    + cbn. by rewrite <-Hc.
    + cbn. by rewrite <-Hc.
Qed.

End chart_facts.


(** ** What the component draws *)

Lemma checkAndFix_fold selectedBrands posts hasPosts hasSentiment :
  hasSentiment = true
  \/ (exists brand post, brand ∈ selectedBrands /\ post ∈ brandPostsOf posts brand
        /\ hasProperty (sentimentScore post) = true) ->
  (foldl (fun '(hasPosts, hasSentiment) brand =>
            let brandPosts := brandPostsOf posts brand in
            if 0 <? length brandPosts then
              (true,
               if existsb (fun post => hasProperty (sentimentScore post)
                                       || hasProperty (sentimentLabel post))
                          brandPosts
               then true else hasSentiment)
            else (hasPosts, hasSentiment))
         (hasPosts, hasSentiment) selectedBrands).2 = true.
Proof.
  revert hasPosts hasSentiment.
  induction selectedBrands as [|b sb IH]; intros hp hs Hor.
  - destruct Hor as [->|(brand & post & Hb & _)]; [done|].
    by apply elem_of_nil in Hb.
  - cbn [foldl]. cbv zeta.
    destruct (0 <? length (brandPostsOf posts b)) eqn:Elen.
    + apply IH. destruct Hor as [->|(brand & post & Hb & Hp & Hs)].
      * left. by destruct (existsb _ _).
      * apply elem_of_cons in Hb as [->|Hb]; [|right; eauto].
        left. rewrite (proj2 (existsb_exists _ _)); [done|].
        exists post. rewrite <-list_elem_of_In. by rewrite Hs.
    + apply IH. destruct Hor as [->|(brand & post & Hb & Hp & Hs)]; [by left|].
      apply elem_of_cons in Hb as [->|Hb]; [|right; eauto].
      apply Nat.ltb_ge in Elen. destruct (brandPostsOf posts b); [|cbn in Elen; lia].
      by apply elem_of_nil in Hp.
Qed.

(** A post with a numeric score rules the TikTok note out. *)
Lemma checkAndFix_false platform selectedBrands posts brand post :
  brand ∈ selectedBrands -> post ∈ brandPostsOf posts brand ->
  isNumber (sentimentScore post) = true ->
  checkAndFixTikTokData platform selectedBrands posts = false.
Proof.
  intros Hb Hp Hs. unfold checkAndFixTikTokData. destruct platform; [done|].
  pose proof (checkAndFix_fold selectedBrands posts false false) as Hf.
  destruct (foldl _ _ _) as [hp hs]. cbn in Hf. rewrite Hf; [by destruct hp|].
  right. exists brand, post. split_and!; [done..|].
  by destruct (sentimentScore post).
Qed.

Lemma postDay_isNumber platform post d :
  postDay platform post = Some d -> isNumber (sentimentScore post) = true.
Proof.
  unfold postDay. destruct (postTimestamp platform post); [|done].
  by destruct (sentimentScore post).
Qed.

(** The time series: the memo and the component return.  Every series
    vector is as long as the label axis; its entry at the position of a
    day is [null] exactly when the brand has no score filed under that
    day; and the line chart is drawn exactly when the label axis is not
    empty. *)
Lemma timeSeries_vectors platform selectedBrands posts :
  exists out view,
    comparativeAvgSentimentOverTimeData platform selectedBrands posts = Ok out
    /\ renderSentiment platform selectedBrands posts = Ok view
    /\ labels out
       = map (fun d => formatDateForLabel host (dayKey d))
             (sortedDays platform selectedBrands posts)
    /\ Forall (fun ds => length (data ds) = length (labels out)) (datasets out)
    /\ (forall ds i d,
          ds ∈ datasets out ->
          sortedDays platform selectedBrands posts !! i = Some d ->
          is_Some (data ds !! i)
          /\ (data ds !! i = Some None
              <-> dayScores platform (brandPostsOf posts (label ds)) d = []))
    /\ showsLineChart view = negb (length (labels out) =? 0).
Proof.
  pose proof (comparative_labels platform selectedBrands posts) as Hl.
  unfold renderSentiment.
  rewrite comparativeAvgSentimentOverTimeData_eq in Hl |- *.
  set (out := if hasData selectedBrands posts then _ else _) in *.
  cbn in Hl. injection Hl as Hl.
  assert (Hvec : forall ds, ds ∈ datasets out ->
            label ds ∈ selectedBrands
            /\ data ds
               = map (fun d => meanOrNull
                        (scoresAt (grouping platform selectedBrands posts)
                                  (dayKey d) (label ds)))
                     (sortedDays platform selectedBrands posts)).
  { subst out. destruct (hasData selectedBrands posts); cbn.
    - apply dataset_vector.
    - by intros ds ?%elem_of_nil. }
  exists out. eexists. split; [done|]. split; [|split_and!].
  - reflexivity.
  - done.
  - apply Forall_forall. intros ds Hds. destruct (Hvec ds Hds) as [_ ->].
    by rewrite Hl, !length_map.
  - intros ds i d Hds Hi. destruct (Hvec ds Hds) as [Hb ->].
    rewrite list_lookup_fmap, Hi. cbn. split; [by eexists|].
    rewrite scoresAt_grouping
      by (eapply sortedDays_range, list_elem_of_lookup_2, Hi).
    rewrite <-(flat_map_select_nil
                 (fun brand => dayScores platform (brandPostsOf posts brand) d)
                 (label ds) selectedBrands Hb).
    rewrite <-meanOrNull_None. split; congruence.
  - rewrite Hl, length_map. clear Hl Hvec. clearbody out.
    destruct (hasData selectedBrands posts) eqn:Hd; cbn [negb andb].
    + destruct (sortedDays platform selectedBrands posts) as [|d l] eqn:Es.
      * by destruct (checkAndFixTikTokData platform selectedBrands posts).
      * assert (Hin : d ∈ groupedDays platform selectedBrands posts).
        { apply elem_of_sortedDays. rewrite Es. by left. }
        apply elem_of_groupedDays in Hin as (brand & post & Hb & Hp & Hday).
        rewrite (checkAndFix_false platform selectedBrands posts brand post)
          by eauto using postDay_isNumber.
        done.
    + unfold sortedDays. rewrite hasData_false_groupedDays by done.
      by destruct (checkAndFixTikTokData platform selectedBrands posts).
Qed.

(** ** Posts the grouping loop passes over *)

Lemma foldl_ext_in {A B : Type} (f f' : B -> A -> B) l b :
  (forall b a, a ∈ l -> f b a = f' b a) -> foldl f b l = foldl f' b l.
Proof.
  revert b. induction l as [|a l IH]; intros b Hf; cbn; [done|].
  rewrite Hf by left. apply IH. intros b' a' Ha'. apply Hf. by right.
Qed.

Lemma filePost_skip platform brand g post :
  postDay platform post = None -> filePost platform brand g post = g.
Proof. unfold filePost. by intros ->. Qed.

Lemma brandPostsOf_insert posts brand l b :
  brandPostsOf (<[brand := l]> posts) b
  = if decide (brand = b) then l else brandPostsOf posts b.
Proof.
  unfold brandPostsOf. case_decide as Hb.
  - subst. by rewrite lookup_insert_eq.
  - by rewrite lookup_insert_ne.
Qed.

Section skipped_post.
Variable platform : SocialPlatform.
Variable selectedBrands : list Brand.
Variable posts : gmap Brand (list Post).
Variables (brand : Brand) (post : Post) (l1 l2 : list Post).
Hypothesis Hposts : posts !! brand = Some (l1 ++ post :: l2).
Hypothesis Hskip : postDay platform post = None.

Lemma grouping_skip :
  grouping platform selectedBrands posts
  = grouping platform selectedBrands (<[brand := l1 ++ l2]> posts).
Proof.
  unfold grouping. apply foldl_ext_in. intros g b _.
  rewrite brandPostsOf_insert. case_decide as Hb; [|done]. subst b.
  unfold brandPostsOf. rewrite Hposts. cbn.
  rewrite !foldl_app. cbn. by rewrite filePost_skip.
Qed.

Lemma groupedDays_skip :
  groupedDays platform selectedBrands posts
  = groupedDays platform selectedBrands (<[brand := l1 ++ l2]> posts).
Proof.
  unfold groupedDays. induction selectedBrands as [|b sb IH]; cbn; [done|].
  rewrite IH. f_equal. rewrite brandPostsOf_insert. case_decide as Hb; [|done].
  subst b. unfold brandPostsOf. rewrite Hposts. cbn.
  rewrite !omap_app. cbn. by rewrite Hskip.
Qed.

Lemma hasData_skip :
  hasData selectedBrands (<[brand := l1 ++ l2]> posts) = true ->
  hasData selectedBrands posts = true.
Proof.
  intros Hd. destruct (hasData selectedBrands posts) eqn:E; [done|].
  rewrite <-Hd. symmetry. unfold hasData. cbv zeta.
  assert (Hz : forall n, foldl (fun totalPosts b =>
                 totalPosts + length (brandPostsOf (<[brand := l1 ++ l2]> posts) b))
                 n selectedBrands = n).
  { assert (Hall : forall b, b ∈ selectedBrands ->
              brandPostsOf (<[brand := l1 ++ l2]> posts) b = []).
    { intros b Hb. pose proof (hasData_false _ _ _ E Hb) as Hnil.
      rewrite brandPostsOf_insert. case_decide as Hbb; [|done]. subst b.
      unfold brandPostsOf in Hnil. rewrite Hposts in Hnil. cbn in Hnil.
      by destruct l1. }
    clear E Hd. induction selectedBrands as [|b sb IH]; intros n; cbn; [done|].
    rewrite Hall by left. cbn. rewrite Nat.add_0_r. apply IH.
    intros b' Hb'. apply Hall. by right. }
  by rewrite Hz.
Qed.

(** The chart is the one computed without the post: the label axis always,
    and all of it as long as another post is left. *)
Lemma comparative_skip :
  groupPosts platform selectedBrands posts
  = groupPosts platform selectedBrands (<[brand := l1 ++ l2]> posts)
  /\ labels <$> comparativeAvgSentimentOverTimeData platform selectedBrands posts
     = labels <$> comparativeAvgSentimentOverTimeData platform selectedBrands
                    (<[brand := l1 ++ l2]> posts)
  /\ (hasData selectedBrands (<[brand := l1 ++ l2]> posts) = true ->
      comparativeAvgSentimentOverTimeData platform selectedBrands posts
      = comparativeAvgSentimentOverTimeData platform selectedBrands
          (<[brand := l1 ++ l2]> posts)).
Proof.
  split_and!.
  - by rewrite !groupPosts_eq, grouping_skip.
  - rewrite !comparative_labels. unfold sortedDays. by rewrite groupedDays_skip.
  - intros Hd. rewrite !comparativeAvgSentimentOverTimeData_eq.
    by rewrite Hd, (hasData_skip Hd), grouping_skip.
Qed.

End skipped_post.


(** C10. A post whose timestamp is falsy (the number 0, -0 or NaN, the
    empty string, or no timestamp) is passed over by the grouping loop:
    the grouping is left as it was, so the chart's label axis is the one
    computed without the post, and so is the whole chart when another
    post is left; yet second 0 is a valid date, whose key is 1970-01-01. *)
Theorem C10_falsy_timestamp platform brand post :
  truthyDate (postTimestamp platform post) = false ->
  (forall g, groupPost platform brand g post = Ok g)
  /\ (forall selectedBrands posts l1 l2,
        posts !! brand = Some (l1 ++ post :: l2) ->
        groupPosts platform selectedBrands posts
        = groupPosts platform selectedBrands (<[brand := l1 ++ l2]> posts)
        /\ labels <$> comparativeAvgSentimentOverTimeData platform
                        selectedBrands posts
           = labels <$> comparativeAvgSentimentOverTimeData platform
                          selectedBrands (<[brand := l1 ++ l2]> posts)
        /\ (hasData selectedBrands (<[brand := l1 ++ l2]> posts) = true ->
            comparativeAvgSentimentOverTimeData platform selectedBrands posts
            = comparativeAvgSentimentOverTimeData platform selectedBrands
                (<[brand := l1 ++ l2]> posts)))
  /\ truthyDate (Some (DNum 0)) = false
  /\ truthyDate (Some (DNum (-0))) = false
  /\ truthyDate (Some (DNum nan)) = false
  /\ truthyDate (Some (DStr "")) = false
  /\ truthyDate None = false
  /\ formatDateForGrouping host (DNum 0) = Ok "1970-01-01".
Proof.
  intros Hf.
  assert (Hskip : postDay platform post = None).
  { unfold postDay. destruct (postTimestamp platform post) as [ts|]; [|done].
    destruct (sentimentScore post); try done. by rewrite Hf. }
  split_and!; try reflexivity.
  - intros g. by rewrite groupPost_eq, filePost_skip.
  - intros selectedBrands posts l1 l2 Hposts.
    exact (comparative_skip _ _ _ _ _ _ _ Hposts Hskip).
Qed.

(** ** Hashtags *)

Lemma length_insertRanked count tag ranked :
  length (insertRanked count tag ranked) = S (length ranked).
Proof.
  induction ranked as [|t l IH]; cbn [insertRanked]; [done|].
  destruct (count t <? count tag); cbn [length]; by rewrite ?IH.
Qed.

Lemma length_rankTags count tags : length (rankTags count tags) = length tags.
Proof.
  unfold rankTags.
  assert (Hgen : forall acc,
            length (foldl (fun ranked tag => insertRanked count tag ranked) acc tags)
            = length acc + length tags).
  { induction tags as [|t l IH]; intros acc; cbn; [lia|].
    rewrite IH, length_insertRanked. lia. }
  by rewrite Hgen.
Qed.

Lemma seen_nonempty tags acc :
  (acc <> [] \/ tags <> []) -> foldl (fun seen tag => setAdd tag seen) acc tags <> [].
Proof.
  revert acc. induction tags as [|t l IH]; intros acc Hor; cbn.
  - by destruct Hor.
  - apply IH. left. unfold setAdd. case_decide as Hin.
    + intros ->. by apply elem_of_nil in Hin.
    + by destruct acc.
Qed.

Lemma flat_map_nil {A B : Type} (f : A -> list B) l :
  flat_map f l = [] <-> forall a, a ∈ l -> f a = [].
Proof.
  induction l as [|a l IH]; cbn.
  - split; [|done]. by intros _ a ?%elem_of_nil.
  - rewrite app_nil, IH. setoid_rewrite elem_of_cons. naive_solver.
Qed.

Lemma hashtagHasData_false socialData selectedBrands platform brand :
  hashtagHasData (Some socialData) selectedBrands = false ->
  brand ∈ selectedBrands ->
  postsIn (platformDataOf socialData platform) brand = [].
Proof.
  cbn. intros Hex Hb. apply not_true_iff_false in Hex.
  rewrite existsb_exists in Hex.
  destruct (postsIn (platformDataOf socialData platform) brand) as [|p l] eqn:E;
    [done|].
  exfalso. apply Hex. exists brand. split; [by apply list_elem_of_In|].
  destruct platform; cbn in E; rewrite E; cbn; [done|]. apply orb_true_r.
Qed.

Lemma brandReach_insert platform posts brand l :
  brandReach platform (<[brand := l]> posts) brand
  = foldl PrimFloat.add 0%float (map (postReach platform) l).
Proof.
  rewrite brandReach_sum, brandPostsOf_insert. by rewrite decide_True.
Qed.

Lemma sumZ_app l1 l2 : sumZ (l1 ++ l2) = (sumZ l1 + sumZ l2)%Z.
Proof.
  unfold sumZ. induction l1 as [|v l1 IH]; cbn [app foldr]; [done|].
  rewrite IH. lia.
Qed.

Lemma tally_app tag l1 l2 : tally tag (l1 ++ l2) = tally tag l1 + tally tag l2.
Proof. unfold tally. by rewrite List.filter_app, length_app. Qed.

Lemma tally_elem tag tags : tag ∈ tags -> 1 <= tally tag tags.
Proof.
  unfold tally. induction 1 as [tag l|tag t l _ IH]; cbn [List.filter].
  - rewrite String.eqb_refl. cbn. lia.
  - destruct (String.eqb tag t); cbn; lia.
Qed.

Lemma hashtagHasData_posts socialData selectedBrands platform brand :
  brand ∈ selectedBrands ->
  postsIn (platformDataOf socialData platform) brand <> [] ->
  hashtagHasData (Some socialData) selectedBrands = true.
Proof.
  intros Hb Hne. destruct (hashtagHasData _ _) eqn:E; [done|].
  by rewrite (hashtagHasData_false _ _ _ _ E Hb) in Hne.
Qed.

(** The chart of the component when there is data, spelled out. *)
Lemma unifiedChartData_eq socialData selectedBrands platform :
  hashtagHasData (Some socialData) selectedBrands = true ->
  let pooled := flat_map (brandHashtags socialData platform) selectedBrands in
  let top :=
    take 5 (rankTags (fun tag => tally tag pooled)
                     (foldl (fun seen tag => setAdd tag seen) [] pooled)) in
  unifiedChartData (Some socialData) selectedBrands platform
  = if 0 <? length pooled then
      {| labels := top;
         datasets :=
           map (fun brand =>
                  {| hashtagBrand := brand;
                     hashtagCounts :=
                       map (fun tag => tally tag (brandHashtags socialData platform brand))
                           top |})
               selectedBrands |}
    else {| labels := []; datasets := [] |}.
Proof.
  intros Hd. cbv zeta. unfold unifiedChartData. rewrite Hd. cbn [negb].
  unfold generateUnifiedHashtagChart, topHashtags, brandHashtags, platformDataOf.
  by destruct platform.
Qed.

(** C5. A post whose timestamp [formatDateForGrouping] cannot turn into a
    key (it returns the empty string) is passed over by the grouping
    loop, without an error: the grouping is the one computed without the
    post.  The post still counts elsewhere.  In the reach chart its
    metric is added to its brand's running total at its turn, so that,
    the metrics being counts that sum to at most 2^53, the brand's value
    is the value without the post plus the post's metric.  In the hashtag
    chart its hashtags are tallied: they alone make the chart non-empty,
    and its brand's count for every label includes the post's
    occurrences.  No aggregator throws: [formatDateForGrouping], the
    time-series memo and the component return for every input. *)
Theorem C5_malformed_timestamp platform brand post ts :
  postTimestamp platform post = Some ts ->
  formatDateForGrouping host ts = Ok "" ->
  (forall g, groupPost platform brand g post = Ok g)
  /\ (forall selectedBrands posts l1 l2,
        posts !! brand = Some (l1 ++ post :: l2) ->
        groupPosts platform selectedBrands posts
        = groupPosts platform selectedBrands (<[brand := l1 ++ l2]> posts)
        /\ labels <$> comparativeAvgSentimentOverTimeData platform
                        selectedBrands posts
           = labels <$> comparativeAvgSentimentOverTimeData platform
                          selectedBrands (<[brand := l1 ++ l2]> posts)
        /\ brandReach platform posts brand
           = foldl PrimFloat.add
               (foldl PrimFloat.add 0 (map (postReach platform) l1)
                + postReach platform post)%float
               (map (postReach platform) l2)
        /\ (forall i, selectedBrands !! i = Some brand ->
              exists ds,
                datasets (totalReachByBrand platform selectedBrands posts) = [ds]
                /\ barData ds !! i = Some (brandReach platform posts brand))
        /\ (forall counts1 r counts2,
              map (postReach platform) l1 = map countNumber counts1 ->
              postReach platform post = countNumber r ->
              map (postReach platform) l2 = map countNumber counts2 ->
              Forall (fun n => (0 <= n)%Z) (counts1 ++ r :: counts2) ->
              (sumZ (counts1 ++ r :: counts2) <= 2 ^ 53)%Z ->
              brandReach platform posts brand
              = countNumber (sumZ (counts1 ++ counts2) + r)
              /\ brandReach platform (<[brand := l1 ++ l2]> posts) brand
                 = countNumber (sumZ (counts1 ++ counts2))))
  /\ (forall socialData selectedBrands l1 l2,
        platformDataOf socialData platform !! brand
        = Some {| posts := Some (l1 ++ post :: l2) |} ->
        brand ∈ selectedBrands ->
        (postHashtags post <> [] ->
         labels (unifiedChartData (Some socialData) selectedBrands platform) <> []
         /\ isFallback (renderHashtags (Some socialData) selectedBrands platform)
            = false)
        /\ (labels (unifiedChartData (Some socialData) selectedBrands platform) <> [] ->
            exists ds,
              ds ∈ datasets (unifiedChartData (Some socialData) selectedBrands platform)
              /\ hashtagBrand ds = brand)
        /\ (forall ds,
              ds ∈ datasets (unifiedChartData (Some socialData) selectedBrands platform) ->
              hashtagBrand ds = brand ->
              hashtagCounts ds
              = map (fun tag => tally tag (flat_map postHashtags l1)
                                + tally tag (postHashtags post)
                                + tally tag (flat_map postHashtags l2))
                    (labels (unifiedChartData (Some socialData) selectedBrands
                               platform)))
        /\ (forall tag, tag ∈ postHashtags post -> 1 <= tally tag (postHashtags post)))
  /\ (forall dateInput, exists key, formatDateForGrouping host dateInput = Ok key)
  /\ (forall platform' selectedBrands posts,
        (exists out, comparativeAvgSentimentOverTimeData platform'
                       selectedBrands posts = Ok out)
        /\ (exists view, renderSentiment platform' selectedBrands posts = Ok view)).
Proof.
  intros Hts Hkey.
  assert (Hskip : postDay platform post = None).
  { rewrite formatDateForGrouping_eq in Hkey. injection Hkey as Hkey.
    unfold postDay. rewrite Hts. destruct (sentimentScore post); try done.
    destruct (truthyDate (Some ts)); [|done].
    destruct (groupingDate host ts) as [t|]; [|done]. cbn in Hkey.
    pose proof (isoDate_nonempty t) as Hne. rewrite Hkey in Hne. done. }
  split_and!.
  - intros g. by rewrite groupPost_eq, filePost_skip.
  - intros selectedBrands posts l1 l2 Hposts.
    destruct (comparative_skip platform selectedBrands posts brand post l1 l2
                Hposts Hskip) as (Hg & Hl & _).
    assert (Hbp : brandPostsOf posts brand = l1 ++ post :: l2)
      by (unfold brandPostsOf; by rewrite Hposts).
    split_and!; [done..| | |].
    + rewrite brandReach_sum, Hbp, map_app, foldl_app. done.
    + intros i Hi. eexists. split; [reflexivity|]. cbn [barData].
      by rewrite reachValues_map, app_nil_l, list_lookup_fmap, Hi.
    + intros counts1 r counts2 H1 Hr H2 Hall Hsum.
      apply Forall_app in Hall as [Hall1 Hall2].
      apply Forall_cons in Hall2 as [Hr0 Hall2].
      rewrite sumZ_app in Hsum. unfold sumZ at 2 in Hsum. cbn [foldr] in Hsum.
      fold (sumZ counts2) in Hsum.
      pose proof (sumZ_nonneg counts1 Hall1) as Hn1. fold (sumZ counts1) in Hn1.
      pose proof (sumZ_nonneg counts2 Hall2) as Hn2. fold (sumZ counts2) in Hn2.
      split.
      * replace (sumZ (counts1 ++ counts2) + r)%Z
          with (sumZ (counts1 ++ r :: counts2)).
        2:{ rewrite !sumZ_app. unfold sumZ at 2. cbn [foldr].
            fold (sumZ counts2). lia. }
        apply brandReach_counts.
        -- rewrite Hbp, !map_app. cbn [map]. by rewrite H1, Hr, H2.
        -- apply Forall_app. split; [done|]. by apply Forall_cons.
        -- rewrite sumZ_app. unfold sumZ at 2. cbn [foldr].
           fold (sumZ counts2). lia.
      * apply brandReach_counts.
        -- rewrite brandPostsOf_insert, decide_True by done.
           by rewrite !map_app, H1, H2.
        -- by apply Forall_app.
        -- rewrite sumZ_app. lia.
  - intros socialData selectedBrands l1 l2 Hdata Hb.
    assert (Hin : postsIn (platformDataOf socialData platform) brand
                  = l1 ++ post :: l2) by (unfold postsIn; by rewrite Hdata).
    assert (Htags : brandHashtags socialData platform brand
                    = flat_map postHashtags l1 ++ postHashtags post
                      ++ flat_map postHashtags l2).
    { unfold brandHashtags. rewrite Hin, flat_map_app. by cbn. }
    assert (Hd : hashtagHasData (Some socialData) selectedBrands = true).
    { eapply hashtagHasData_posts; [done|]. rewrite Hin. by destruct l1. }
    pose proof (unifiedChartData_eq socialData selectedBrands platform Hd) as Heq.
    cbv zeta in Heq. rewrite Heq. clear Heq.
    set (pooled := flat_map (brandHashtags socialData platform) selectedBrands).
    set (top := take 5 _).
    split_and!.
    + intros Hne.
      assert (Hpooled : pooled <> []).
      { subst pooled. rewrite flat_map_nil. intros Hall.
        specialize (Hall brand Hb). rewrite Htags in Hall.
        apply app_eq_nil in Hall as [_ Hall]. by apply app_eq_nil in Hall as [? _]. }
      assert (Htop : top <> []).
      { subst top. intros E. apply (f_equal length) in E.
        rewrite length_take, length_rankTags in E.
        pose proof (seen_nonempty pooled [] (or_intror Hpooled)) as Hs.
        destruct (foldl _ [] pooled); [done|]. cbn in E. lia. }
      assert (Hlen : (0 <? length pooled) = true)
        by (destruct pooled; [done|reflexivity]).
      unfold renderHashtags. cbv zeta. rewrite Hd.
      rewrite (unifiedChartData_eq socialData selectedBrands platform Hd).
      cbv zeta. fold pooled. fold top. rewrite Hlen. cbn [labels negb orb].
      split; [done|]. by destruct top.
    + destruct (0 <? length pooled); cbn [labels datasets]; [|done].
      intros _.
      exists {| hashtagBrand := brand;
                hashtagCounts :=
                  map (fun tag => tally tag (brandHashtags socialData platform brand))
                      top |}.
      split; [|done].
      by apply (list_elem_of_fmap_2
                  (fun brand =>
                     {| hashtagBrand := brand;
                        hashtagCounts :=
                          map (fun tag => tally tag
                                            (brandHashtags socialData platform brand))
                              top |})).
    + intros ds. destruct (0 <? length pooled); cbn [labels datasets];
        [|by intros ?%elem_of_nil].
      intros Hds%list_elem_of_fmap. destruct Hds as (b & -> & _).
      cbn [hashtagBrand hashtagCounts]. intros ->. apply map_ext.
      intros tag. by rewrite Htags, !tally_app, Nat.add_assoc.
    + intros tag Htag. by apply tally_elem.
  - intros dateInput. rewrite formatDateForGrouping_eq. by eexists.
  - intros platform' selectedBrands posts. unfold renderSentiment.
    rewrite comparativeAvgSentimentOverTimeData_eq. split; by eexists.
Qed.

(** C9. The hashtag chart has at most [k] labels, 5 as the component calls
    it; its label list is empty exactly when no selected brand has a
    hashtag on the platform; and on the empty list the component shows
    the fallback. *)
Theorem C9_top_hashtags contextSocialData selectedBrands platform :
  length (labels (unifiedChartData contextSocialData selectedBrands platform)) <= 5
  /\ (forall instagramData tiktokData k,
        length (labels (topHashtags instagramData tiktokData selectedBrands
                          platform k)) <= k)
  /\ (labels (unifiedChartData contextSocialData selectedBrands platform) = []
      <-> forall socialData brand,
            contextSocialData = Some socialData -> brand ∈ selectedBrands ->
            brandHashtags socialData platform brand = [])
  /\ (labels (unifiedChartData contextSocialData selectedBrands platform) = [] ->
      isFallback (renderHashtags contextSocialData selectedBrands platform) = true).
Proof.
  assert (Hle : forall instagramData tiktokData k,
            length (labels (topHashtags instagramData tiktokData selectedBrands
                              platform k)) <= k).
  { intros i t k. unfold topHashtags. cbv zeta.
    destruct (0 <? length _); cbn; [|lia]. rewrite length_take. lia. }
  split_and!.
  - unfold unifiedChartData. destruct contextSocialData as [sd|]; [|cbn; lia].
    destruct (negb _); [cbn; lia|]. apply Hle.
  - done.
  - unfold unifiedChartData. destruct contextSocialData as [sd|];
      [|split; [by intros _ ? ? [=]|done]].
    destruct (hashtagHasData (Some sd) selectedBrands) eqn:Hd; cbn [negb].
    + unfold generateUnifiedHashtagChart, topHashtags. cbv zeta.
      fold (platformDataOf sd platform).
      set (pooled := flat_map _ selectedBrands).
      assert (Hp : pooled = [] <-> forall socialData brand,
                Some sd = Some socialData -> brand ∈ selectedBrands ->
                brandHashtags socialData platform brand = []).
      { subst pooled. rewrite flat_map_nil. unfold brandHashtags.
        split.
        - intros Hall socialData brand [= <-] Hb. by apply Hall.
        - intros Hall brand Hb. by apply (Hall sd). }
      rewrite <-Hp. destruct pooled as [|tag pooled'] eqn:Ep; cbn [length Nat.ltb Nat.leb labels].
      * done.
      * split; [|done]. intros Htake. exfalso.
        apply (f_equal length) in Htake. rewrite length_take, length_rankTags in Htake.
        pose proof (seen_nonempty (tag :: pooled') [] ltac:(by right)) as Hne.
        destruct (foldl _ [] (tag :: pooled')); [done|]. cbn in Htake. lia.
    + cbn. split; [|done]. intros _ socialData brand [= <-] Hb.
      unfold brandHashtags. by rewrite (hashtagHasData_false _ _ _ _ Hd Hb).
  - intros Hl. unfold renderHashtags. cbv zeta. rewrite Hl. cbn.
    by rewrite orb_true_r.
Qed.


(* ===================================================================== *)
(** * Part II, continued: further properties of the components *)
(* ===================================================================== *)

(** ** Whether there is data *)

Lemma totalPosts_sum posts selectedBrands n :
  foldl (fun totalPosts brand => totalPosts + length (brandPostsOf posts brand))
        n selectedBrands
  = n + sum_list (map (fun brand => length (brandPostsOf posts brand)) selectedBrands).
Proof.
  revert n. induction selectedBrands as [|b sb IH]; intros n; cbn; [lia|].
  rewrite IH. lia.
Qed.

Lemma reachHasData_true selectedBrands posts :
  reachHasData selectedBrands posts = true
  <-> exists brand, brand ∈ selectedBrands /\ brandPostsOf posts brand <> [].
Proof.
  unfold reachHasData. rewrite existsb_exists.
  setoid_rewrite <-list_elem_of_In. setoid_rewrite Nat.ltb_lt.
  split; intros (brand & Hb & Hl); exists brand; (split; [done|]).
  - destruct (brandPostsOf posts brand); cbn in Hl; [lia|done].
  - destruct (brandPostsOf posts brand); [done|cbn; lia].
Qed.

Lemma hasData_reachHasData selectedBrands posts :
  hasData selectedBrands posts = reachHasData selectedBrands posts.
Proof.
  apply Bool.eq_iff_eq_true. rewrite reachHasData_true.
  unfold hasData. cbv zeta. rewrite totalPosts_sum, Nat.ltb_lt, Nat.add_0_l.
  induction selectedBrands as [|b sb IH]; cbn.
  - split; [lia|]. intros (brand & Hb & _). by apply elem_of_nil in Hb.
  - split.
    + intros Hpos. destruct (brandPostsOf posts b) eqn:E.
      * cbn in Hpos. destruct (proj1 IH) as (brand & Hb & Hl); [lia|].
        exists brand. split; [by right|done].
      * exists b. split; [by left|]. by rewrite E.
    + intros (brand & Hb & Hl). apply elem_of_cons in Hb as [->|Hb].
      * destruct (brandPostsOf posts b); [done|cbn; lia].
      * assert (0 < sum_list (map (fun brand => length (brandPostsOf posts brand)) sb))
          by (apply IH; eauto). lia.
Qed.

(** X1. The two components test for data in two ways, [ReachSection] by
    [some] and [SentimentAnalysis] by counting all posts; the tests agree:
    each holds exactly when some selected brand has a post. *)
Theorem X1_hasData_agree selectedBrands posts :
  hasData selectedBrands posts = reachHasData selectedBrands posts
  /\ (hasData selectedBrands posts = true
      <-> exists brand post, brand ∈ selectedBrands /\ posts !! brand = Some post
            /\ post <> [])
  /\ (hasData selectedBrands posts = false
      <-> forall brand, brand ∈ selectedBrands ->
            posts !! brand = None \/ posts !! brand = Some []).
Proof.
  assert (Ht : hasData selectedBrands posts = true
               <-> exists brand, brand ∈ selectedBrands
                     /\ brandPostsOf posts brand <> []).
  { rewrite hasData_reachHasData. apply reachHasData_true. }
  split_and!.
  - apply hasData_reachHasData.
  - rewrite Ht. unfold brandPostsOf. split.
    + intros (brand & Hb & Hl). destruct (posts !! brand) as [l|] eqn:E; [|done].
      by exists brand, l.
    + intros (brand & l & Hb & E & Hl). exists brand. by rewrite E.
  - rewrite <-not_true_iff_false, Ht. unfold brandPostsOf. split.
    + intros Hno brand Hb. destruct (posts !! brand) as [[|post l]|] eqn:E; auto.
      exfalso. apply Hno. exists brand. by rewrite E.
    + intros Hall (brand & Hb & Hl). by destruct (Hall brand Hb) as [E|E]; rewrite E in Hl.
Qed.

(** ** The reach chart *)

(** X2. [ReachSection] shows the fallback exactly when no selected brand
    has a post; the values of the posts play no part, so brands whose
    metrics are all missing get a chart of zeros.  A chart that is drawn
    has the selected brands as labels and one dataset, whose value at a
    brand's position is that brand's total: the left-to-right double sum
    of the metrics of its posts. *)
Theorem X2_reach_view platform selectedBrands posts :
  (isFallback (renderReach platform selectedBrands posts) = true
   <-> forall brand, brand ∈ selectedBrands -> brandPostsOf posts brand = [])
  /\ (forall chart, renderReach platform selectedBrands posts = Chart chart ->
        labels chart = selectedBrands
        /\ exists ds,
             datasets chart = [ds]
             /\ length (barData ds) = length selectedBrands
             /\ forall i brand, selectedBrands !! i = Some brand ->
                  barData ds !! i
                  = Some (foldl PrimFloat.add 0%float
                            (map (postReach platform) (brandPostsOf posts brand)))).
Proof.
  unfold renderReach. split.
  - destruct (reachHasData selectedBrands posts) eqn:E; cbn.
    + apply reachHasData_true in E as (brand & Hb & Hl). split; [done|].
      intros Hall. by rewrite (Hall brand Hb) in Hl.
    + split; [|done]. intros _ brand Hb.
      destruct (brandPostsOf posts brand) eqn:El; [done|].
      apply not_true_iff_false in E. exfalso. apply E, reachHasData_true.
      exists brand. by rewrite El.
  - intros chart. destruct (reachHasData selectedBrands posts); cbn; [|done].
    intros [= <-]. split; [done|]. eexists. split; [done|]. cbn.
    rewrite reachValues_map. cbn. rewrite length_map. split; [done|].
    intros i brand Hi. by rewrite list_lookup_fmap, Hi, <-brandReach_sum.
Qed.

Lemma mapIndexM_eq {A B : Type} (f : nat -> A -> result B) (f' : nat -> A -> B) i l :
  (forall j a, f j a = Ok (f' j a)) ->
  mapIndexM f i l = Ok (imap (fun j => f' (i + j)) l).
Proof.
  intros Hf. revert i. induction l as [|a l IH]; intros i; cbn; [done|].
  rewrite Hf, IH. cbn. rewrite Nat.add_0_r. do 2 f_equal.
  apply imap_ext. intros j b _. cbn. f_equal. lia.
Qed.

(** Every palette colour ends in its alpha, 0.8, and that is the text
    [replace] finds first. *)
Lemma palette_alpha :
  Forall (fun color => exists rgb,
            color = rgb +:+ "0.8)"
            /\ replace "0.8" "1" color = rgb +:+ "1)"
            /\ replace "0.8" "0.1" color = rgb +:+ "0.1)")
         ReachSection.vibrantColors.
Proof.
  repeat constructor;
    match goal with
    | |- exists rgb, ?c = _ /\ _ =>
        exists (substring 0 (String.length c - 4) c)
    end; vm_compute; done.
Qed.

Lemma reach_palette_lookup i :
  exists rgb,
    ReachSection.vibrantColors !! (i mod length ReachSection.vibrantColors)
    = Some (rgb +:+ "0.8)")
    /\ replace "0.8" "1" (rgb +:+ "0.8)") = rgb +:+ "1)".
Proof.
  destruct (ReachSection.vibrantColors
              !! (i mod length ReachSection.vibrantColors)) as [c|] eqn:E.
  - pose proof palette_alpha as Hall. rewrite Forall_lookup in Hall.
    destruct (Hall _ _ E) as (rgb & -> & Hr & _). by exists rgb.
  - apply lookup_ge_None in E.
    pose proof (Nat.mod_upper_bound i (length ReachSection.vibrantColors)).
    cbn in *. lia.
Qed.

(** X3. The colour arrays of the reach chart are built without an error
    and have one entry per selected brand.  The entry of position [i] is
    palette colour [i mod 12], as it stands for the bar and with its alpha
    0.8 turned into 1 for the border; no other part of the colour is
    touched.  So the first twelve brands have different colours, and the
    brand twelve places on has the same colour again. *)
Theorem X3_reach_colours selectedBrands :
  exists border,
    barBorderColor selectedBrands = Ok border
    /\ length border = length selectedBrands
    /\ length (barBackgroundColor selectedBrands) = length selectedBrands
    /\ (forall i, i < length selectedBrands ->
          exists rgb,
            ReachSection.vibrantColors !! (i mod 12) = Some (rgb +:+ "0.8)")
            /\ barBackgroundColor selectedBrands !! i = Some (Some (rgb +:+ "0.8)"))
            /\ border !! i = Some (rgb +:+ "1)"))
    /\ (forall i j, i < j -> j < length selectedBrands -> j < 12 ->
          barBackgroundColor selectedBrands !! i
          <> barBackgroundColor selectedBrands !! j)
    /\ (forall i, i + 12 < length selectedBrands ->
          barBackgroundColor selectedBrands !! (i + 12)
          = barBackgroundColor selectedBrands !! i
          /\ border !! (i + 12) = border !! i).
Proof.
  unfold barBorderColor, barBackgroundColor.
  rewrite (mapIndexM_eq _
             (fun i _ => replace "0.8" "1"
                           (default "" (ReachSection.vibrantColors
                                          !! (i mod length ReachSection.vibrantColors))))).
  2:{ intros j _. unfold paletteColor.
      destruct (reach_palette_lookup j) as (rgb & -> & _). done. }
  eexists. split; [done|]. rewrite !length_imap.
  assert (Hbg : forall i, i < length selectedBrands ->
            imap (fun i (_ : Brand) =>
                    ReachSection.vibrantColors
                      !! (i mod length ReachSection.vibrantColors)) selectedBrands !! i
            = Some (ReachSection.vibrantColors !! (i mod 12))).
  { intros i Hi. rewrite list_lookup_imap.
    destruct (lookup_lt_is_Some_2 selectedBrands i Hi) as [b ->]. done. }
  split_and!; try done.
  - intros i Hi. destruct (reach_palette_lookup i) as (rgb & E & Hr).
    exists rgb. change (length ReachSection.vibrantColors) with 12 in E.
    split_and!; [done| |].
    + by rewrite Hbg, E.
    + rewrite list_lookup_imap.
      destruct (lookup_lt_is_Some_2 selectedBrands i Hi) as [b ->].
      cbn [fmap option_fmap option_map]. rewrite Nat.add_0_l.
      change (length ReachSection.vibrantColors) with 12. rewrite E.
      cbn [from_option id]. by rewrite Hr.
  - intros i j Hij Hj Hj12. rewrite !Hbg by lia.
    rewrite !Nat.mod_small by lia. intros [= E].
    assert (Hn : NoDup ReachSection.vibrantColors) by (apply (bool_decide_unpack _); by vm_compute).
    destruct (lookup_lt_is_Some_2 ReachSection.vibrantColors i) as [c Hc];
      [cbn; lia|].
    rewrite Hc in E. symmetry in E.
    pose proof (NoDup_lookup _ _ _ _ Hn Hc E). lia.
  - intros i Hi.
    assert (Hm : (i + 12) mod 12 = i mod 12).
    { replace (i + 12) with (i + 1 * 12) by lia. by rewrite Nat.Div0.mod_add. }
    split.
    + by rewrite !Hbg, Hm by lia.
    + rewrite !list_lookup_imap.
      destruct (lookup_lt_is_Some_2 selectedBrands i ltac:(lia)) as [b ->].
      destruct (lookup_lt_is_Some_2 selectedBrands (i + 12) ltac:(lia)) as [b' ->].
      cbn [fmap option_fmap option_map]. rewrite !Nat.add_0_l.
      change (length ReachSection.vibrantColors) with 12. by rewrite Hm.
Qed.

(** ** The sentiment component *)

(** The loop of [checkAndFixTikTokData], as two tests over the selection. *)
Lemma checkAndFix_fold_eq selectedBrands posts hasPosts hasSentiment :
  foldl (fun '(hasPosts, hasSentiment) brand =>
           let brandPosts := brandPostsOf posts brand in
           if 0 <? length brandPosts then
             (true,
              if existsb (fun post => hasProperty (sentimentScore post)
                                      || hasProperty (sentimentLabel post))
                         brandPosts
              then true else hasSentiment)
           else (hasPosts, hasSentiment))
        (hasPosts, hasSentiment) selectedBrands
  = (hasPosts || reachHasData selectedBrands posts,
     hasSentiment
     || existsb (fun brand =>
                   existsb (fun post => hasProperty (sentimentScore post)
                                        || hasProperty (sentimentLabel post))
                           (brandPostsOf posts brand))
                selectedBrands).
Proof.
  unfold reachHasData. revert hasPosts hasSentiment.
  induction selectedBrands as [|b sb IH]; intros hp hs.
  - cbn [foldl existsb]. by rewrite !orb_false_r.
  - cbn [foldl existsb]. cbv zeta.
    destruct (0 <? length (brandPostsOf posts b)) eqn:Elen; rewrite IH.
    + rewrite orb_true_r. cbn [orb]. f_equal.
      destruct (existsb _ (brandPostsOf posts b)), hs; reflexivity.
    + apply Nat.ltb_ge in Elen.
      destruct (brandPostsOf posts b); [|cbn in Elen; lia]. reflexivity.
Qed.

Lemma checkAndFixTikTokData_eq platform selectedBrands posts :
  checkAndFixTikTokData platform selectedBrands posts
  = match platform with
    | TikTok =>
        hasData selectedBrands posts
        && negb (existsb (fun brand =>
                            existsb (fun post => hasProperty (sentimentScore post)
                                                 || hasProperty (sentimentLabel post))
                                    (brandPostsOf posts brand))
                         selectedBrands)
    | Instagram => false
    end.
Proof.
  unfold checkAndFixTikTokData. destruct platform; [done|].
  rewrite checkAndFix_fold_eq, hasData_reachHasData. reflexivity.
Qed.

Lemma checkAndFix_hasData platform selectedBrands posts :
  checkAndFixTikTokData platform selectedBrands posts = true ->
  hasData selectedBrands posts = true.
Proof.
  rewrite checkAndFixTikTokData_eq. destruct platform; [done|].
  by intros [? _]%andb_true_iff.
Qed.

Lemma checkAndFix_no_property platform selectedBrands posts brand post :
  checkAndFixTikTokData platform selectedBrands posts = true ->
  brand ∈ selectedBrands -> post ∈ brandPostsOf posts brand ->
  sentimentScore post = Absent /\ sentimentLabel post = Absent.
Proof.
  rewrite checkAndFixTikTokData_eq. destruct platform; [done|].
  intros [_ Hno%negb_true_iff]%andb_true_iff Hb Hp.
  destruct (hasProperty (sentimentScore post) || hasProperty (sentimentLabel post))
    eqn:E.
  - apply not_true_iff_false in Hno. exfalso. apply Hno.
    apply existsb_exists. exists brand. rewrite <-list_elem_of_In. split; [done|].
    apply existsb_exists. exists post. by rewrite <-list_elem_of_In.
  - apply orb_false_iff in E as [E1 E2].
    by destruct (sentimentScore post), (sentimentLabel post).
Qed.

(** X4. The TikTok note of [SentimentAnalysis] is due exactly when the
    platform is TikTok, some selected brand has a post, and no post of a
    selected brand has a [sentimentScore] or [sentimentLabel] property at
    all (a property set to [undefined] counts as present).  It is never
    due on Instagram, nor without posts. *)
Theorem X4_tiktok_note platform selectedBrands posts :
  (checkAndFixTikTokData platform selectedBrands posts = true
   <-> platform = TikTok
       /\ hasData selectedBrands posts = true
       /\ forall brand post,
            brand ∈ selectedBrands -> post ∈ brandPostsOf posts brand ->
            sentimentScore post = Absent /\ sentimentLabel post = Absent)
  /\ checkAndFixTikTokData Instagram selectedBrands posts = false
  /\ (hasData selectedBrands posts = false ->
      checkAndFixTikTokData platform selectedBrands posts = false)
  /\ (forall post, hasProperty (sentimentScore post) = true ->
        (exists brand, brand ∈ selectedBrands /\ post ∈ brandPostsOf posts brand) ->
        checkAndFixTikTokData platform selectedBrands posts = false).
Proof.
  split_and!.
  - split.
    + intros Hc. split_and!.
      * rewrite checkAndFixTikTokData_eq in Hc. by destruct platform.
      * by eapply checkAndFix_hasData.
      * intros brand post. by eapply checkAndFix_no_property.
    + intros (-> & Hd & Hno). rewrite checkAndFixTikTokData_eq, Hd. cbn [andb].
      apply negb_true_iff, not_true_iff_false. intros He.
      apply existsb_exists in He as (brand & Hb & He).
      apply existsb_exists in He as (post & Hp & He).
      apply list_elem_of_In in Hb. apply list_elem_of_In in Hp.
      destruct (Hno brand post Hb Hp) as [E1 E2]. by rewrite E1, E2 in He.
  - reflexivity.
  - intros Hd. destruct (checkAndFixTikTokData _ _ _) eqn:E; [|done].
    apply checkAndFix_hasData in E. congruence.
  - intros post Hs (brand & Hb & Hp).
    destruct (checkAndFixTikTokData _ _ _) eqn:E; [|done].
    destruct (checkAndFix_no_property _ _ _ _ _ E Hb Hp) as [E1 _].
    by rewrite E1 in Hs.
Qed.

(** X5. The distribution has one doughnut for each selected brand that
    has a post with a numeric score or a label, in selection order (a
    brand selected twice is listed twice); every other selected brand is
    left out.  Each doughnut has three counts, and their sum is above 0. *)
Theorem X5_distribution_brands selectedBrands posts :
  map brandName (sentimentDistributionData selectedBrands posts)
  = List.filter (fun brand => existsb hasSentimentSignal (brandPostsOf posts brand))
                selectedBrands
  /\ (forall brand,
        brand ∈ map brandName (sentimentDistributionData selectedBrands posts)
        <-> brand ∈ selectedBrands
            /\ exists post, post ∈ brandPostsOf posts brand
                 /\ (isNumber (sentimentScore post) = true
                     \/ isNumber (sentimentLabel post) = true))
  /\ Forall (fun d => length (distribution d) = 3 /\ 0 < sum_list (distribution d))
            (sentimentDistributionData selectedBrands posts)
  /\ length (sentimentDistributionData selectedBrands posts) <= length selectedBrands.
Proof.
  split_and!.
  - apply distribution_brands.
  - intros brand. rewrite distribution_brands, list_elem_of_In, filter_In,
      <-list_elem_of_In, existsb_exists.
    setoid_rewrite <-list_elem_of_In. unfold hasSentimentSignal.
    by setoid_rewrite orb_true_iff.
  - unfold sentimentDistributionData.
    destruct (hasData selectedBrands posts); cbn [negb]; [|constructor].
    apply Forall_forall. intros d Hd.
    apply list_elem_of_filter in Hd as [Hpos Hd].
    apply (list_elem_of_fmap _ selectedBrands) in Hd as (brand & -> & _).
    cbn [distribution] in *. split; [done|].
    apply Is_true_true in Hpos. cbn [existsb] in Hpos. cbn [sum_list_with id].
    repeat (apply orb_true_iff in Hpos as [Hpos%Nat.ltb_lt|Hpos]; [unfold id; lia|]).
    done.
  - rewrite <-(length_map brandName), distribution_brands.
    apply List.filter_length_le.
Qed.

(** A NaN compares neither below nor above 0. *)
Lemma ltb_nan x :
  PrimFloat.is_nan x = true ->
  PrimFloat.ltb 0 x = false /\ PrimFloat.ltb x 0 = false.
Proof.
  unfold PrimFloat.is_nan.
  rewrite FloatAxioms.eqb_spec, !FloatAxioms.ltb_spec, Prim2SF_zero.
  destruct (Prim2SF x) as [[]|[]| |s m e]; try done.
  unfold SFeqb, SFcompare.
  destruct s; rewrite Z.compare_refl, Pos.compare_refl; done.
Qed.

(** X6. A post whose score is the number NaN is counted as neutral,
    whatever its label says: a numeric score comes before the label, and
    NaN is neither above nor below 0. *)
Theorem X6_nan_score_neutral c post score :
  sentimentScore post = Value score -> PrimFloat.is_nan score = true ->
  countPost c post
  = {| positiveCount := positiveCount c; neutralCount := S (neutralCount c);
       negativeCount := negativeCount c |}
  /\ forall l, countPosts (l ++ [post])
               = {| positiveCount := positiveCount (countPosts l);
                    neutralCount := S (neutralCount (countPosts l));
                    negativeCount := negativeCount (countPosts l) |}.
Proof.
  intros Hs Hn. destruct (ltb_nan score Hn) as [H1 H2].
  assert (Hc : forall c', countPost c' post
                 = {| positiveCount := positiveCount c';
                      neutralCount := S (neutralCount c');
                      negativeCount := negativeCount c' |}).
  { intros c'. unfold countPost. by rewrite Hs, H1, H2. }
  split; [apply Hc|]. intros l. unfold countPosts. rewrite foldl_app. cbn [foldl].
  apply Hc.
Qed.

Lemma filter_nil_forall {A : Type} (f : A -> bool) l :
  List.filter f l = [] <-> forall a, a ∈ l -> f a = false.
Proof.
  induction l as [|a l IH]; cbn [List.filter].
  - split; [|done]. intros _ a Ha. by apply elem_of_nil in Ha.
  - destruct (f a) eqn:E.
    + split; [intros [=]|]. intros Hall. rewrite Hall in E by (by left). done.
    + rewrite IH. split.
      * intros Hall a' [->|Ha']%elem_of_cons; auto.
      * intros Hall a' Ha'. apply Hall. by right.
Qed.

Lemma existsb_false_forall {A : Type} (f : A -> bool) l :
  existsb f l = false <-> forall a, a ∈ l -> f a = false.
Proof.
  induction l as [|a l IH]; cbn [existsb].
  - split; [|done]. intros _ a Ha. by apply elem_of_nil in Ha.
  - rewrite orb_false_iff, IH. split.
    + intros [Ha Hall] a' [->|Ha']%elem_of_cons; auto.
    + intros Hall. split; [apply Hall; by left|].
      intros a' Ha'. apply Hall. by right.
Qed.

Lemma distribution_nil selectedBrands posts :
  sentimentDistributionData selectedBrands posts = []
  <-> forall brand post, brand ∈ selectedBrands -> post ∈ brandPostsOf posts brand ->
        hasSentimentSignal post = false.
Proof.
  assert (E : sentimentDistributionData selectedBrands posts = []
              <-> map brandName (sentimentDistributionData selectedBrands posts) = []).
  { by destruct (sentimentDistributionData selectedBrands posts). }
  rewrite E, distribution_brands, filter_nil_forall.
  setoid_rewrite existsb_false_forall. split.
  - intros Hall brand post Hb Hp. by apply (Hall brand).
  - intros Hall brand Hb post Hp. by apply (Hall brand).
Qed.

Lemma no_score_groupedDays platform selectedBrands posts :
  (forall brand post, brand ∈ selectedBrands -> post ∈ brandPostsOf posts brand ->
     isNumber (sentimentScore post) = false) ->
  groupedDays platform selectedBrands posts = [].
Proof.
  intros Hno. destruct (groupedDays platform selectedBrands posts) as [|d l] eqn:E;
    [done|].
  assert (Hd : d ∈ groupedDays platform selectedBrands posts)
    by (rewrite E; by left).
  apply elem_of_groupedDays in Hd as (brand & post & Hb & Hp & Hd).
  apply postDay_isNumber in Hd. by rewrite (Hno brand post Hb Hp) in Hd.
Qed.

Lemma renderSentiment_eq platform selectedBrands posts :
  exists out,
    comparativeAvgSentimentOverTimeData platform selectedBrands posts = Ok out
    /\ labels out = map (fun d => formatDateForLabel host (dayKey d))
                        (sortedDays platform selectedBrands posts)
    /\ renderSentiment platform selectedBrands posts
       = Ok (if negb (hasData selectedBrands posts)
                && negb (checkAndFixTikTokData platform selectedBrands posts)
             then NoSentimentData ("No " +:+ platformName platform
                                   +:+ " data available for sentiment analysis")
             else if checkAndFixTikTokData platform selectedBrands posts
             then TikTokTextNote
             else SentimentCharts
                    (if 0 <? length (labels out) then Chart out
                     else EmptyChartFallback
                            "No time-series sentiment data available for selected brands.")
                    (if 0 <? length (sentimentDistributionData selectedBrands posts)
                     then Chart (sentimentDistributionData selectedBrands posts)
                     else EmptyChartFallback
                            "No sentiment distribution data available.")).
Proof.
  pose proof (comparative_labels platform selectedBrands posts) as Hl.
  unfold renderSentiment.
  destruct (comparativeAvgSentimentOverTimeData platform selectedBrands posts)
    as [out|e] eqn:E; [|done].
  exists out. cbn in Hl. injection Hl as Hl. done.
Qed.

(** X7. [SentimentAnalysis] returns one of three views.  The bare
    fallback is shown exactly when no selected brand has a post (the test
    of the TikTok note in that condition changes nothing); the TikTok
    note exactly when [checkAndFixTikTokData] holds; the two charts
    otherwise.  When the note is shown, it hides no data: the time series
    has no label and the distribution no doughnut. *)
Theorem X7_sentiment_view platform selectedBrands posts :
  exists view,
    renderSentiment platform selectedBrands posts = Ok view
    /\ ((exists message, view = NoSentimentData message)
        <-> hasData selectedBrands posts = false)
    /\ (view = TikTokTextNote
        <-> checkAndFixTikTokData platform selectedBrands posts = true)
    /\ ((exists timeSeries distributions,
           view = SentimentCharts timeSeries distributions)
        <-> hasData selectedBrands posts = true
            /\ checkAndFixTikTokData platform selectedBrands posts = false)
    /\ (view = TikTokTextNote ->
        labels <$> comparativeAvgSentimentOverTimeData platform selectedBrands posts
        = Ok []
        /\ sentimentDistributionData selectedBrands posts = []).
Proof.
  destruct (renderSentiment_eq platform selectedBrands posts) as (out & _ & _ & ->).
  eexists. split; [reflexivity|].
  pose proof (checkAndFix_hasData platform selectedBrands posts) as Himp.
  assert (Hnote : checkAndFixTikTokData platform selectedBrands posts = true ->
            labels <$> comparativeAvgSentimentOverTimeData platform selectedBrands posts
            = Ok []
            /\ sentimentDistributionData selectedBrands posts = []).
  { intros Hc. split.
    - rewrite comparative_labels. unfold sortedDays.
      rewrite no_score_groupedDays; [done|]. intros brand post Hb Hp.
      destruct (checkAndFix_no_property _ _ _ _ _ Hc Hb Hp) as [-> _]. done.
    - apply distribution_nil. intros brand post Hb Hp. unfold hasSentimentSignal.
      destruct (checkAndFix_no_property _ _ _ _ _ Hc Hb Hp) as [-> ->]. done. }
  destruct (hasData selectedBrands posts),
    (checkAndFixTikTokData platform selectedBrands posts); cbn [negb andb].
  - split_and!; [| |split|by auto].
    + split; [by intros [m [=]]|done].
    + done.
    + by intros (ts & ds & [=]).
    + by intros [_ [=]].
  - split_and!; [| |split|done].
    + split; [by intros [m [=]]|done].
    + done.
    + done.
    + intros _. eauto.
  - by specialize (Himp eq_refl).
  - split_and!; [| |split|done].
    + split; [done|]. intros _. eauto.
    + done.
    + by intros (ts & ds & [=]).
    + by intros [[=] _].
Qed.

(** X8. When the two charts are shown, the slot of the doughnuts holds
    the distribution or the fallback, and it holds the distribution
    exactly when some selected brand has a post with a numeric score or a
    label.  Whenever the line chart is drawn the doughnuts are drawn too:
    a post on the time axis has a numeric score. *)
Theorem X8_doughnuts_shown platform selectedBrands posts :
  exists view,
    renderSentiment platform selectedBrands posts = Ok view
    /\ forall timeSeries distributions,
         view = SentimentCharts timeSeries distributions ->
         (distributions = Chart (sentimentDistributionData selectedBrands posts)
          \/ distributions
             = EmptyChartFallback "No sentiment distribution data available.")
         /\ (isFallback distributions = false
             <-> exists brand post,
                   brand ∈ selectedBrands /\ post ∈ brandPostsOf posts brand
                   /\ hasSentimentSignal post = true)
         /\ (isFallback timeSeries = false -> isFallback distributions = false).
Proof.
  destruct (renderSentiment_eq platform selectedBrands posts) as (out & _ & Hl & ->).
  eexists. split; [reflexivity|]. intros ts ds.
  destruct (negb _ && negb _); [done|].
  destruct (checkAndFixTikTokData _ _ _); [done|]. intros [= <- <-].
  assert (Hds : sentimentDistributionData selectedBrands posts <> []
                <-> exists brand post,
                      brand ∈ selectedBrands /\ post ∈ brandPostsOf posts brand
                      /\ hasSentimentSignal post = true).
  { rewrite distribution_nil. split.
    - intros Hno.
      destruct (List.filter
                  (fun brand => existsb hasSentimentSignal (brandPostsOf posts brand))
                  selectedBrands) as [|brand l] eqn:E.
      + exfalso. apply Hno. intros brand post Hb Hp.
        rewrite filter_nil_forall in E. specialize (E brand Hb).
        rewrite existsb_false_forall in E. by apply E.
      + assert (Hin : In brand (List.filter
                  (fun brand => existsb hasSentimentSignal (brandPostsOf posts brand))
                  selectedBrands)) by (rewrite E; by left).
        apply filter_In in Hin as [Hb He]. apply existsb_exists in He as (post & Hp & Hs).
        exists brand, post. by rewrite !list_elem_of_In.
    - intros (brand & post & Hb & Hp & Hs) Hno.
      rewrite (Hno brand post Hb Hp) in Hs. done. }
  split_and!.
  - destruct (sentimentDistributionData selectedBrands posts); cbn; auto.
  - rewrite <-Hds.
    destruct (sentimentDistributionData selectedBrands posts); cbn; split; done.
  - intros Hts.
    assert (Hne : sentimentDistributionData selectedBrands posts <> []).
    { apply Hds. rewrite Hl in Hts.
      destruct (sortedDays platform selectedBrands posts) as [|d l] eqn:E; [done|].
      assert (Hd : d ∈ sortedDays platform selectedBrands posts)
        by (rewrite E; by left).
      apply elem_of_sortedDays, elem_of_groupedDays in Hd
        as (brand & post & Hb & Hp & Hd).
      exists brand, post. split_and!; [done..|].
      unfold hasSentimentSignal. by rewrite (postDay_isNumber _ _ _ Hd). }
    by destruct (sentimentDistributionData selectedBrands posts).
Qed.

(** ** Date keys *)

Lemma groupingDate_key dateInput t :
  groupingDate host dateInput = Some t ->
  formatDateForGrouping host dateInput = Ok (dayKey (Day t))
  /\ (Z.abs (Day t) <= 100000000)%Z.
Proof.
  intros E. rewrite formatDateForGrouping_eq, E. cbn.
  rewrite isoDate_dayKey. split; [done|].
  by eapply valid_time_day, groupingDate_range.
Qed.

(** X9. Whatever [formatDateForGrouping] is given (a number, a string
    or a [Date]), a key it returns other than the empty string is the
    date-only ISO form of a UTC day, YYYY-MM-DD or with an expanded year.
    Such a key is a truthy string that [new Date] reads as the midnight of
    that day, on every host, so that the key of a key is the key
    itself: grouping by keys again changes nothing. *)
Theorem X9_key_round_trip dateInput key :
  formatDateForGrouping host dateInput = Ok key -> key <> "" ->
  exists d,
    Day <$> groupingDate host dateInput = Some d
    /\ key = dayKey d
    /\ isYMD key || isExpandedYMD key = true
    /\ truthyDate (Some (DStr key)) = true
    /\ groupingDate host (DStr key) = Some (d * msPerDay)%Z
    /\ formatDateForGrouping host (DStr key) = Ok key.
Proof.
  intros Hk Hne. rewrite formatDateForGrouping_eq in Hk.
  destruct (groupingDate host dateInput) as [t|] eqn:E; cbn in Hk;
    [|by injection Hk as <-].
  injection Hk as <-. destruct (groupingDate_key _ _ E) as [_ Hr].
  exists (Day t). rewrite isoDate_dayKey.
  assert (Hd : groupingDate host (DStr (dayKey (Day t)))
               = Some (Day t * msPerDay)%Z) by (by apply Date_ofString_dayKey).
  split_and!; try done.
  - unfold dayKey. rewrite isYMD_isoDate, isExpandedYMD_isoDate.
    by destruct (_ && _).
  - cbn. unfold dayKey. by rewrite isoDate_nonempty.
  - destruct (groupingDate_key _ _ Hd) as [-> _]. by rewrite Day_midnight.
Qed.

(** X10. Two timestamps that give valid dates get the same key exactly
    when they fall on the same UTC day, whatever their encodings: posts of
    one day share a bucket and posts of different days never do. *)
Theorem X10_same_day_same_key a b ta tb :
  groupingDate host a = Some ta -> groupingDate host b = Some tb ->
  (formatDateForGrouping host a = formatDateForGrouping host b
   <-> Day ta = Day tb)
  /\ (formatDateForGrouping host a = formatDateForGrouping host b
      <-> exists d, (d * msPerDay <= ta < (d + 1) * msPerDay)%Z
                    /\ (d * msPerDay <= tb < (d + 1) * msPerDay)%Z).
Proof.
  intros Ha Hb.
  destruct (groupingDate_key _ _ Ha) as [-> Hra].
  destruct (groupingDate_key _ _ Hb) as [-> Hrb].
  assert (Hiff : Ok (dayKey (Day ta)) = Ok (dayKey (Day tb)) <-> Day ta = Day tb).
  { split; [|by intros ->]. intros [= E]. by apply dayKey_inj. }
  split; [done|]. rewrite Hiff. unfold Day, msPerDay. split.
  - intros E. exists (ta / 86400000)%Z. zdiv.
  - intros (d & H1 & H2). zdiv.
Qed.

(** ** The series without the primary brand, and the colours *)

Lemma otherBrands_id selectedBrands :
  Nordstrom ∉ selectedBrands -> otherBrands selectedBrands = selectedBrands.
Proof.
  unfold otherBrands. induction selectedBrands as [|b sb IH]; [done|].
  intros [Hb Hsb]%not_elem_of_cons. cbn [List.filter].
  rewrite bool_decide_eq_false_2 by done. cbn [negb]. by rewrite IH.
Qed.

(** X11. Without Nordstrom in the selection (and with a post to show),
    the chart has one series per selected brand, in selection order,
    none in Nordstrom's blue: the series of position [i] takes palette
    colour [i mod 11]. *)
Theorem X11_series_without_primary platform selectedBrands posts :
  Nordstrom ∉ selectedBrands -> hasData selectedBrands posts = true ->
  exists out,
    comparativeAvgSentimentOverTimeData platform selectedBrands posts = Ok out
    /\ map label (datasets out) = selectedBrands
    /\ length (datasets out) = length selectedBrands
    /\ forall i brand, selectedBrands !! i = Some brand ->
         exists ds color,
           datasets out !! i = Some ds
           /\ label ds = brand
           /\ vibrantColors !! (i mod length vibrantColors) = Some color
           /\ borderColor ds = replace "0.8" "1" color
           /\ backgroundColor ds = replace "0.8" "0.1" color
           /\ borderColor ds <> NORDSTROM_BLUE.
Proof.
  intros HN Hd. rewrite comparativeAvgSentimentOverTimeData_eq, Hd.
  eexists. split; [done|]. cbn [labels datasets]. unfold lineDatasets.
  rewrite decide_False, otherBrands_id by done. cbn [app].
  assert (Hl : map label (imap (brandDataset (grouping platform selectedBrands posts))
                            selectedBrands) = selectedBrands)
    by apply (label_imap _ _ id).
  split_and!; [done|by rewrite length_imap|].
  intros i brand Hi.
  exists (brandDataset (grouping platform selectedBrands posts) i brand).
  pose proof (paletteColor_eq i) as Hc. unfold paletteColor in Hc.
  destruct (vibrantColors !! (i mod length vibrantColors)) as [color|] eqn:E;
    [|done].
  exists color. injection Hc as Hc. split_and!; try done.
  - by rewrite list_lookup_imap, Hi.
  - cbn. by rewrite <-Hc.
  - cbn. by rewrite <-Hc.
  - cbn [borderColor brandDataset]. rewrite <-Hc.
    assert (Hall : Forall (fun c => replace "0.8" "1" c <> NORDSTROM_BLUE)
                          vibrantColors)
      by (repeat constructor; by vm_compute).
    rewrite Forall_lookup in Hall. by apply (Hall _ _ E).
Qed.

(** X12. One turn of the loop over the brands: Nordstrom is passed over
    and takes no colour; any other brand adds one series and moves on to
    the next colour.  The border is the palette colour with its alpha 0.8
    turned into 1 and the fill is the same colour with alpha 0.1; the red,
    green and blue parts are never touched.  The palette is that of
    [ReachSection] without its first colour. *)
Theorem X12_series_colours g chartDatasets colorIdx :
  pushBrandDataset g (chartDatasets, colorIdx) Nordstrom
  = Ok (chartDatasets, colorIdx)
  /\ vibrantColors = drop 1 ReachSection.vibrantColors
  /\ forall brand, brand <> Nordstrom ->
       exists rgb ds,
         pushBrandDataset g (chartDatasets, colorIdx) brand
         = Ok (chartDatasets ++ [ds], S colorIdx)
         /\ label ds = brand
         /\ data ds = map (dailyMean g brand) (sortedDatesOf g)
         /\ vibrantColors !! (colorIdx mod 11) = Some (rgb +:+ "0.8)")
         /\ borderColor ds = rgb +:+ "1)"
         /\ backgroundColor ds = rgb +:+ "0.1)".
Proof.
  split_and!.
  - unfold pushBrandDataset. by rewrite decide_True.
  - reflexivity.
  - intros brand Hb. unfold pushBrandDataset. rewrite decide_False by done.
    pose proof (paletteColor_eq colorIdx) as Hc. rewrite Hc. unfold paletteColor in Hc.
    change (length vibrantColors) with 11 in Hc.
    destruct (vibrantColors !! (colorIdx mod 11)) as [color|] eqn:E; [|done].
    injection Hc as <-.
    pose proof palette_alpha as Hall.
    apply Forall_cons in Hall as [_ Hall]. rewrite Forall_lookup in Hall.
    destruct (Hall _ _ E) as (rgb & -> & Hr1 & Hr2).
    exists rgb. eexists. split; [reflexivity|]. cbn. by rewrite Hr1, Hr2.
Qed.

(** ** Invariants of the time series *)

Lemma sortedDays_ext platform selectedBrands selectedBrands' posts posts' :
  (forall d, d ∈ groupedDays platform selectedBrands posts
             <-> d ∈ groupedDays platform selectedBrands' posts') ->
  sortedDays platform selectedBrands posts
  = sortedDays platform selectedBrands' posts'.
Proof.
  intros Hiff. apply (Sorted_unique Z.le).
  - apply (Sorted_merge_sort _).
  - apply (Sorted_merge_sort _).
  - apply NoDup_Permutation; [apply NoDup_sortedDays..|].
    intros d. by rewrite !elem_of_sortedDays.
Qed.

(** X13. The label axis does not depend on the order of the selection
    nor on the order of a brand's posts: selections that are permutations
    of each other, over posts that are, brand by brand, permutations of
    each other, give the same labels in the same order. *)
Theorem X13_axis_order_free platform selectedBrands selectedBrands' posts posts' :
  selectedBrands ≡ₚ selectedBrands' ->
  (forall brand, brand ∈ selectedBrands ->
     brandPostsOf posts brand ≡ₚ brandPostsOf posts' brand) ->
  labels <$> comparativeAvgSentimentOverTimeData platform selectedBrands posts
  = labels <$> comparativeAvgSentimentOverTimeData platform selectedBrands' posts'.
Proof.
  intros Hsb Hposts. rewrite !comparative_labels. do 2 f_equal.
  apply sortedDays_ext. intros d. rewrite !elem_of_groupedDays.
  split; intros (brand & post & Hb & Hp & Hd); exists brand, post.
  - split_and!; [by rewrite <-Hsb|by rewrite <-(Hposts brand Hb)|done].
  - assert (Hb' : brand ∈ selectedBrands) by (by rewrite Hsb).
    split_and!; [done|by rewrite (Hposts brand Hb')|done].
Qed.

Lemma lineDatasets_brand g selectedBrands brand :
  brand ∈ selectedBrands ->
  exists ds, ds ∈ lineDatasets g selectedBrands /\ label ds = brand.
Proof.
  intros Hb. unfold lineDatasets. destruct (decide (brand = Nordstrom)) as [->|Hne].
  - exists (nordstromDataset g). rewrite decide_True by done.
    split; [|done]. apply elem_of_app. left. by left.
  - assert (Ho : brand ∈ otherBrands selectedBrands)
      by (by apply elem_of_otherBrands).
    apply list_elem_of_lookup in Ho as [i Hi].
    exists (brandDataset g i brand). split; [|done].
    apply elem_of_app. right. apply elem_of_lookup_imap. eauto.
Qed.

Lemma dayScores_nonempty platform brandPosts post d :
  post ∈ brandPosts -> postDay platform post = Some d ->
  dayScores platform brandPosts d <> [].
Proof.
  intros Hp Hd. unfold dayScores.
  assert (Hs : exists score, postScore post = Some score).
  { apply postDay_isNumber in Hd. unfold postScore.
    destruct (sentimentScore post); [done..|eauto]. }
  destruct Hs as [score Hs]. intros E.
  assert (Hin : score ∈ omap (fun post => if decide (postDay platform post = Some d)
                                          then postScore post else None) brandPosts).
  { apply list_elem_of_omap. exists post. split; [done|].
    by rewrite decide_True. }
  rewrite E in Hin. by apply elem_of_nil in Hin.
Qed.

(** X14. No label of the time series stands over an empty column: for
    every day on the axis some series has a number, not [null], at that
    position. *)
Theorem X14_no_empty_column platform selectedBrands posts :
  exists out,
    comparativeAvgSentimentOverTimeData platform selectedBrands posts = Ok out
    /\ length (labels out) = length (sortedDays platform selectedBrands posts)
    /\ forall i d, sortedDays platform selectedBrands posts !! i = Some d ->
         exists ds score,
           ds ∈ datasets out /\ label ds ∈ selectedBrands
           /\ data ds !! i = Some (Some score).
Proof.
  pose proof (comparative_labels platform selectedBrands posts) as Hl.
  pose proof (comparativeAvgSentimentOverTimeData_eq platform selectedBrands posts)
    as Heq.
  destruct (comparativeAvgSentimentOverTimeData platform selectedBrands posts)
    as [out|e]; [|done].
  injection Heq as Heq. injection Hl as Hl.
  exists out. split; [reflexivity|].
  split; [by rewrite Hl, length_map|].
  intros i d Hi.
  assert (Hd : d ∈ sortedDays platform selectedBrands posts)
    by (by eapply list_elem_of_lookup_2).
  pose proof (sortedDays_range _ _ _ _ Hd) as Hr.
  apply elem_of_sortedDays in Hd.
  destruct (hasData selectedBrands posts) eqn:Hh;
    [|by rewrite hasData_false_groupedDays in Hd; [apply elem_of_nil in Hd|]].
  apply elem_of_groupedDays in Hd as (brand & post & Hb & Hp & Hd).
  destruct (lineDatasets_brand (grouping platform selectedBrands posts)
              selectedBrands brand Hb) as (ds & Hds & Hlab).
  destruct (dataset_vector _ _ _ _ Hds) as [Hin Hdata].
  assert (Hne : scoresAt (grouping platform selectedBrands posts) (dayKey d) brand
                <> []).
  { rewrite scoresAt_grouping by done. rewrite flat_map_select_nil by done.
    by eapply dayScores_nonempty. }
  exists ds, (average (scoresAt (grouping platform selectedBrands posts)
                                (dayKey d) brand)).
  split_and!; [by rewrite Heq|done|].
  rewrite Hdata, list_lookup_fmap, Hi, Hlab. cbn. f_equal.
  unfold meanOrNull.
  by destruct (scoresAt (grouping platform selectedBrands posts) (dayKey d) brand).
Qed.

Lemma fileScore_inStep (P : Brand -> Prop) d brand score g :
  P brand -> inStep P g -> inStep P (fileScore d brand score g).
Proof.
  intros HP [Hdates Hentries]. unfold fileScore, pushScore. split; cbn.
  - intros k. rewrite elem_of_setAdd, Hdates.
    destruct (decide (dayKey d = k)) as [<-|Hk].
    + rewrite lookup_insert_eq. split; [by eauto|by auto].
    + rewrite lookup_insert_ne by done. split; [|by auto].
      by intros [?| ->].
  - intros k byBrand. destruct (decide (dayKey d = k)) as [<-|Hk].
    + rewrite lookup_insert_eq. intros [= <-]. split.
      * apply insert_non_empty.
      * intros b scores. destruct (decide (brand = b)) as [<-|Hb].
        -- rewrite lookup_insert_eq. intros [= <-]. split; [|done].
           by destruct (default [] _).
        -- rewrite lookup_insert_ne by done.
           destruct (dailyBrandSentiments g !! dayKey d) as [byBrand|] eqn:E; cbn.
           ++ apply (Hentries _ _ E).
           ++ by rewrite lookup_empty.
    + rewrite lookup_insert_ne by done. apply Hentries.
Qed.

Lemma grouping_inStep platform selectedBrands posts (P : Brand -> Prop) :
  Forall P selectedBrands -> inStep P (grouping platform selectedBrands posts).
Proof.
  intros HP. unfold grouping.
  assert (Hstart : inStep P emptyGrouping).
  { split; cbn.
    - intros k. rewrite lookup_empty. split; [by intros ?%elem_of_nil|by intros []].
    - intros k byBrand. by rewrite lookup_empty. }
  revert Hstart. generalize emptyGrouping.
  induction HP as [|brand sb Hb HP IH]; intros g Hg; cbn [foldl]; [done|].
  apply IH. clear IH. revert g Hg.
  induction (brandPostsOf posts brand) as [|post l IHl]; intros g Hg; cbn [foldl];
    [done|].
  apply IHl. unfold filePost.
  destruct (postDay platform post); [|done].
  destruct (postScore post); [|done]. by apply fileScore_inStep.
Qed.

(** X15. The grouping loop returns, and leaves its two accumulators in
    step: [allDates] has no date twice, its dates are exactly the keys of
    [dailyBrandSentiments], each of them is the key of a UTC day, every
    day filed has at least one brand, and every brand of a day is a
    selected brand with at least one score.  So the test
    [scores.length > 0] before the mean never fails on a list that is
    there: a [null] in a vector always stands for a missing list. *)
Theorem X15_grouping_in_step platform selectedBrands posts :
  exists g,
    groupPosts platform selectedBrands posts = Ok g
    /\ NoDup (allDates g)
    /\ (forall k, k ∈ allDates g <-> is_Some (dailyBrandSentiments g !! k))
    /\ (forall k, k ∈ allDates g ->
          exists d, (Z.abs d <= 100000000)%Z /\ k = dayKey d
                    /\ parseDateOnly k = Some (d * msPerDay)%Z)
    /\ (forall k byBrand, dailyBrandSentiments g !! k = Some byBrand ->
          byBrand <> ∅
          /\ forall brand scores, byBrand !! brand = Some scores ->
               scores <> [] /\ brand ∈ selectedBrands)
    /\ (forall brand date,
          dailyMean g brand date = None
          <-> dailyBrandSentiments g !! date ≫= (fun byBrand => byBrand !! brand)
              = None).
Proof.
  rewrite groupPosts_eq. eexists. split; [reflexivity|].
  destruct (grouping_inStep platform selectedBrands posts (fun b => b ∈ selectedBrands))
    as [Hdates Hentries]; [by apply Forall_forall|].
  split_and!.
  - apply NoDup_allDates_grouping.
  - apply Hdates.
  - intros k Hk. apply allDates_grouping in Hk as (d & Hd & ->).
    apply groupedDays_range in Hd. exists d.
    by rewrite parseDateOnly_dayKey.
  - apply Hentries.
  - intros brand date. unfold dailyMean.
    destruct (dailyBrandSentiments _ !! date) as [byBrand|] eqn:E; cbn; [|done].
    destruct (byBrand !! brand) as [scores|] eqn:Es; [|done].
    destruct (Hentries _ _ E) as [_ Hb]. destruct (Hb _ _ Es) as [Hne _].
    unfold meanOrNull. by destruct scores.
Qed.

(** ** The hashtag component *)

(** X16. [HashtagSection] looks for posts on both platforms, whichever
    one is shown: [hasData] holds exactly when the context has data and a
    selected brand has a post on Instagram or on TikTok.  Without it the
    chart generator is not called and the fallback is shown; with it the
    chart is the generator's, and it is drawn exactly when it has a label. *)
Theorem X16_hashtag_fallback
    (generateChart : gmap Brand BrandData -> gmap Brand BrandData ->
                     list Brand -> SocialPlatform ->
                     ChartData string HashtagDataset)
    contextSocialData selectedBrands platform :
  (hashtagHasData contextSocialData selectedBrands = true
   <-> exists socialData brand,
         contextSocialData = Some socialData /\ brand ∈ selectedBrands
         /\ (postsIn (instagram socialData) brand <> []
             \/ postsIn (tiktok socialData) brand <> []))
  /\ (hashtagHasData contextSocialData selectedBrands = false ->
      unifiedChartDataWith generateChart contextSocialData selectedBrands platform
      = {| labels := []; datasets := [] |}
      /\ isFallback (renderHashtagsWith generateChart contextSocialData
                       selectedBrands platform) = true)
  /\ (hashtagHasData contextSocialData selectedBrands = true ->
      exists socialData,
        contextSocialData = Some socialData
        /\ unifiedChartDataWith generateChart contextSocialData selectedBrands
             platform
           = generateChart (instagram socialData) (tiktok socialData)
               selectedBrands platform
        /\ (isFallback (renderHashtagsWith generateChart contextSocialData
                          selectedBrands platform) = true
            <-> labels (generateChart (instagram socialData) (tiktok socialData)
                          selectedBrands platform) = []))
  /\ (forall chart,
        renderHashtagsWith generateChart contextSocialData selectedBrands platform
        = Chart chart ->
        labels chart <> []
        /\ chart = unifiedChartDataWith generateChart contextSocialData
                     selectedBrands platform).
Proof.
  split_and!.
  - unfold hashtagHasData. destruct contextSocialData as [socialData|].
    + rewrite existsb_exists. setoid_rewrite <-list_elem_of_In.
      setoid_rewrite orb_true_iff. setoid_rewrite Nat.ltb_lt. split.
      * intros (brand & Hb & Hl). exists socialData, brand.
        split_and!; [done..|].
        destruct Hl as [Hl|Hl]; [left|right]; intros E; rewrite E in Hl;
          cbn in Hl; lia.
      * intros (sd & brand & [= <-] & Hb & Hl). exists brand. split; [done|].
        destruct Hl as [Hl|Hl]; [left|right]; destruct (postsIn _ brand);
          try done; cbn; lia.
    + split; [done|]. by intros (sd & brand & [=] & _).
  - intros Hd. unfold renderHashtagsWith, unifiedChartDataWith. rewrite Hd.
    by destruct contextSocialData.
  - intros Hd. destruct contextSocialData as [socialData|]; [|done].
    exists socialData. unfold renderHashtagsWith, unifiedChartDataWith.
    rewrite Hd. cbn [negb orb]. split_and!; [done..|].
    destruct (labels (generateChart _ _ _ _)); cbn; split; done.
  - intros chart. unfold renderHashtagsWith. cbv zeta.
    destruct (negb _); cbn [orb]; [done|].
    destruct (labels (unifiedChartDataWith _ _ _ _)) eqn:E; cbn; [done|].
    intros [= <-]. by rewrite E.
Qed.

(** ** Vectors, labels and the empty state *)

(** C8 (amended). In the time-series output every vector has one entry
    per label, in label order, [null] exactly where the brand has no
    score filed under the day, and the line chart is drawn exactly when
    the label axis is not empty.  The reach output has the selected
    brands as labels and one number per label, never [null]; but
    [ReachSection] decides its fallback by [hasData] and not by the
    labels: an empty label list brings the fallback, and so does a
    non-empty one when no selected brand has a post.  Each doughnut of the
    distribution has three counts, and their slot shows the fallback when
    there is no doughnut.  [HashtagSection], over any chart generator,
    shows the fallback exactly when the chart it holds has no label. *)
Theorem C8_vectors_align
    (generateChart : gmap Brand BrandData -> gmap Brand BrandData ->
                     list Brand -> SocialPlatform ->
                     ChartData string HashtagDataset)
    platform selectedBrands posts contextSocialData :
  (exists out view,
     comparativeAvgSentimentOverTimeData platform selectedBrands posts = Ok out
     /\ renderSentiment platform selectedBrands posts = Ok view
     /\ labels out
        = map (fun d => formatDateForLabel host (dayKey d))
              (sortedDays platform selectedBrands posts)
     /\ Forall (fun ds => length (data ds) = length (labels out)) (datasets out)
     /\ (forall ds i d,
           ds ∈ datasets out ->
           sortedDays platform selectedBrands posts !! i = Some d ->
           is_Some (data ds !! i)
           /\ (data ds !! i = Some None
               <-> dayScores platform (brandPostsOf posts (label ds)) d = []))
     /\ showsLineChart view = negb (length (labels out) =? 0)
     /\ (forall timeSeries distributions,
           view = SentimentCharts timeSeries distributions ->
           isFallback distributions
           = (length (sentimentDistributionData selectedBrands posts) =? 0)))
  /\ Forall (fun d => length (distribution d) = 3)
            (sentimentDistributionData selectedBrands posts)
  /\ labels (totalReachByBrand platform selectedBrands posts) = selectedBrands
  /\ Forall (fun ds => length (barData ds)
                       = length (labels (totalReachByBrand platform
                                           selectedBrands posts)))
            (datasets (totalReachByBrand platform selectedBrands posts))
  /\ isFallback (renderReach platform selectedBrands posts)
     = negb (reachHasData selectedBrands posts)
  /\ (isFallback (renderReach platform selectedBrands posts) = true
      <-> forall brand, brand ∈ selectedBrands ->
            posts !! brand = None \/ posts !! brand = Some [])
  /\ (labels (totalReachByBrand platform selectedBrands posts) = [] ->
      isFallback (renderReach platform selectedBrands posts) = true)
  /\ (forall chart, renderReach platform selectedBrands posts = Chart chart ->
        chart = totalReachByBrand platform selectedBrands posts
        /\ labels chart <> [])
  /\ (isFallback (renderHashtagsWith generateChart contextSocialData
                    selectedBrands platform) = true
      <-> labels (unifiedChartDataWith generateChart contextSocialData
                    selectedBrands platform) = []).
Proof.
  assert (Hfb : isFallback (renderReach platform selectedBrands posts)
                = negb (reachHasData selectedBrands posts))
    by (unfold renderReach; by destruct (reachHasData selectedBrands posts)).
  split_and!.
  - destruct (timeSeries_vectors platform selectedBrands posts)
      as (out & view & Hout & Hview & Hl & Hlen & Hnull & Hshow).
    exists out, view. split_and!; [done..|].
    intros ts ds Hv. unfold renderSentiment in Hview. rewrite Hout in Hview.
    cbn in Hview. injection Hview as <-.
    destruct (negb _ && negb _); [done|].
    destruct (checkAndFixTikTokData _ _ _); [done|]. injection Hv as _ <-.
    by destruct (sentimentDistributionData selectedBrands posts).
  - rewrite distribution_eq. apply Forall_forall.
    by intros d (brand & -> & _)%list_elem_of_fmap.
  - done.
  - repeat constructor. cbn. rewrite reachValues_map. cbn.
    by rewrite length_map.
  - exact Hfb.
  - rewrite Hfb, negb_true_iff, <-hasData_reachHasData, <-not_true_iff_false.
    rewrite hasData_reachHasData, reachHasData_true. unfold brandPostsOf. split.
    + intros Hno brand Hb. destruct (posts !! brand) as [[|post l]|] eqn:E; auto.
      exfalso. apply Hno. exists brand. by rewrite E.
    + intros Hall (brand & Hb & Hne).
      by destruct (Hall brand Hb) as [E|E]; rewrite E in Hne.
  - intros Hl. change (selectedBrands = []) in Hl. by rewrite Hfb, Hl.
  - intros chart. unfold renderReach.
    destruct (reachHasData selectedBrands posts) eqn:E; cbn [negb]; [|done].
    intros [= <-]. split; [done|]. intros Hl.
    change (selectedBrands = []) in Hl. by rewrite Hl in E.
  - unfold renderHashtagsWith, unifiedChartDataWith. cbv zeta.
    destruct contextSocialData as [socialData|]; [|done].
    destruct (hashtagHasData (Some socialData) selectedBrands); cbn [negb orb];
      [|done].
    destruct (labels (generateChart _ _ _ _)); cbn; split; done.
Qed.

(** ** Order of the posts *)

Lemma countPost_swap c post post' :
  countPost (countPost c post) post' = countPost (countPost c post') post.
Proof.
  rewrite !countPost_class.
  by destruct (sentimentClass post) as [[]|], (sentimentClass post') as [[]|].
Qed.

Lemma foldl_countPost_Permutation l l' c :
  l ≡ₚ l' -> foldl countPost c l = foldl countPost c l'.
Proof.
  intros Hp. revert c.
  induction Hp as [|post l l' _ IH|post post' l|l1 l2 l3 _ IH1 _ IH2]; intros c;
    cbn [foldl].
  - done.
  - apply IH.
  - by rewrite countPost_swap.
  - by rewrite IH1.
Qed.

(** X17. The distribution does not depend on the order of a brand's
    posts: over posts that are, brand by brand, permutations of each
    other, it is the same list of doughnuts with the same counts. *)
Theorem X17_distribution_order_free selectedBrands posts posts' :
  (forall brand, brand ∈ selectedBrands ->
     brandPostsOf posts brand ≡ₚ brandPostsOf posts' brand) ->
  sentimentDistributionData selectedBrands posts
  = sentimentDistributionData selectedBrands posts'
  /\ forall brand, brand ∈ selectedBrands ->
       countPosts (brandPostsOf posts brand) = countPosts (brandPostsOf posts' brand).
Proof.
  intros Hposts.
  assert (Hc : forall brand, brand ∈ selectedBrands ->
             countPosts (brandPostsOf posts brand)
             = countPosts (brandPostsOf posts' brand)).
  { intros brand Hb. by apply foldl_countPost_Permutation, Hposts. }
  split; [|done]. unfold sentimentDistributionData.
  assert (Hd : hasData selectedBrands posts = hasData selectedBrands posts').
  { unfold hasData. cbv zeta. rewrite !totalPosts_sum. do 3 f_equal.
    apply map_ext_in. intros brand Hb%list_elem_of_In.
    by rewrite (Hposts brand Hb). }
  rewrite Hd. destruct (hasData selectedBrands posts'); cbn [negb]; [|done].
  f_equal. apply map_ext_in. intros brand Hb%list_elem_of_In.
  by rewrite (Hc brand Hb).
Qed.

End Dashboard.

(* ===================================================================== *)
(** * Part III: the properties at the sample data *)
(* ===================================================================== *)

(** The runtime model on values a JavaScript engine gives. *)
Example iso_epoch : toISOString (Some 0%Z) = Ok "1970-01-01T00:00:00.000Z".
Proof. reflexivity. Qed.

Example iso_leap_day :
  toISOString (Some 1709210096789%Z) = Ok "2024-02-29T12:34:56.789Z".
Proof. reflexivity. Qed.

Example iso_before_epoch :
  toISOString (Some (-1)%Z) = Ok "1969-12-31T23:59:59.999Z".
Proof. reflexivity. Qed.

Example iso_latest :
  toISOString (TimeClip 8.64e15) = Ok "+275760-09-13T00:00:00.000Z".
Proof. vm_compute. reflexivity. Qed.

Example clip_beyond : TimeClip (8.64e15 + 1) = None.
Proof. vm_compute. reflexivity. Qed.

Example clip_fraction : TimeClip (-1.5) = Some (-1)%Z.
Proof. vm_compute. reflexivity. Qed.

Example seconds_and_milliseconds :
  groupingDate utcHost jan1 = Some 1704067200000%Z
  /\ groupingDate utcHost jan2 = Some 1704153600000%Z
  /\ formatDateForGrouping utcHost jan1 = Ok "2024-01-01"
  /\ formatDateForGrouping utcHost (DStr "2024-01-02") = Ok "2024-01-02".
Proof. split_and!; vm_compute; reflexivity. Qed.

(** The scenarios of the specification. *)
Example scenario_distribution :
  countPosts [samplePost (Some jan1) (Value 0.5%float) None;
              samplePost (Some jan1) (Value (-0.5)%float) None]
  = {| positiveCount := 1; neutralCount := 0; negativeCount := 1 |}.
Proof. reflexivity. Qed.

Example scenario_hashtags :
  topHashtags (<["A" := {| posts := Some [taggedPost ["#sale"; "#sale"; "#new"]] |}]>
               (<["B" := {| posts := Some [taggedPost ["#sale"]] |}]> ∅))
              ∅ ["A"; "B"] Instagram 2
  = {| labels := ["#sale"; "#new"];
       datasets := [ {| hashtagBrand := "A"; hashtagCounts := [2; 1] |};
                     {| hashtagBrand := "B"; hashtagCounts := [1; 0] |} ] |}.
Proof. vm_compute. reflexivity. Qed.

Example sample_chart :
  comparativeAvgSentimentOverTimeData "Nordstrom" utcHost Instagram
    sampleBrands samplePosts
  = Ok {| labels := ["Jan 1"; "Jan 2"];
          datasets := [ {| label := "Nordstrom";
                           data := [Some 0%float; None];
                           borderColor := "#004170";
                           backgroundColor := "rgba(0, 65, 112, 0.1)" |};
                        {| label := "Macys";
                           data := [None; Some 0.25%float];
                           borderColor := "rgba(219, 68, 55, 1)";
                           backgroundColor := "rgba(219, 68, 55, 0.1)" |} ] |}.
Proof. vm_compute. reflexivity. Qed.

(** C1 as stated fails: a post with a valid day and no score is on no
    label, while the union of the valid days of all posts holds its day. *)
Lemma C1_counterexample :
  labels <$> comparativeAvgSentimentOverTimeData "Nordstrom" utcHost Instagram
               ["Nordstrom"] unscoredPosts
  = Ok []
  /\ map (fun d => formatDateForLabel utcHost (dayKey d))
         (unionOfValidDays utcHost Instagram ["Nordstrom"] unscoredPosts)
     = ["Jan 1"]
  /\ labels <$> comparativeAvgSentimentOverTimeData "Nordstrom" utcHost Instagram
                  ["Nordstrom"] unscoredPosts
     <> Ok (map (fun d => formatDateForLabel utcHost (dayKey d))
                (unionOfValidDays utcHost Instagram ["Nordstrom"] unscoredPosts)).
Proof. split_and!; vm_compute; [reflexivity..|discriminate]. Qed.

(** C6 as stated fails: second 253402300800 is 1 January of the year
    10000, whose key is not of the shape YYYY-MM-DD; and a number that is
    no time value has no key at all. *)
Lemma C6_counterexample :
  formatDateForGrouping utcHost (DNum 253402300800) = Ok "+010000-01-01"
  /\ isYMD "+010000-01-01" = false
  /\ formatDateForGrouping utcHost (DNum nan) = Ok "".
Proof. split_and!; vm_compute; reflexivity. Qed.

(** C7 as stated fails: with Nordstrom selected and no post at all, the
    output has no series. *)
Lemma C7_counterexample :
  "Nordstrom" ∈ ["Nordstrom"]
  /\ comparativeAvgSentimentOverTimeData "Nordstrom" utcHost Instagram
       ["Nordstrom"] ∅
     = Ok {| labels := []; datasets := [] |}.
Proof. split; [by left|reflexivity]. Qed.



(** C4 as stated fails: with reach counts 2^53, 1 and 1 the chart shows
    2^53, each addition of 1 being rounded away, while the sum of the
    three is 2^53 + 2, which is a double of its own.  And three posts of
    reach 2^53 - 1 each give 3 * 2^53 - 4, not 3 * (2^53 - 1). *)
Lemma C4_counterexample :
  map barData (datasets (totalReachByBrand Instagram ["Macys"] largePosts))
  = [[countNumber 9007199254740992]]
  /\ map (postReach Instagram) (brandPostsOf largePosts "Macys")
     = map countNumber [9007199254740992; 1; 1]%Z
  /\ sumZ [9007199254740992; 1; 1]%Z = 9007199254740994%Z
  /\ truncate (countNumber 9007199254740992) = 9007199254740992%Z
  /\ truncate (countNumber 9007199254740994) = 9007199254740994%Z
  /\ PrimFloat.eqb (countNumber 9007199254740992) (countNumber 9007199254740994)
     = false
  /\ map (postReach Instagram) (brandPostsOf equalPosts "Macys")
     = replicate 3 (countNumber 9007199254740991)
  /\ truncate (countNumber 9007199254740991) = 9007199254740991%Z
  /\ truncate (brandReach Instagram equalPosts "Macys") = 27021597764222972%Z
  /\ (3 * 9007199254740991 = 27021597764222973)%Z.
Proof. split_and!; vm_compute; reflexivity. Qed.

(** C8 as stated fails: with Macys selected and no post, the reach output
    has one label and one value, and [ReachSection] shows the fallback. *)
Lemma C8_counterexample :
  labels (totalReachByBrand Instagram ["Macys"] (∅ : gmap string (list Post)))
  = ["Macys"]
  /\ map barData
       (datasets (totalReachByBrand Instagram ["Macys"]
                    (∅ : gmap string (list Post))))
     = [[0%float]]
  /\ isFallback (renderReach Instagram ["Macys"] (∅ : gmap string (list Post)))
     = true.
Proof. split_and!; vm_compute; reflexivity. Qed.

(** C5 at a post whose timestamp is no date. *)
Lemma C5_witness :
  postTimestamp Instagram malformedPost = Some (DStr "not a date")
  /\ formatDateForGrouping utcHost (DStr "not a date") = Ok ""
  /\ (forall g, groupPost utcHost Instagram "Macys" g malformedPost = Ok g)
  /\ (forall selectedBrands (posts : gmap string (list Post)) l1 l2,
        posts !! "Macys" = Some (l1 ++ malformedPost :: l2) ->
        brandReach Instagram posts "Macys"
        = foldl PrimFloat.add
            (foldl PrimFloat.add 0 (map (postReach Instagram) l1) + 10)%float
            (map (postReach Instagram) l2)
        /\ groupPosts utcHost Instagram selectedBrands posts
           = groupPosts utcHost Instagram selectedBrands
               (<["Macys" := l1 ++ l2]> posts)).
Proof.
  assert (Hts : postTimestamp Instagram malformedPost = Some (DStr "not a date"))
    by reflexivity.
  assert (Hkey : formatDateForGrouping utcHost (DStr "not a date") = Ok "")
    by (vm_compute; reflexivity).
  destruct (C5_malformed_timestamp "Nordstrom" utcHost Instagram "Macys"
              malformedPost (DStr "not a date") Hts Hkey)
    as (Hpost & Hchart & _).
  split_and!; [exact Hts|exact Hkey|exact Hpost|].
  intros selectedBrands posts l1 l2 Hposts.
  destruct (Hchart selectedBrands posts l1 l2 Hposts) as (Hg & _ & Hr & _).
  split; [exact Hr|exact Hg].
Defined.

(** C7 at the sample data: Nordstrom is selected second and drawn first. *)
Lemma C7_witness :
  "Nordstrom" ∈ sampleBrands
  /\ hasData sampleBrands samplePosts = true
  /\ exists out,
       comparativeAvgSentimentOverTimeData "Nordstrom" utcHost Instagram
         sampleBrands samplePosts = Ok out
       /\ map label (datasets out) = ["Nordstrom"; "Macys"].
Proof.
  assert (HN : "Nordstrom" ∈ sampleBrands) by (right; left).
  assert (Hd : hasData sampleBrands samplePosts = true) by reflexivity.
  destruct (C7_series_order "Nordstrom" utcHost Instagram sampleBrands samplePosts
              HN) as (out & Hout & _ & Hseries).
  destruct (Hseries Hd) as (Hlabels & _).
  split_and!; [exact HN|exact Hd|]. exists out. split; [exact Hout|exact Hlabels].
Defined.

(** C10 at a post stamped with second 0. *)
Lemma C10_witness :
  truthyDate (postTimestamp Instagram epochPost) = false
  /\ (forall g, groupPost utcHost Instagram "Macys" g epochPost = Ok g)
  /\ formatDateForGrouping utcHost (DNum 0) = Ok "1970-01-01".
Proof.
  assert (Hf : truthyDate (postTimestamp Instagram epochPost) = false)
    by reflexivity.
  destruct (C10_falsy_timestamp "Nordstrom" utcHost Instagram "Macys" epochPost Hf)
    as (Hpost & _ & _ & _ & _ & _ & _ & Hkey).
  split_and!; [exact Hf|exact Hpost|exact Hkey].
Defined.

(** ** The label of a day in other time zones *)

(** X18. On a host in a time zone at a fixed offset from UTC, the label of
    a day key shows the month and the day of the key itself, the same
    label as on a host in UTC: adding the zone's offset before formatting
    undoes the shift to local time (as long as the shifted time is a
    valid time value). *)
Theorem X18_label_fixed_offset offset d :
  (Z.abs d <= 100000000)%Z ->
  (Z.abs (d * msPerDay + offset * 60000) <= maxTime)%Z ->
  formatDateForLabel (zoneHost offset) (dayKey d)
  = monthShort (MonthFromTime (d * msPerDay)) +:+ " "
    +:+ dayNumeric (DateFromTime (d * msPerDay))
  /\ formatDateForLabel (zoneHost offset) (dayKey d)
     = formatDateForLabel utcHost (dayKey d)
  /\ (0 <= MonthFromTime (d * msPerDay) <= 11)%Z
  /\ (1 <= DateFromTime (d * msPerDay) <= 31)%Z.
Proof.
  intros Hd Hr.
  assert (Hu : formatDateForLabel utcHost (dayKey d)
               = monthShort (MonthFromTime (d * msPerDay)) +:+ " "
                 +:+ dayNumeric (DateFromTime (d * msPerDay))).
  { unfold formatDateForLabel. rewrite Date_ofString_dayKey by done.
    cbn [mbind option_bind getTimezoneOffset utcHost]. unfold TimeClipZ.
    replace (d * msPerDay + 0 * 60000)%Z with (d * msPerDay)%Z by lia.
    pose proof (valid_day_midnight d Hd).
    destruct (Z.leb_spec (Z.abs (d * msPerDay)) maxTime); [done|lia]. }
  assert (Hz : formatDateForLabel (zoneHost offset) (dayKey d)
               = monthShort (MonthFromTime (d * msPerDay)) +:+ " "
                 +:+ dayNumeric (DateFromTime (d * msPerDay))).
  { unfold formatDateForLabel. rewrite Date_ofString_dayKey by done.
    cbn [mbind option_bind getTimezoneOffset zoneHost]. unfold TimeClipZ.
    destruct (Z.leb_spec (Z.abs (d * msPerDay + offset * 60000)) maxTime); [|lia].
    cbn [toLocaleDateString zoneHost]. cbv zeta.
    by replace (d * msPerDay + offset * 60000 - offset * 60000)%Z
      with (d * msPerDay)%Z by lia. }
  destruct (calendar_fields (d * msPerDay)) as (Hm & Hdt & Hdt' & _).
  split_and!; [exact Hz|by rewrite Hz, Hu|lia..].
Qed.

(** X18 in the zone five hours behind UTC: the key of 1 January 2024 is
    labelled Jan 1. *)
Lemma X18_witness :
  (Z.abs 19723 <= 100000000)%Z
  /\ (Z.abs (19723 * msPerDay + 300 * 60000) <= maxTime)%Z
  /\ dayKey 19723 = "2024-01-01"
  /\ formatDateForLabel (zoneHost 300) (dayKey 19723) = "Jan 1".
Proof.
  assert (Hd : (Z.abs 19723 <= 100000000)%Z) by (cbn; lia).
  assert (Hr : (Z.abs (19723 * msPerDay + 300 * 60000) <= maxTime)%Z)
    by (unfold msPerDay, maxTime; lia).
  split_and!; [exact Hd|exact Hr|reflexivity|].
  exact (proj1 (X18_label_fixed_offset 300 19723 Hd Hr)).
Defined.

(** X6 at a post with the score NaN and the label positive. *)
Lemma X6_witness :
  PrimFloat.is_nan nan = true
  /\ countPost {| positiveCount := 0; neutralCount := 0; negativeCount := 0 |}
       {| timestamp := None; createTime := None; sentimentScore := Value nan;
          sentimentLabel := Value LabelPositive; reach := None;
          impressions := None; views := None; text := None; hashtags := None |}
     = {| positiveCount := 0; neutralCount := 1; negativeCount := 0 |}.
Proof.
  split; [reflexivity|].
  exact (proj1 (X6_nan_score_neutral
                  {| positiveCount := 0; neutralCount := 0; negativeCount := 0 |}
                  {| timestamp := None; createTime := None;
                     sentimentScore := Value nan;
                     sentimentLabel := Value LabelPositive; reach := None;
                     impressions := None; views := None; text := None;
                     hashtags := None |}
                  nan eq_refl eq_refl)).
Defined.

(** X9 at second 1704067200: its key reads back as itself. *)
Lemma X9_witness :
  formatDateForGrouping utcHost jan1 = Ok "2024-01-01"
  /\ "2024-01-01" <> ""
  /\ formatDateForGrouping utcHost (DStr "2024-01-01") = Ok "2024-01-01".
Proof.
  assert (Hk : formatDateForGrouping utcHost jan1 = Ok "2024-01-01")
    by reflexivity.
  assert (Hne : "2024-01-01" <> "") by discriminate.
  destruct (X9_key_round_trip utcHost jan1 "2024-01-01" Hk Hne)
    as (d & _ & _ & _ & _ & _ & Hback).
  split_and!; [exact Hk|exact Hne|exact Hback].
Defined.

(** X10 at midnight of 1 January 2024, given in seconds, and one hour
    later, given in milliseconds. *)
Lemma X10_witness :
  groupingDate utcHost jan1 = Some 1704067200000%Z
  /\ groupingDate utcHost (DNum 1704070800000) = Some 1704070800000%Z
  /\ formatDateForGrouping utcHost jan1
     = formatDateForGrouping utcHost (DNum 1704070800000).
Proof.
  assert (Ha : groupingDate utcHost jan1 = Some 1704067200000%Z) by reflexivity.
  assert (Hb : groupingDate utcHost (DNum 1704070800000) = Some 1704070800000%Z)
    by reflexivity.
  split_and!; [exact Ha|exact Hb|].
  apply (proj1 (X10_same_day_same_key utcHost _ _ _ _ Ha Hb)). reflexivity.
Defined.

(** X11 at the sample data with Macys alone selected. *)
Lemma X11_witness :
  ("Nordstrom" ∉ ["Macys"])
  /\ hasData ["Macys"] samplePosts = true
  /\ exists out,
       comparativeAvgSentimentOverTimeData "Nordstrom" utcHost Instagram
         ["Macys"] samplePosts = Ok out
       /\ map label (datasets out) = ["Macys"].
Proof.
  assert (HN : "Nordstrom" ∉ ["Macys"]).
  { intros Hin. apply list_elem_of_singleton in Hin. discriminate. }
  assert (Hd : hasData ["Macys"] samplePosts = true) by reflexivity.
  destruct (X11_series_without_primary "Nordstrom" utcHost Instagram ["Macys"]
              samplePosts HN Hd) as (out & Hout & Hlabels & _).
  split_and!; [exact HN|exact Hd|]. exists out. split; [exact Hout|exact Hlabels].
Defined.

(** X13 at the sample data: the selection in either order. *)
Lemma X13_witness :
  (sampleBrands ≡ₚ ["Nordstrom"; "Macys"])
  /\ labels <$> comparativeAvgSentimentOverTimeData "Nordstrom" utcHost Instagram
                  sampleBrands samplePosts
     = labels <$> comparativeAvgSentimentOverTimeData "Nordstrom" utcHost Instagram
                    ["Nordstrom"; "Macys"] samplePosts.
Proof.
  assert (Hp : sampleBrands ≡ₚ ["Nordstrom"; "Macys"]) by apply perm_swap.
  split; [exact Hp|].
  apply (X13_axis_order_free "Nordstrom" utcHost Instagram _ _ samplePosts samplePosts
           Hp).
  intros brand _. reflexivity.
Defined.

(** X17 at the sample data, with Nordstrom's two posts in the other
    order. *)
Lemma X17_witness :
  (forall brand, brand ∈ ["Nordstrom"] ->
     brandPostsOf samplePosts brand
     ≡ₚ brandPostsOf
          (<["Nordstrom" := [samplePost (Some jan1) (Value (-0.5)%float) (Some 10%Z);
                             samplePost (Some jan1) (Value 0.5%float) (Some 10%Z)]]>
             samplePosts) brand)
  /\ sentimentDistributionData ["Nordstrom"] samplePosts
     = sentimentDistributionData ["Nordstrom"]
         (<["Nordstrom" := [samplePost (Some jan1) (Value (-0.5)%float) (Some 10%Z);
                            samplePost (Some jan1) (Value 0.5%float) (Some 10%Z)]]>
            samplePosts).
Proof.
  assert (Hp : forall brand, brand ∈ ["Nordstrom"] ->
     brandPostsOf samplePosts brand
     ≡ₚ brandPostsOf
          (<["Nordstrom" := [samplePost (Some jan1) (Value (-0.5)%float) (Some 10%Z);
                             samplePost (Some jan1) (Value 0.5%float) (Some 10%Z)]]>
             samplePosts) brand).
  { intros brand Hb. apply list_elem_of_singleton in Hb. subst brand.
    apply perm_swap. }
  split; [exact Hp|].
  exact (proj1 (X17_distribution_order_free ["Nordstrom"] samplePosts _ Hp)).
Defined.
